(** * PyRunner_MCP: the persistent kernel and its supervisor

    A shallow embedding of [kernel_server.py] (the execution engine, the
    command dispatcher and the listener loop) and of the kernel management
    part of [PyRunner_MCP.py] (the supervisor and the RPC caller), followed by
    the properties the specification states about them.

    Conventions of the embedding.
    - A Python [str] and a Python [bytes] are both carried as a Rocq [string]
      of bytes: a [str] is represented by its UTF-8 encoding, so
      [bytes.decode("utf-8")] checks well-formedness and is the identity on
      the bytes.  Lengths coincide with Python's on ASCII text.
    - A Python object that [json] can produce or consume is a [json] value;
      the values user code binds in the namespace are [value]s.
    - A Python [dict] is an association list in insertion order.
    - Raising is explicit: a computation that can raise returns an [outcome].
    - The process-wide mutable state of the kernel (the module globals, the
      builtins, [sys.stdout] / [sys.stderr] and the streams that are closed)
      is the record [kernel], passed explicitly.
    - What depends on the version of the interpreter (its Unicode tables) is
      a parameter, the record [interpreter]. *)

From Stdlib Require Import ZArith List String Ascii Bool Lia DecimalString.
From Stdlib Require Decimal DecimalPos.
Import ListNotations.
Local Open Scope string_scope.
Set Warnings "-register-all".

(** ** Strings and bytes *)

Definition dquote : ascii := "034"%char.
Definition squote : ascii := "039"%char.
Definition backslash : ascii := "092"%char.
Definition newline : ascii := "010"%char.

(** [nl] is the one-character string holding a line feed. *)
Definition nl : string := String newline "".

(** [s.startswith(p)] *)
Definition startswith (s p : string) : bool := String.prefix p s.

(** [sub in s] for two strings *)
Fixpoint contains (sub s : string) : bool :=
  String.prefix sub s
  || match s with
     | EmptyString => false
     | String _ r => contains sub r
     end.

(** Character codes are numbers in [N]. *)
Definition code (c : ascii) : N := N_of_ascii c.
Definition chr (n : N) : ascii := ascii_of_N n.

Definition in_range (lo hi n : N) : bool := (N.leb lo n && N.leb n hi)%bool.

Definition lower_char (c : ascii) : ascii :=
  if in_range 65 90 (code c) then chr (code c + 32) else c.

(** What [s.lower()] is on ASCII text: the 26 capital letters are lowered.
    ([str.lower] itself follows the Unicode tables of the interpreter: see
    [interpreter].) *)
Fixpoint lower (s : string) : string :=
  match s with
  | EmptyString => EmptyString
  | String c r => String (lower_char c) (lower r)
  end.





(** A byte that continues a character of a UTF-8 text. *)
Definition continues (c : ascii) : bool := in_range 128 191 (code c).

(** [s[:n]] for a [str]: its first [n] characters, each with the bytes that
    continue it. *)
Fixpoint take (n : nat) (s : string) : string :=
  match s with
  | EmptyString => EmptyString
  | String c r =>
      if continues c then String c (take n r)
      else
        match n with
        | O => EmptyString
        | S m => String c (take m r)
        end
  end.

(** [len(s)] for a [str]: the number of its characters. *)
Fixpoint len (s : string) : nat :=
  match s with
  | EmptyString => O
  | String c r => if continues c then len r else S (len r)
  end.

(** [bool(s)] for a string or a bytes object *)
Definition nonempty (s : string) : bool :=
  match s with
  | EmptyString => false
  | String _ _ => true
  end.

(** [str(n)] for an int *)
Definition str_of_Z (z : Z) : string := NilZero.string_of_int (Z.to_int z).

(** The integer nearest to [n / d], ties to even ([0 < d]). *)
Definition round_half_even (n d : Z) : Z :=
  let q := (n / d)%Z in
  let r := (n mod d)%Z in
  if (2 * r <? d)%Z then q
  else if (d <? 2 * r)%Z then (q + 1)%Z
  else if Z.even q then q else (q + 1)%Z.

(** [f"{n / d:.1f}"] for [0 <= n] and [0 < d].  The quotients formatted in the
    source divide by a power of two, which is exact on floats, and the
    formatting rounds the exact value to the nearest tenth. *)
Definition format_1f (n d : Z) : string :=
  let t := round_half_even (10 * n) d in
  str_of_Z (t / 10) ++ "." ++ str_of_Z (t mod 10)%Z.

(** [data.replace(old, new)] on bytes: the occurrences of [old] are replaced
    from left to right, without overlap.  [skip] counts the characters of an
    occurrence that are still to be dropped. *)
Fixpoint replace_from (skip : nat) (old new s : string) : string :=
  match s with
  | EmptyString => EmptyString
  | String c r =>
      match skip with
      | S k => replace_from k old new r
      | O =>
          if (nonempty old && String.prefix old s)%bool
          then new ++ replace_from (String.length old - 1) old new r
          else String c (replace_from O old new r)
      end
  end.

Definition replace (old new s : string) : string := replace_from O old new s.

(** ** Exceptions *)

(** An exception that is being raised: the name of its class, [str(e)],
    whether it is an instance of [Exception] (an [except Exception] clause
    lets the others through), and the text [traceback.format_exc()] makes of
    it while it is handled.  That text names files and line numbers and
    follows the causes and notes of the exception: it comes with the
    exception, the model does not build it. *)
Record exc := mkException {
  exc_class : string;
  exc_msg : string;
  is_Exception : bool;
  exc_trace : string
}.

(** The builtin classes that derive from [BaseException] but not from
    [Exception]. *)
Definition base_only_classes : list string :=
  ["BaseException"; "SystemExit"; "KeyboardInterrupt"; "GeneratorExit";
   "BaseExceptionGroup"; "CancelledError"].

(** An exception of a builtin class, as the library raises it.  Its trace
    here is the first and the last line of the text, the lines of the frames
    between them left out. *)
Definition mkExc (cls msg : string) : exc :=
  mkException cls msg
    (negb (existsb (String.eqb cls) base_only_classes))
    ("Traceback (most recent call last):" ++ nl
     ++ cls ++ (if nonempty msg then ": " ++ msg else "") ++ nl).

(** [str(e)] *)
Definition str_of_exc (e : exc) : string := exc_msg e.

Inductive outcome (A : Type) : Type :=
| Ok (a : A)
| Raise (e : exc).
Arguments Ok {A} a.
Arguments Raise {A} e.

(** ** JSON documents *)

(** The Python objects [json.loads] builds and [json.dumps] accepts.  A float
    keeps its decimal text. *)
Inductive json : Type :=
| JNull
| JBool (b : bool)
| JInt (z : Z)
| JFloat (text : string)
| JStr (s : string)
| JList (l : list json)
| JDict (d : list (string * json)).

(** ** Dictionaries in insertion order *)

Section Dict.
Context {V : Type}.

Fixpoint dict_get (d : list (string * V)) (k : string) : option V :=
  match d with
  | [] => None
  | (k', v) :: r => if String.eqb k' k then Some v else dict_get r k
  end.

(** [d[k] = v]: an existing key keeps its place. *)
Fixpoint dict_set (d : list (string * V)) (k : string) (v : V)
  : list (string * V) :=
  match d with
  | [] => [(k, v)]
  | (k', v') :: r =>
      if String.eqb k' k then (k', v) :: r else (k', v') :: dict_set r k v
  end.

Fixpoint dict_del (d : list (string * V)) (k : string) : list (string * V) :=
  match d with
  | [] => []
  | (k', v') :: r =>
      if String.eqb k' k then r else (k', v') :: dict_del r k
  end.

(** [d.get(k, default)] *)
Definition dict_get_default (d : list (string * V)) (k : string) (dflt : V) : V :=
  match dict_get d k with
  | Some v => v
  | None => dflt
  end.
End Dict.

(** ** Values bound in the namespace *)

(** [VModule] is a module built into the interpreter (such as [sys]),
    [VExcClass] a builtin exception class that can be raised without
    arguments, [VBuiltinFn] a builtin function, [VBuiltins] the dictionary of
    the builtins.  [VObject] stands for any other object, an instance of a
    class of the user for one: it carries the name of its type, what [repr]
    returns or raises on it, and the names its methods [__repr__] and
    [__sizeof__] bind in the module globals when they run, if they do such a
    thing.  An object that answers differently from one call to the next is
    not represented. *)
Inductive value : Type :=
| VNone
| VBool (b : bool)
| VInt (z : Z)
| VStr (s : string)
| VModule (name : string)
| VExcClass (name : string)
| VBuiltins
| VBuiltinFn (name : string)
| VObject (tyname : string) (repr_result : outcome string)
          (binds : list (string * value)).

(** [type(v).__name__] *)
Definition type_name (v : value) : string :=
  match v with
  | VNone => "NoneType"
  | VBool _ => "bool"
  | VInt _ => "int"
  | VStr _ => "str"
  | VModule _ => "module"
  | VExcClass _ => "type"
  | VBuiltins => "dict"
  | VBuiltinFn _ => "builtin_function_or_method"
  | VObject t _ _ => t
  end.

Definition hex_digit (n : N) : ascii :=
  if N.ltb n 10 then chr (48 + n) else chr (87 + n).

(** The escape of one character inside [repr] of a [str] delimited by [q]. *)
Definition repr_char (q c : ascii) : string :=
  let n := code c in
  if Ascii.eqb c backslash then String backslash (String backslash "")
  else if Ascii.eqb c q then String backslash (String q "")
  else if N.eqb n 10 then String backslash "n"
  else if N.eqb n 13 then String backslash "r"
  else if N.eqb n 9 then String backslash "t"
  else if (N.ltb n 32 || N.eqb n 127)%bool
       then String backslash
              (String "x" (String (hex_digit (n / 16)) (String (hex_digit (n mod 16)) "")))
  else String c "".

Fixpoint repr_chars (q : ascii) (s : string) : string :=
  match s with
  | EmptyString => EmptyString
  | String c r => repr_char q c ++ repr_chars q r
  end.

(** What [repr(s)] is for a [str] of ASCII characters: single quotes, unless
    the text holds a single quote and no double quote.  (Which characters
    above ASCII [repr] escapes follows the Unicode tables of the
    interpreter: see [interpreter].) *)
Definition repr_str (s : string) : string :=
  let q :=
    if (contains (String squote "") s && negb (contains (String dquote "") s))%bool
    then dquote else squote in
  String q (repr_chars q s ++ String q "").

(** What the engine takes from the interpreter that runs it and that differs
    from one version of Python to another: [str.lower] and the [repr] of a
    [str], which follow the Unicode tables, the [repr] of the dictionary of
    the builtins, and the most digits an [int] may have to be converted to
    text, where there is such a limit. *)
Record interpreter : Type := mkInterpreter {
  str_lower : string -> string;
  str_repr : string -> string;
  builtins_repr : string;
  int_max_str_digits : option nat
}.

(** An interpreter for ASCII text, with the limit Python 3.11 starts with. *)
Definition ascii_python : interpreter :=
  mkInterpreter lower repr_str "{...}" (Some 4300).

(** [repr(z)] for an [int]: its digits are counted without the sign. *)
Definition int_repr (python : interpreter) (z : Z) : outcome string :=
  match int_max_str_digits python with
  | Some limit =>
      if Nat.ltb limit (String.length (str_of_Z (Z.abs z)))
      then Raise (mkExc "ValueError"
                    ("Exceeds the limit (" ++ str_of_Z (Z.of_nat limit)
                     ++ " digits) for integer string conversion; "
                     ++ "use sys.set_int_max_str_digits() to increase the limit"))
      else Ok (str_of_Z z)
  | None => Ok (str_of_Z z)
  end.

(** [repr(v)] *)
Definition py_repr (python : interpreter) (v : value) : outcome string :=
  match v with
  | VNone => Ok "None"
  | VBool true => Ok "True"
  | VBool false => Ok "False"
  | VInt z => int_repr python z
  | VStr s => Ok (str_repr python s)
  | VModule name => Ok ("<module '" ++ name ++ "' (built-in)>")
  | VExcClass name => Ok ("<class '" ++ name ++ "'>")
  | VBuiltins => Ok (builtins_repr python)
  | VBuiltinFn name => Ok ("<built-in function " ++ name ++ ">")
  | VObject _ r _ => r
  end.

Definition namespace : Type := list (string * value).

(** ** The kernel process state *)

(** The objects [sys.stdout] and [sys.stderr] can refer to: the two streams
    the process started with, and the [SafeStringIO] buffers, told apart by
    their identity. *)
Inductive stream : Type :=
| ProcessStdout
| ProcessStderr
| SafeStringIO (id : nat).

Definition stream_eqb (a b : stream) : bool :=
  match a, b with
  | ProcessStdout, ProcessStdout => true
  | ProcessStderr, ProcessStderr => true
  | SafeStringIO i, SafeStringIO j => Nat.eqb i j
  | _, _ => false
  end.

(** [written] logs every write, oldest first; [next_id] is the identity of the
    next [SafeStringIO] to be constructed; [closed] lists the buffers that
    were closed (closing a stream of the process is not modelled);
    [builtins] is what the module [builtins] holds. *)
Record kernel : Type := mkKernel {
  global_namespace : namespace;
  KERNEL_START_TIME : Z;
  sys_stdout : stream;
  sys_stderr : stream;
  written : list (stream * string);
  next_id : nat;
  closed : list nat;
  builtins : namespace
}.

Definition set_namespace (ns : namespace) (k : kernel) : kernel :=
  mkKernel ns (KERNEL_START_TIME k) (sys_stdout k) (sys_stderr k)
           (written k) (next_id k) (closed k) (builtins k).

Definition set_stdout (s : stream) (k : kernel) : kernel :=
  mkKernel (global_namespace k) (KERNEL_START_TIME k) s (sys_stderr k)
           (written k) (next_id k) (closed k) (builtins k).

Definition set_stderr (s : stream) (k : kernel) : kernel :=
  mkKernel (global_namespace k) (KERNEL_START_TIME k) (sys_stdout k) s
           (written k) (next_id k) (closed k) (builtins k).

Definition is_closed (s : stream) (k : kernel) : bool :=
  match s with
  | SafeStringIO i => existsb (Nat.eqb i) (closed k)
  | _ => false
  end.

(** The [ValueError] of an operation on a closed buffer. *)
Definition closed_file : exc := mkExc "ValueError" "I/O operation on closed file".

(** [s.write(text)] *)
Definition write (s : stream) (text : string) (k : kernel) : kernel :=
  mkKernel (global_namespace k) (KERNEL_START_TIME k) (sys_stdout k)
           (sys_stderr k) (written k ++ [(s, text)]) (next_id k)
           (closed k) (builtins k).

(** [s.close()] for the buffer of identity [i] *)
Definition close (i : nat) (k : kernel) : kernel :=
  mkKernel (global_namespace k) (KERNEL_START_TIME k) (sys_stdout k)
           (sys_stderr k) (written k) (next_id k)
           (if existsb (Nat.eqb i) (closed k) then closed k else i :: closed k)
           (builtins k).

(** [SafeStringIO()]: a fresh buffer, empty and open. *)
Definition new_SafeStringIO (k : kernel) : stream * kernel :=
  (SafeStringIO (next_id k),
   mkKernel (global_namespace k) (KERNEL_START_TIME k) (sys_stdout k)
            (sys_stderr k) (written k) (S (next_id k))
            (filter (fun i => negb (Nat.eqb i (next_id k))) (closed k))
            (builtins k)).

Fixpoint text_of (s : stream) (log : list (stream * string)) : string :=
  match log with
  | [] => EmptyString
  | (s', t) :: r => if stream_eqb s' s then t ++ text_of s r else text_of s r
  end.

(** [s.getvalue()]: it raises on a buffer that was closed. *)
Definition getvalue (s : stream) (k : kernel) : outcome string :=
  if is_closed s k then Raise closed_file else Ok (text_of s (written k)).

(** The module globals as line 86 makes them. *)
Definition initial_namespace : namespace := [("__name__", VStr "__main__")].

(** What the module [builtins] holds when CPython 3.11 starts, in its
    order.  An exception class that cannot be raised without arguments, and
    any class that is no exception, is an object like any other here. *)
Definition python_builtins : list (string * value) :=
  [("__name__", VStr ("builtins"));
  ("__doc__", VStr ("Built-in functions, exceptions, and other objects." ++ nl ++ nl ++ "Noteworthy: None is the `nil' object; Ellipsis represents `...' in slices."));
  ("__package__", VStr (""));
  ("__loader__", VObject "type" (Ok ("<class '_frozen_importlib.BuiltinImporter'>")) []);
  ("__spec__", VObject "ModuleSpec" (Ok ("ModuleSpec(name='builtins', loader=<class '_frozen_importlib.BuiltinImporter'>, origin='built-in')")) []);
  ("__build_class__", VBuiltinFn "__build_class__");
  ("__import__", VBuiltinFn "__import__");
  ("abs", VBuiltinFn "abs");
  ("all", VBuiltinFn "all");
  ("any", VBuiltinFn "any");
  ("ascii", VBuiltinFn "ascii");
  ("bin", VBuiltinFn "bin");
  ("breakpoint", VBuiltinFn "breakpoint");
  ("callable", VBuiltinFn "callable");
  ("chr", VBuiltinFn "chr");
  ("compile", VBuiltinFn "compile");
  ("delattr", VBuiltinFn "delattr");
  ("dir", VBuiltinFn "dir");
  ("divmod", VBuiltinFn "divmod");
  ("eval", VBuiltinFn "eval");
  ("exec", VBuiltinFn "exec");
  ("format", VBuiltinFn "format");
  ("getattr", VBuiltinFn "getattr");
  ("globals", VBuiltinFn "globals");
  ("hasattr", VBuiltinFn "hasattr");
  ("hash", VBuiltinFn "hash");
  ("hex", VBuiltinFn "hex");
  ("id", VBuiltinFn "id");
  ("input", VBuiltinFn "input");
  ("isinstance", VBuiltinFn "isinstance");
  ("issubclass", VBuiltinFn "issubclass");
  ("iter", VBuiltinFn "iter");
  ("aiter", VBuiltinFn "aiter");
  ("len", VBuiltinFn "len");
  ("locals", VBuiltinFn "locals");
  ("max", VBuiltinFn "max");
  ("min", VBuiltinFn "min");
  ("next", VBuiltinFn "next");
  ("anext", VBuiltinFn "anext");
  ("oct", VBuiltinFn "oct");
  ("ord", VBuiltinFn "ord");
  ("pow", VBuiltinFn "pow");
  ("print", VBuiltinFn "print");
  ("repr", VBuiltinFn "repr");
  ("round", VBuiltinFn "round");
  ("setattr", VBuiltinFn "setattr");
  ("sorted", VBuiltinFn "sorted");
  ("sum", VBuiltinFn "sum");
  ("vars", VBuiltinFn "vars");
  ("None", VNone);
  ("Ellipsis", VObject "ellipsis" (Ok ("Ellipsis")) []);
  ("NotImplemented", VObject "NotImplementedType" (Ok ("NotImplemented")) []);
  ("False", VBool false);
  ("True", VBool true);
  ("bool", VObject "type" (Ok ("<class 'bool'>")) []);
  ("memoryview", VObject "type" (Ok ("<class 'memoryview'>")) []);
  ("bytearray", VObject "type" (Ok ("<class 'bytearray'>")) []);
  ("bytes", VObject "type" (Ok ("<class 'bytes'>")) []);
  ("classmethod", VObject "type" (Ok ("<class 'classmethod'>")) []);
  ("complex", VObject "type" (Ok ("<class 'complex'>")) []);
  ("dict", VObject "type" (Ok ("<class 'dict'>")) []);
  ("enumerate", VObject "type" (Ok ("<class 'enumerate'>")) []);
  ("filter", VObject "type" (Ok ("<class 'filter'>")) []);
  ("float", VObject "type" (Ok ("<class 'float'>")) []);
  ("frozenset", VObject "type" (Ok ("<class 'frozenset'>")) []);
  ("property", VObject "type" (Ok ("<class 'property'>")) []);
  ("int", VObject "type" (Ok ("<class 'int'>")) []);
  ("list", VObject "type" (Ok ("<class 'list'>")) []);
  ("map", VObject "type" (Ok ("<class 'map'>")) []);
  ("object", VObject "type" (Ok ("<class 'object'>")) []);
  ("range", VObject "type" (Ok ("<class 'range'>")) []);
  ("reversed", VObject "type" (Ok ("<class 'reversed'>")) []);
  ("set", VObject "type" (Ok ("<class 'set'>")) []);
  ("slice", VObject "type" (Ok ("<class 'slice'>")) []);
  ("staticmethod", VObject "type" (Ok ("<class 'staticmethod'>")) []);
  ("str", VObject "type" (Ok ("<class 'str'>")) []);
  ("super", VObject "type" (Ok ("<class 'super'>")) []);
  ("tuple", VObject "type" (Ok ("<class 'tuple'>")) []);
  ("type", VObject "type" (Ok ("<class 'type'>")) []);
  ("zip", VObject "type" (Ok ("<class 'zip'>")) []);
  ("__debug__", VBool true);
  ("BaseException", VExcClass "BaseException");
  ("BaseExceptionGroup", VObject "type" (Ok ("<class 'BaseExceptionGroup'>")) []);
  ("Exception", VExcClass "Exception");
  ("GeneratorExit", VExcClass "GeneratorExit");
  ("KeyboardInterrupt", VExcClass "KeyboardInterrupt");
  ("SystemExit", VExcClass "SystemExit");
  ("ArithmeticError", VExcClass "ArithmeticError");
  ("AssertionError", VExcClass "AssertionError");
  ("AttributeError", VExcClass "AttributeError");
  ("BufferError", VExcClass "BufferError");
  ("EOFError", VExcClass "EOFError");
  ("ImportError", VExcClass "ImportError");
  ("LookupError", VExcClass "LookupError");
  ("MemoryError", VExcClass "MemoryError");
  ("NameError", VExcClass "NameError");
  ("OSError", VExcClass "OSError");
  ("ReferenceError", VExcClass "ReferenceError");
  ("RuntimeError", VExcClass "RuntimeError");
  ("StopAsyncIteration", VExcClass "StopAsyncIteration");
  ("StopIteration", VExcClass "StopIteration");
  ("SyntaxError", VObject "type" (Ok ("<class 'SyntaxError'>")) []);
  ("SystemError", VExcClass "SystemError");
  ("TypeError", VExcClass "TypeError");
  ("ValueError", VExcClass "ValueError");
  ("Warning", VExcClass "Warning");
  ("FloatingPointError", VExcClass "FloatingPointError");
  ("OverflowError", VExcClass "OverflowError");
  ("ZeroDivisionError", VExcClass "ZeroDivisionError");
  ("BytesWarning", VExcClass "BytesWarning");
  ("DeprecationWarning", VExcClass "DeprecationWarning");
  ("EncodingWarning", VExcClass "EncodingWarning");
  ("FutureWarning", VExcClass "FutureWarning");
  ("ImportWarning", VExcClass "ImportWarning");
  ("PendingDeprecationWarning", VExcClass "PendingDeprecationWarning");
  ("ResourceWarning", VExcClass "ResourceWarning");
  ("RuntimeWarning", VExcClass "RuntimeWarning");
  ("SyntaxWarning", VExcClass "SyntaxWarning");
  ("UnicodeWarning", VExcClass "UnicodeWarning");
  ("UserWarning", VExcClass "UserWarning");
  ("BlockingIOError", VExcClass "BlockingIOError");
  ("ChildProcessError", VExcClass "ChildProcessError");
  ("ConnectionError", VExcClass "ConnectionError");
  ("FileExistsError", VExcClass "FileExistsError");
  ("FileNotFoundError", VExcClass "FileNotFoundError");
  ("InterruptedError", VExcClass "InterruptedError");
  ("IsADirectoryError", VExcClass "IsADirectoryError");
  ("NotADirectoryError", VExcClass "NotADirectoryError");
  ("PermissionError", VExcClass "PermissionError");
  ("ProcessLookupError", VExcClass "ProcessLookupError");
  ("TimeoutError", VExcClass "TimeoutError");
  ("IndentationError", VObject "type" (Ok ("<class 'IndentationError'>")) []);
  ("IndexError", VExcClass "IndexError");
  ("KeyError", VExcClass "KeyError");
  ("ModuleNotFoundError", VExcClass "ModuleNotFoundError");
  ("NotImplementedError", VExcClass "NotImplementedError");
  ("RecursionError", VExcClass "RecursionError");
  ("UnboundLocalError", VExcClass "UnboundLocalError");
  ("UnicodeError", VExcClass "UnicodeError");
  ("BrokenPipeError", VExcClass "BrokenPipeError");
  ("ConnectionAbortedError", VExcClass "ConnectionAbortedError");
  ("ConnectionRefusedError", VExcClass "ConnectionRefusedError");
  ("ConnectionResetError", VExcClass "ConnectionResetError");
  ("TabError", VObject "type" (Ok ("<class 'TabError'>")) []);
  ("UnicodeDecodeError", VObject "type" (Ok ("<class 'UnicodeDecodeError'>")) []);
  ("UnicodeEncodeError", VObject "type" (Ok ("<class 'UnicodeEncodeError'>")) []);
  ("UnicodeTranslateError", VObject "type" (Ok ("<class 'UnicodeTranslateError'>")) []);
  ("ExceptionGroup", VObject "type" (Ok ("<class 'ExceptionGroup'>")) []);
  ("EnvironmentError", VExcClass "OSError");
  ("IOError", VExcClass "OSError");
  ("open", VBuiltinFn "open");
  ("quit", VObject "Quitter" (Ok ("Use quit() or Ctrl-D (i.e. EOF) to exit")) []);
  ("exit", VObject "Quitter" (Ok ("Use exit() or Ctrl-D (i.e. EOF) to exit")) []);
  ("copyright", VObject "_Printer" (Ok ("Copyright (c) 2001-2023 Python Software Foundation." ++ nl ++ "All Rights Reserved." ++ nl ++ nl ++ "Copyright (c) 2000 BeOpen.com." ++ nl ++ "All Rights Reserved." ++ nl ++ nl ++ "Copyright (c) 1995-2001 Corporation for National Research Initiatives." ++ nl ++ "All Rights Reserved." ++ nl ++ nl ++ "Copyright (c) 1991-1995 Stichting Mathematisch Centrum, Amsterdam." ++ nl ++ "All Rights Reserved.")) []);
  ("credits", VObject "_Printer" (Ok ("    Thanks to CWI, CNRI, BeOpen.com, Zope Corporation and a cast of thousands" ++ nl ++ "    for supporting Python development.  See www.python.org for more information.")) []);
  ("license", VObject "_Printer" (Ok ("Type license() to see the full license text")) []);
  ("help", VObject "_Helper" (Ok ("Type help() for interactive help, or help(object) for help about object.")) [])].

(** The state of a kernel process started at time [t0] (milliseconds). *)
Definition initial_kernel (t0 : Z) : kernel :=
  mkKernel initial_namespace t0 ProcessStdout ProcessStderr [] O [] python_builtins.

(** ** The JSON codec: [bytes.decode], [json.loads], [json.dumps] *)

Section Codec.
Local Open Scope N_scope.

(** Well-formed UTF-8: [pending] continuation bytes are still due, the next
    of them within [lo..hi]. *)
Fixpoint utf8_ok (pending : nat) (lo hi : N) (s : string) : bool :=
  match s with
  | EmptyString => Nat.eqb pending 0
  | String c r =>
      let n := code c in
      match pending with
      | S p => in_range lo hi n && utf8_ok p 128 191 r
      | O =>
          if N.ltb n 128 then utf8_ok 0%nat 128 191 r
          else if in_range 194 223 n then utf8_ok 1%nat 128 191 r
          else if N.eqb n 224 then utf8_ok 2%nat 160 191 r
          else if in_range 225 236 n then utf8_ok 2%nat 128 191 r
          else if N.eqb n 237 then utf8_ok 2%nat 128 159 r
          else if in_range 238 239 n then utf8_ok 2%nat 128 191 r
          else if N.eqb n 240 then utf8_ok 3%nat 144 191 r
          else if in_range 241 243 n then utf8_ok 3%nat 128 191 r
          else if N.eqb n 244 then utf8_ok 3%nat 128 143 r
          else false
      end
  end%bool.

(** [data.decode("utf-8")] *)
Definition decode_utf8 (data : string) : outcome string :=
  if utf8_ok 0%nat 128 191 data then Ok data
  else Raise (mkExc "UnicodeDecodeError" "'utf-8' codec can't decode bytes").

(** The UTF-8 bytes of a code point. *)
Definition utf8_of (cp : N) : string :=
  if N.ltb cp 128 then String (chr cp) ""
  else if N.ltb cp 2048 then
    String (chr (192 + cp / 64)) (String (chr (128 + cp mod 64)) "")
  else if N.ltb cp 65536 then
    String (chr (224 + cp / 4096))
      (String (chr (128 + (cp / 64) mod 64))
         (String (chr (128 + cp mod 64)) ""))
  else
    String (chr (240 + cp / 262144))
      (String (chr (128 + (cp / 4096) mod 64))
         (String (chr (128 + (cp / 64) mod 64))
            (String (chr (128 + cp mod 64)) ""))).

Definition is_ws (c : ascii) : bool :=
  let n := code c in
  (N.eqb n 32 || N.eqb n 9 || N.eqb n 10 || N.eqb n 13)%bool.

Fixpoint skip_ws (s : string) : string :=
  match s with
  | EmptyString => EmptyString
  | String c r => if is_ws c then skip_ws r else s
  end.

Definition is_digit (c : ascii) : bool := in_range 48 57 (code c).

Definition hex_value (c : ascii) : option N :=
  let n := code c in
  if in_range 48 57 n then Some (n - 48)
  else if in_range 97 102 n then Some (n - 87)
  else if in_range 65 70 n then Some (n - 55)
  else None.

Definition hex4 (a b c d : ascii) : option N :=
  match hex_value a, hex_value b, hex_value c, hex_value d with
  | Some x, Some y, Some z, Some w => Some (((x * 16 + y) * 16 + z) * 16 + w)
  | _, _, _, _ => None
  end.

Definition simple_escape (e : ascii) : option ascii :=
  if Ascii.eqb e dquote then Some dquote
  else if Ascii.eqb e backslash then Some backslash
  else if Ascii.eqb e "/" then Some "/"%char
  else if Ascii.eqb e "b" then Some "008"%char
  else if Ascii.eqb e "f" then Some "012"%char
  else if Ascii.eqb e "n" then Some "010"%char
  else if Ascii.eqb e "r" then Some "013"%char
  else if Ascii.eqb e "t" then Some "009"%char
  else None.

Definition prepend (p : string) (r : option (string * string))
  : option (string * string) :=
  match r with
  | Some (body, rest) => Some (p ++ body, rest)
  | None => None
  end.

(** The text pending for a high surrogate that found no low one. *)
Definition flush (hi : option N) : string :=
  match hi with
  | Some h => utf8_of h
  | None => EmptyString
  end.

(** The body of a JSON string, after its opening quote: the decoded text and
    what follows the closing quote.  [hi] holds a high surrogate that a
    [\u] escape just produced. *)
Fixpoint scan_string (hi : option N) (s : string) : option (string * string) :=
  match s with
  | EmptyString => None
  | String c r =>
      if Ascii.eqb c backslash then
        match r with
        | String "u" (String a (String b (String c' (String d r')))) =>
            match hex4 a b c' d with
            | None => None
            | Some u =>
                match hi with
                | Some h =>
                    if in_range 56320 57343 u
                    then prepend (utf8_of (65536 + (h - 55296) * 1024 + (u - 56320)))
                                 (scan_string None r')
                    else prepend (utf8_of h)
                           (if in_range 55296 56319 u then scan_string (Some u) r'
                            else prepend (utf8_of u) (scan_string None r'))
                | None =>
                    if in_range 55296 56319 u then scan_string (Some u) r'
                    else prepend (utf8_of u) (scan_string None r')
                end
            end
        | String e r' =>
            match simple_escape e with
            | Some ch => prepend (flush hi ++ String ch "") (scan_string None r')
            | None => None
            end
        | EmptyString => None
        end
      else if Ascii.eqb c dquote then Some (flush hi, r)
      else if N.ltb (code c) 32 then None
      else prepend (flush hi ++ String c "") (scan_string None r)
  end.

Fixpoint span_digits (s : string) : string * string :=
  match s with
  | EmptyString => (EmptyString, EmptyString)
  | String c r =>
      if is_digit c then let (ds, rest) := span_digits r in (String c ds, rest)
      else (EmptyString, s)
  end.

Fixpoint Z_of_digits (acc : Z) (s : string) : Z :=
  match s with
  | EmptyString => acc
  | String c r => Z_of_digits (10 * acc + Z.of_N (code c - 48))%Z r
  end.

(** A number at the head of [s], as the decoder matches it: an optional
    minus sign; a zero, or a non-zero digit and any digits; optionally a dot
    and one digit or more; optionally an exponent mark, a sign and one digit
    or more. *)
Definition scan_number (s : string) : option (json * string) :=
  let (sign, s1) :=
    match s with
    | String "-" r => ("-", r)
    | _ => (EmptyString, s)
    end in
  let int_part :=
    match s1 with
    | String "0" r => Some ("0", r)
    | String c _ => if is_digit c then Some (span_digits s1) else None
    | EmptyString => None
    end in
  match int_part with
  | None => None
  | Some (ds, r1) =>
      let (frac, r2) :=
        match r1 with
        | String "." r =>
            let (fd, r') := span_digits r in
            if nonempty fd then ("." ++ fd, r') else (EmptyString, r1)
        | _ => (EmptyString, r1)
        end in
      let (expo, r3) :=
        match r2 with
        | String e r =>
            if (Ascii.eqb e "e" || Ascii.eqb e "E")%bool then
              let (sg, r') :=
                match r with
                | String "+" t => ("+", t)
                | String "-" t => ("-", t)
                | _ => (EmptyString, r)
                end in
              let (ed, r'') := span_digits r' in
              if nonempty ed then (String e (sg ++ ed), r'') else (EmptyString, r2)
            else (EmptyString, r2)
        | EmptyString => (EmptyString, r2)
        end in
      if (nonempty frac || nonempty expo)%bool
      then Some (JFloat (sign ++ ds ++ frac ++ expo), r3)
      else Some (JInt (if nonempty sign then (- Z_of_digits 0 ds)%Z else Z_of_digits 0 ds), r3)
  end.

(** [s] without its first [n] characters. *)
Fixpoint drop (n : nat) (s : string) : string :=
  match n, s with
  | O, _ => s
  | S _, EmptyString => EmptyString
  | S m, String _ r => drop m r
  end.

Definition literal (word : string) (v : json) (s : string) : option (json * string) :=
  if String.prefix word s then Some (v, drop (String.length word) s) else None.

(** One JSON value at the head of [s].  Of two calls in a row one at least
    consumes a character, so [fuel] above twice the length of [s] is never
    used up. *)
Fixpoint scan_value (fuel : nat) (s : string) : option (json * string) :=
  match fuel with
  | O => None
  | S f =>
      match s with
      | EmptyString => None
      | String c r =>
          if Ascii.eqb c dquote then
            match scan_string None r with
            | Some (body, rest) => Some (JStr body, rest)
            | None => None
            end
          else if Ascii.eqb c "{" then
            match skip_ws r with
            | String "}" r2 => Some (JDict [], r2)
            | r1 => scan_members f [] r1
            end
          else if Ascii.eqb c "[" then
            match skip_ws r with
            | String "]" r2 => Some (JList [], r2)
            | r1 => scan_elements f [] r1
            end
          else if Ascii.eqb c "n" then literal "null" JNull s
          else if Ascii.eqb c "t" then literal "true" (JBool true) s
          else if Ascii.eqb c "f" then literal "false" (JBool false) s
          else if Ascii.eqb c "N" then literal "NaN" (JFloat "NaN") s
          else if Ascii.eqb c "I" then literal "Infinity" (JFloat "Infinity") s
          else if String.prefix "-Infinity" s then literal "-Infinity" (JFloat "-Infinity") s
          else scan_number s
      end
  end
with scan_members (fuel : nat) (acc : list (string * json)) (s : string)
  : option (json * string) :=
  match fuel with
  | O => None
  | S f =>
      match s with
      | String q r =>
          if Ascii.eqb q dquote then
            match scan_string None r with
            | Some (key, r1) =>
                match skip_ws r1 with
                | String ":" r2 =>
                    match scan_value f (skip_ws r2) with
                    | Some (v, r3) =>
                        let acc' := dict_set acc key v in
                        match skip_ws r3 with
                        | String "}" r4 => Some (JDict acc', r4)
                        | String "," r4 => scan_members f acc' (skip_ws r4)
                        | _ => None
                        end
                    | None => None
                    end
                | _ => None
                end
            | None => None
            end
          else None
      | EmptyString => None
      end
  end
with scan_elements (fuel : nat) (acc : list json) (s : string)
  : option (json * string) :=
  match fuel with
  | O => None
  | S f =>
      match scan_value f s with
      | Some (v, r1) =>
          match skip_ws r1 with
          | String "]" r2 => Some (JList (acc ++ [v]), r2)
          | String "," r2 => scan_elements f (acc ++ [v]) (skip_ws r2)
          | _ => None
          end
      | None => None
      end
  end.

(** [json.loads(s)]: one document, white space allowed around it.  The text
    of the decoder's message, which reports a position, is not reproduced,
    nor is the interpreter's limit on the depth of nesting. *)
Definition json_loads (s : string) : outcome json :=
  match scan_value (S (2 * String.length s)) (skip_ws s) with
  | Some (v, rest) =>
      match skip_ws rest with
      | EmptyString => Ok v
      | String _ _ => Raise (mkExc "JSONDecodeError" "Extra data")
      end
  | None => Raise (mkExc "JSONDecodeError" "Expecting value")
  end.

(** [json.loads(data.decode("utf-8"))] *)
Definition loads_bytes (data : string) : outcome json :=
  match decode_utf8 data with
  | Ok s => json_loads s
  | Raise e => Raise e
  end.

Definition hex4_of (n : N) : string :=
  String (hex_digit (n / 4096))
    (String (hex_digit ((n / 256) mod 16))
       (String (hex_digit ((n / 16) mod 16))
          (String (hex_digit (n mod 16)) ""))).

Definition u_escape (n : N) : string := String backslash ("u" ++ hex4_of n).

(** The escape of a code point above ASCII when [ensure_ascii] holds. *)
Definition u_escape_cp (cp : N) : string :=
  if N.ltb cp 65536 then u_escape cp
  else u_escape (55296 + (cp - 65536) / 1024) ++ u_escape (56320 + (cp - 65536) mod 1024).

Definition dumps_char (c : ascii) : string :=
  let n := code c in
  if Ascii.eqb c dquote then String backslash (String dquote "")
  else if Ascii.eqb c backslash then String backslash (String backslash "")
  else if N.eqb n 10 then String backslash "n"
  else if N.eqb n 13 then String backslash "r"
  else if N.eqb n 9 then String backslash "t"
  else if N.eqb n 8 then String backslash "b"
  else if N.eqb n 12 then String backslash "f"
  else if N.ltb n 32 then u_escape n
  else String c "".

(** The inside of a JSON string.  With [ensure_ascii] a multi-byte character
    is collected in [cp] ([pending] more bytes to come) and written as an
    escape. *)
Fixpoint dumps_chars (ensure_ascii : bool) (pending : nat) (cp : N) (s : string) : string :=
  match s with
  | EmptyString => EmptyString
  | String c r =>
      let n := code c in
      if (negb ensure_ascii || (Nat.eqb pending 0 && N.ltb n 128))%bool
      then dumps_char c ++ dumps_chars ensure_ascii 0%nat 0 r
      else
        match pending with
        | O =>
            if N.ltb n 224 then dumps_chars ensure_ascii 1%nat (n - 192) r
            else if N.ltb n 240 then dumps_chars ensure_ascii 2%nat (n - 224) r
            else dumps_chars ensure_ascii 3%nat (n - 240) r
        | S O => u_escape_cp (cp * 64 + (n - 128)) ++ dumps_chars ensure_ascii 0%nat 0 r
        | S p => dumps_chars ensure_ascii p (cp * 64 + (n - 128)) r
        end
  end.

Definition dumps_str (ensure_ascii : bool) (s : string) : string :=
  String dquote (dumps_chars ensure_ascii 0%nat 0 s ++ String dquote "").

(** [json.dumps(j, ensure_ascii=...)] *)
Fixpoint json_dumps (ensure_ascii : bool) (j : json) : string :=
  match j with
  | JNull => "null"
  | JBool true => "true"
  | JBool false => "false"
  | JInt z => str_of_Z z
  | JFloat t => t
  | JStr s => dumps_str ensure_ascii s
  | JList l =>
      "[" ++ (fix items (l : list json) : string :=
                match l with
                | [] => EmptyString
                | x :: r =>
                    match r with
                    | [] => json_dumps ensure_ascii x
                    | _ :: _ => json_dumps ensure_ascii x ++ ", " ++ items r
                    end
                end) l ++ "]"
  | JDict d =>
      "{" ++ (fix members (d : list (string * json)) : string :=
                match d with
                | [] => EmptyString
                | (k, v) :: r =>
                    match r with
                    | [] => dumps_str ensure_ascii k ++ ": " ++ json_dumps ensure_ascii v
                    | _ :: _ =>
                        dumps_str ensure_ascii k ++ ": " ++ json_dumps ensure_ascii v
                        ++ ", " ++ members r
                    end
                end) d ++ "}"
  end.

(** The part of a float's text before its exponent. *)
Fixpoint mantissa (t : string) : string :=
  match t with
  | EmptyString => EmptyString
  | String c r =>
      if (Ascii.eqb c "e" || Ascii.eqb c "E")%bool then EmptyString
      else String c (mantissa r)
  end.

Definition has_char_in (lo hi : N) (t : string) : bool :=
  existsb (fun c => in_range lo hi (code c)) (list_ascii_of_string t).

(** The part of a float's text after its exponent mark. *)
Fixpoint exponent (t : string) : string :=
  match t with
  | EmptyString => EmptyString
  | String c r => if (Ascii.eqb c "e" || Ascii.eqb c "E")%bool then r else exponent r
  end.

(** The part of a mantissa after its dot. *)
Fixpoint fraction (m : string) : string :=
  match m with
  | EmptyString => EmptyString
  | String c r => if Ascii.eqb c "." then r else fraction r
  end.

Definition only_digits (t : string) : string :=
  string_of_list_ascii (filter is_digit (list_ascii_of_string t)).

Definition Z_of_signed (t : string) : Z :=
  match t with
  | String c r =>
      if Ascii.eqb c "-" then (- Z_of_digits 0 (only_digits r))%Z
      else Z_of_digits 0 (only_digits t)
  | EmptyString => 0%Z
  end.

(** Whether the float a decimal text denotes is a zero.  The text stands
    for [m * 10 ^ e], [m] a whole number; the nearest float is a zero when
    [m] is, and when the number is at most [2 ^ -1075], half the least
    positive float. *)
Definition float_is_zero (t : string) : bool :=
  let m := Z_of_digits 0 (only_digits (mantissa t)) in
  let e := (Z_of_signed (exponent t)
            - Z.of_nat (String.length (only_digits (fraction (mantissa t)))))%Z in
  if (m =? 0)%Z then true
  else if (0 <=? e)%Z then false
  else (m * 2 ^ 1075 <=? 10 ^ (- e))%Z.

(** [bool(j)].  A float is false when it is a zero; [NaN] and the
    infinities, which have no digit, are true. *)
Definition truthy (j : json) : bool :=
  match j with
  | JNull => false
  | JBool b => b
  | JInt z => negb (z =? 0)%Z
  | JFloat t =>
      if has_char_in 48 57 (mantissa t) then negb (float_is_zero t) else true
  | JStr s => nonempty s
  | JList l => match l with [] => false | _ :: _ => true end
  | JDict d => match d with [] => false | _ :: _ => true end
  end.

End Codec.

(** ** The [exec] builtin on a fragment of Python

    [execute_code] hands the submitted text to the interpreter.  The
    definitions of the engine take the interpreter as a parameter (see
    [Section Engine]).  [py_run] below says what [exec] does on a fragment
    of the language, enough to run the scenarios of the specification; of a
    text or of a state outside the fragment it says nothing ([None]).

    The fragment: one simple statement per line, at top level, among
    [pass], [import sys], [del x], [raise], [raise E], [raise E()], [print()],
    [print(e)], [x = e], [sys.stdout = sys.stderr] (and the like on the two
    streams), [sys.stdout.close()] and a bare expression; an expression is a
    sum of integer literals, plain string literals and names.  The values
    are those the constructors of [value] describe, without the behaviour of
    an object of the user ([VObject]): a statement that calls, adds, prints
    or raises such an object is outside the fragment. *)

Inductive token : Type :=
| TInt (z : Z)
| TStr (s : string)
| TName (x : string)
| TPlus
| TEq
| TLParen
| TRParen
| TDot.

Definition is_ident_start (c : ascii) : bool :=
  (in_range 97 122 (code c) || in_range 65 90 (code c) || Ascii.eqb c "_")%bool.

Definition is_ident_char (c : ascii) : bool := (is_ident_start c || is_digit c)%bool.

Fixpoint span_ident (s : string) : string * string :=
  match s with
  | EmptyString => (EmptyString, EmptyString)
  | String c r =>
      if is_ident_char c then let (x, rest) := span_ident r in (String c x, rest)
      else (EmptyString, s)
  end.

(** The body of a plain string literal closed by [q]: no escape inside. *)
Fixpoint scan_quoted (q : ascii) (s : string) : option (string * string) :=
  match s with
  | EmptyString => None
  | String c r =>
      if Ascii.eqb c q then Some (EmptyString, r)
      else if Ascii.eqb c backslash then None
      else prepend (String c "") (scan_quoted q r)
  end.

Definition starts_with_ident_char (s : string) : bool :=
  match s with
  | EmptyString => false
  | String c _ => is_ident_char c
  end.

Definition cons_token (t : token) (r : option (list token)) : option (list token) :=
  option_map (cons t) r.

(** The most digits a number of the fragment has: from some version on the
    interpreter refuses to read or to write a longer one. *)
Definition max_digits : nat := 4300.

Fixpoint tokenize (fuel : nat) (s : string) : option (list token) :=
  match fuel with
  | O => None
  | S f =>
      match s with
      | EmptyString => Some []
      | String c r =>
          if (Ascii.eqb c " " || N.eqb (code c) 9)%bool
          then tokenize f r
          else if Ascii.eqb c "#" then Some []
          else if Ascii.eqb c "+" then cons_token TPlus (tokenize f r)
          else if Ascii.eqb c "(" then cons_token TLParen (tokenize f r)
          else if Ascii.eqb c ")" then cons_token TRParen (tokenize f r)
          else if Ascii.eqb c "." then cons_token TDot (tokenize f r)
          else if Ascii.eqb c "=" then
            if String.prefix "=" r then None else cons_token TEq (tokenize f r)
          else if (Ascii.eqb c squote || Ascii.eqb c dquote)%bool then
            match scan_quoted c r with
            | Some (body, rest) => cons_token (TStr body) (tokenize f rest)
            | None => None
            end
          else if is_digit c then
            let (ds, rest) := span_digits s in
            if (starts_with_ident_char rest
                || (String.prefix "0" ds && has_char_in 49 57 ds)
                || Nat.ltb max_digits (String.length ds))%bool
            then None
            else cons_token (TInt (Z_of_digits 0 ds)) (tokenize f rest)
          else if is_ident_start c then
            let (x, rest) := span_ident s in
            cons_token (TName x) (tokenize f rest)
          else None
      end
  end.

Inductive expr : Type :=
| EInt (z : Z)
| EStr (s : string)
| EName (x : string)
| EAdd (a b : expr).

Inductive stmt : Type :=
| SPass
| SExpr (e : expr)
| SAssign (x : string) (e : expr)
| SDel (x : string)
| SPrint (arg : option expr)
| SRaise (cls : string) (called : bool)
| SReraise
| SImport (m : string)
| SSetAttr (m attr m' attr' : string)
| SClose (m attr : string).

(** The words that are not names: the three constants, which an expression
    may hold, the other keywords, which it may not, and [__debug__], which
    the compiler treats in a way of its own and the fragment leaves out. *)
Definition constant_keywords : list string := ["True"; "False"; "None"].
Definition other_keywords : list string :=
  ["and"; "as"; "assert"; "async"; "await"; "break"; "class"; "continue";
   "def"; "del"; "elif"; "else"; "except"; "finally"; "for"; "from"; "global";
   "if"; "import"; "in"; "is"; "lambda"; "nonlocal"; "not"; "or"; "pass";
   "raise"; "return"; "try"; "while"; "with"; "yield"; "__debug__"].

Definition mem (x : string) (l : list string) : bool := existsb (String.eqb x) l.

Definition atom (t : token) : option expr :=
  match t with
  | TInt z => Some (EInt z)
  | TStr s => Some (EStr s)
  | TName x => if mem x other_keywords then None else Some (EName x)
  | _ => None
  end.

Fixpoint parse_sum (acc : expr) (ts : list token) : option expr :=
  match ts with
  | [] => Some acc
  | TPlus :: t :: r =>
      match atom t with
      | Some a => parse_sum (EAdd acc a) r
      | None => None
      end
  | _ => None
  end.

Definition parse_expr (ts : list token) : option expr :=
  match ts with
  | t :: r =>
      match atom t with
      | Some a => parse_sum a r
      | None => None
      end
  | [] => None
  end.

Definition assignable (x : string) : bool :=
  negb (mem x other_keywords || mem x constant_keywords).

Definition stream_attrs : list string := ["stdout"; "stderr"].

Definition parse_stmt (ts : list token) : option stmt :=
  match ts with
  | [TName k] =>
      if String.eqb k "pass" then Some SPass
      else if String.eqb k "raise" then Some SReraise
      else option_map SExpr (parse_expr ts)
  | [TName k; TName x] =>
      if String.eqb k "import" then
        if String.eqb x "sys" then Some (SImport x) else None
      else if String.eqb k "del" then
        if assignable x then Some (SDel x) else None
      else if String.eqb k "raise" then
        if assignable x then Some (SRaise x false) else None
      else None
  | [TName k; TName x; TLParen; TRParen] =>
      if (String.eqb k "raise" && assignable x)%bool then Some (SRaise x true) else None
  | [TName k; TLParen; TRParen] =>
      if String.eqb k "print" then Some (SPrint None) else None
  | TName k :: TLParen :: r =>
      if String.eqb k "print" then
        match removelast r, last r TPlus with
        | inner, TRParen =>
            match parse_expr inner with
            | Some e => Some (SPrint (Some e))
            | None => None
            end
        | _, _ => None
        end
      else None
  | [TName m; TDot; TName a; TEq; TName m'; TDot; TName a'] =>
      if (assignable m && assignable m' && mem a stream_attrs && mem a' stream_attrs)%bool
      then Some (SSetAttr m a m' a') else None
  | [TName m; TDot; TName a; TDot; TName f; TLParen; TRParen] =>
      if (assignable m && mem a stream_attrs && String.eqb f "close")%bool
      then Some (SClose m a) else None
  | TName x :: TEq :: r =>
      if assignable x then
        match parse_expr r with
        | Some e => Some (SAssign x e)
        | None => None
        end
      else None
  | _ => option_map SExpr (parse_expr ts)
  end.

Definition NameError (x : string) : exc :=
  mkExc "NameError" ("name '" ++ x ++ "' is not defined").

Definition TypeError (msg : string) : exc := mkExc "TypeError" msg.

Definition not_callable (v : value) : exc :=
  TypeError ("'" ++ type_name v ++ "' object is not callable").

(** The value of one of the three constants. *)
Definition constant (x : string) : value :=
  if String.eqb x "True" then VBool true
  else if String.eqb x "False" then VBool false
  else VNone.

(** A name is looked up in the module globals, then in the builtins; the
    three constants are not names and cannot be rebound. *)
Definition lookup (k : kernel) (x : string) : outcome value :=
  if mem x constant_keywords then Ok (constant x)
  else
    match dict_get (global_namespace k) x with
    | Some v => Ok v
    | None =>
        match dict_get (builtins k) x with
        | Some v => Ok v
        | None => Raise (NameError x)
        end
    end.

Definition as_int (v : value) : option Z :=
  match v with
  | VInt z => Some z
  | VBool true => Some 1%Z
  | VBool false => Some 0%Z
  | _ => None
  end.

(** An object of the user. *)
Definition is_object (v : value) : bool :=
  match v with
  | VObject _ _ _ => true
  | _ => false
  end.

(** [a + b] *)
Definition py_add (a b : value) : option (outcome value) :=
  if (is_object a || is_object b)%bool then None
  else
    match as_int a, as_int b with
    | Some x, Some y => Some (Ok (VInt (x + y)))
    | _, _ =>
        match a, b with
        | VStr s, VStr t => Some (Ok (VStr (s ++ t)))
        | VStr _, _ =>
            Some (Raise (TypeError
                           ("can only concatenate str (not " ++ String dquote (type_name b)
                            ++ String dquote ") to str")))
        | _, _ =>
            Some (Raise (TypeError
                           ("unsupported operand type(s) for +: '" ++ type_name a
                            ++ "' and '" ++ type_name b ++ "'")))
        end
    end.

Fixpoint eval (k : kernel) (e : expr) : option (outcome value) :=
  match e with
  | EInt z => Some (Ok (VInt z))
  | EStr s => Some (Ok (VStr s))
  | EName x => Some (lookup k x)
  | EAdd a b =>
      match eval k a with
      | Some (Ok va) =>
          match eval k b with
          | Some (Ok vb) => py_add va vb
          | other => other
          end
      | other => other
      end
  end.

(** [str(v)], as [print] writes it, for the values whose [str] the model
    tells. *)
Definition printed (v : value) : option string :=
  match v with
  | VNone => Some "None"
  | VBool true => Some "True"
  | VBool false => Some "False"
  | VInt z =>
      if Nat.ltb max_digits (String.length (str_of_Z z)) then None else Some (str_of_Z z)
  | VStr s => Some s
  | VModule name => Some ("<module '" ++ name ++ "' (built-in)>")
  | VExcClass name => Some ("<class '" ++ name ++ "'>")
  | VBuiltinFn name => Some ("<built-in function " ++ name ++ ">")
  | VBuiltins => None
  | VObject _ _ _ => None
  end.

Definition no_attribute (v : value) (attr : string) : exc :=
  mkExc "AttributeError"
        ("'" ++ type_name v ++ "' object has no attribute '" ++ attr ++ "'").

(** A value that has no attribute but those of its builtin type. *)
Definition plain (v : value) : bool :=
  match v with
  | VNone | VBool _ | VInt _ | VStr _ | VBuiltins | VBuiltinFn _ => true
  | _ => false
  end.

(** [m.attr] for one of the two streams of the [sys] module. *)
Definition stream_of (k : kernel) (m attr : string) : option (outcome stream) :=
  match lookup k m with
  | Raise e => Some (Raise e)
  | Ok (VModule name) =>
      if String.eqb name "sys"
      then Some (Ok (if String.eqb attr "stdout" then sys_stdout k else sys_stderr k))
      else None
  | Ok v => if plain v then Some (Raise (no_attribute v attr)) else None
  end.

(** A call of [print] once the callee and the arguments are evaluated: the
    builtin writes the text and a line feed on [sys.stdout]. *)
Definition call_print (callee : value) (args : list value) (k : kernel)
  : option (kernel * option exc) :=
  match callee with
  | VBuiltinFn f =>
      if String.eqb f "print" then
        match match args with
              | [] => Some EmptyString
              | [v] => printed v
              | _ => None
              end with
        | None => None
        | Some text =>
            if is_closed (sys_stdout k) k then Some (k, Some closed_file)
            else Some (write (sys_stdout k) (text ++ nl) k, None)
        end
      else None
  | VNone | VBool _ | VInt _ | VStr _ | VModule _ | VBuiltins =>
      Some (k, Some (not_callable callee))
  | _ => None
  end.

(** One statement: the state it leaves, and the exception it raised if any. *)
Definition exec_stmt (s : stmt) (k : kernel) : option (kernel * option exc) :=
  let ns := global_namespace k in
  match s with
  | SPass => Some (k, None)
  | SExpr e =>
      match eval k e with
      | None => None
      | Some (Ok _) => Some (k, None)
      | Some (Raise x) => Some (k, Some x)
      end
  | SAssign x e =>
      match eval k e with
      | None => None
      | Some (Ok v) => Some (set_namespace (dict_set ns x v) k, None)
      | Some (Raise x) => Some (k, Some x)
      end
  | SDel x =>
      match dict_get ns x with
      | Some _ => Some (set_namespace (dict_del ns x) k, None)
      | None => Some (k, Some (NameError x))
      end
  | SPrint arg =>
      match lookup k "print" with
      | Raise x => Some (k, Some x)
      | Ok callee =>
          match arg with
          | None => call_print callee [] k
          | Some e =>
              match eval k e with
              | None => None
              | Some (Raise x) => Some (k, Some x)
              | Some (Ok v) => call_print callee [v] k
              end
          end
      end
  | SRaise cls called =>
      match lookup k cls with
      | Raise x => Some (k, Some x)
      | Ok (VExcClass c) => Some (k, Some (mkExc c ""))
      | Ok (VObject _ _ _) => None
      | Ok (VBuiltinFn _) =>
          if called then None
          else Some (k, Some (TypeError "exceptions must derive from BaseException"))
      | Ok v =>
          Some (k, Some (if called then not_callable v
                         else TypeError "exceptions must derive from BaseException"))
      end
  | SReraise => Some (k, Some (mkExc "RuntimeError" "No active exception to reraise"))
  | SImport m =>
      match dict_get (builtins k) "__import__" with
      | Some (VBuiltinFn f) =>
          if String.eqb f "__import__"
          then Some (set_namespace (dict_set ns m (VModule m)) k, None)
          else None
      | _ => None
      end
  | SSetAttr m attr m' attr' =>
      match stream_of k m' attr' with
      | None => None
      | Some (Raise x) => Some (k, Some x)
      | Some (Ok s') =>
          match lookup k m with
          | Raise x => Some (k, Some x)
          | Ok (VModule name) =>
              if String.eqb name "sys"
              then Some (if String.eqb attr "stdout" then set_stdout s' k
                         else set_stderr s' k, None)
              else None
          | Ok v => if plain v then Some (k, Some (no_attribute v attr)) else None
          end
      end
  | SClose m attr =>
      match stream_of k m attr with
      | None => None
      | Some (Raise x) => Some (k, Some x)
      | Some (Ok (SafeStringIO i)) => Some (close i k, None)
      | Some (Ok _) => None
      end
  end.

(** The statements run in order, up to the first that raises. *)
Fixpoint run (prog : list stmt) (k : kernel) : option (kernel * option exc) :=
  match prog with
  | [] => Some (k, None)
  | s :: rest =>
      match exec_stmt s k with
      | Some (k', None) => run rest k'
      | other => other
      end
  end.

(** [code.split("\n")] *)
Fixpoint split_lines (cur : string) (s : string) : list string :=
  match s with
  | EmptyString => [cur]
  | String c r =>
      if Ascii.eqb c newline then cur :: split_lines EmptyString r
      else split_lines (cur ++ String c "") r
  end.

Definition indented (line : string) : bool :=
  match line with
  | String c _ => (Ascii.eqb c " " || N.eqb (code c) 9)%bool
  | EmptyString => false
  end.

(** The statements of the lines; a blank line or a comment gives none. *)
Fixpoint compile_lines (lines : list string) : option (list stmt) :=
  match lines with
  | [] => Some []
  | line :: rest =>
      match tokenize (S (String.length line)) line with
      | None => None
      | Some [] => compile_lines rest
      | Some ts =>
          if indented line then None
          else
            match parse_stmt ts, compile_lines rest with
            | Some s, Some prog => Some (s :: prog)
            | _, _ => None
            end
      end
  end.

(** A control character other than the line feed and the tab. *)
Definition is_control (c : ascii) : bool :=
  (N.ltb (code c) 32 && negb (N.eqb (code c) 10) && negb (N.eqb (code c) 9))%bool.

(** A string literal that stands alone as the first statement is the
    documentation of the module: the compiler stores it under [__doc__]. *)
Definition docstring (prog : list stmt) : list stmt :=
  match prog with
  | SExpr (EStr s) :: rest => SAssign "__doc__" (EStr s) :: rest
  | _ => prog
  end.

(** The statements of a text of the fragment: the text is a [str] (its
    bytes are well-formed UTF-8) without control characters. *)
Definition py_compile (src : string) : option (list stmt) :=
  if (utf8_ok 0%nat 128%N 191%N src
      && negb (existsb is_control (list_ascii_of_string src)))%bool
  then option_map docstring (compile_lines (split_lines EmptyString src))
  else None.

(** [exec] puts the builtins in a namespace that lacks them. *)
Definition with_builtins (ns : namespace) : namespace :=
  match dict_get ns "__builtins__" with
  | Some _ => ns
  | None => dict_set ns "__builtins__" VBuiltins
  end.

(** [exec(src, global_namespace)] on the fragment: the state it leaves and
    the exception that ended it, if any.  The text is compiled as a whole
    before its first statement runs.  The builtins are those the entry
    [__builtins__] of the namespace names when [exec] starts: the fragment
    covers the case where it is the dictionary of the builtins. *)
Definition py_run (src : string) (k : kernel) : option (kernel * option exc) :=
  let k0 := set_namespace (with_builtins (global_namespace k)) k in
  match dict_get (global_namespace k0) "__builtins__" with
  | Some VBuiltins =>
      match py_compile src with
      | Some prog => run prog k0
      | None => None
      end
  | _ => None
  end.

(** An interpreter for the fragment: it does what [py_run] says, and refuses
    any other text.  An argument that is no string is refused by [exec]
    itself, once the builtins are in the namespace. *)
Definition py_exec (code : json) (k : kernel) : kernel * option exc :=
  match code with
  | JStr src =>
      match py_run src k with
      | Some r => r
      | None => (k, Some (mkExc "NotImplementedError" "outside the fragment"))
      end
  | _ =>
      (set_namespace (with_builtins (global_namespace k)) k,
       Some (TypeError "exec() arg 1 must be a string, bytes or code object"))
  end.

(** ** kernel_server.py: the execution engine

    The engine is stated over two things the source takes from its platform:
    [sys.getsizeof] (the size in bytes of an object, or a failure) and the
    [exec] builtin, which may read and change the whole process state and
    may end by raising. *)

(** What a request reads from its environment: the clock [time.time()], in
    milliseconds, and the resident set size [psutil] reports, if it can. *)
Record probe : Type := mkProbe { time_now : Z; memory_rss : option Z }.

(** What the peer of a connection does at each [conn.recv(4096)]: it hands
    over a chunk (an empty one when it has closed), lets the 30 s time-out
    expire, or fails.  A script that is used up stands for a peer that has
    closed. *)
Inductive recv_event : Type :=
| Recv (chunk : string)
| RecvTimeout
| RecvRaise (e : exc).

Record connection : Type := mkConnection {
  incoming : list recv_event;
  send_fails : bool
}.

(** What came of one connection: the payloads [sendall] delivered, the
    exception that escaped [handle_client] if one did, and the state left. *)
Record handled : Type := mkHandled {
  reply : list string;
  escaped : option exc;
  after : kernel
}.

Inductive accept_event : Type :=
| Accept (conn : connection) (env : probe)
| AcceptRaise (e : exc).

(** How [start_kernel_server] stands when the accept script is used up:
    still blocked in [accept], gone through [sys.exit], or ended by an
    exception that nothing caught. *)
Inductive server_end : Type :=
| Listening
| Exited (status : Z)
| Died (e : exc).

Record served : Type := mkServed {
  replies : list (list string);
  ended : server_end;
  kernel_after : kernel
}.

Definition json_type_name (j : json) : string :=
  match j with
  | JNull => "NoneType"
  | JBool _ => "bool"
  | JInt _ => "int"
  | JFloat _ => "float"
  | JStr _ => "str"
  | JList _ => "list"
  | JDict _ => "dict"
  end.

(** [j.lower()] *)
Definition lower_method (python : interpreter) (j : json) : outcome string :=
  match j with
  | JStr s => Ok (str_lower python s)
  | _ => Raise (mkExc "AttributeError"
                  ("'" ++ json_type_name j ++ "' object has no attribute 'lower'"))
  end.

(** [j == s] for a string literal [s] *)
Definition equals_str (j : json) (s : string) : bool :=
  match j with
  | JStr t => String.eqb t s
  | _ => false
  end.

(** [traceback.format_exc()] in the clause that handles [e]. *)
Definition format_exc (e : exc) : string := exc_trace e.

(** The sentinel that ends a request. *)
Definition END_MARK : string := nl ++ "__END__" ++ nl.

Section Engine.

Variable python : interpreter.
Variable sys_getsizeof : value -> option Z.
Variable exec : json -> kernel -> kernel * option exc.

Definition get_var_size (obj : value) : string :=
  match sys_getsizeof obj with
  | Some size =>
      if (size <? 1024)%Z then str_of_Z size ++ " B"
      else if (size <? 1024 * 1024)%Z then format_1f size 1024 ++ " KB"
      else format_1f size (1024 * 1024) ++ " MB"
  | None => "?"
  end.

(** Lines 124 to 129: the preview of one value. *)
Definition preview_of (v : value) : string :=
  match py_repr python v with
  | Ok r =>
      let preview := take 50 r in
      if Nat.ltb 50 (len r) then preview ++ "..." else preview
  | Raise _ => "<無法預覽>"
  end.

Definition var_info (name : string) (v : value) : json :=
  JDict [("name", JStr name);
         ("type", JStr (type_name v));
         ("size", JStr (get_var_size v));
         ("preview", JStr (preview_of v))].

(** The test of line 117: [pattern and pattern.lower() not in name.lower()] *)
Definition filtered_out (pattern : json) (name : string) : outcome bool :=
  if truthy pattern then
    match lower_method python pattern with
    | Ok p => Ok (negb (contains p (str_lower python name)))
    | Raise e => Raise e
    end
  else Ok false.

(** What [sys.getsizeof(v)] and [repr(v)] leave behind them: the methods of
    an object of the user may bind names in the module globals. *)
Definition touch (v : value) (k : kernel) : kernel :=
  match v with
  | VObject _ _ binds =>
      set_namespace (fold_left (fun ns b => dict_set ns (fst b) (snd b)) binds
                               (global_namespace k)) k
  | _ => k
  end.

Definition changed_size : exc :=
  mkExc "RuntimeError" "dictionary changed size during iteration".

(** The loop of [handle_inspect] over [global_namespace.items()].  The view
    is a live one: the iterator reads the dictionary as it is at each step.
    It started on a dictionary of [used] entries, of which [todo] are still
    to come, and raises when it finds another number of them. *)
Fixpoint inspect_items (pattern : json) (used todo : nat) (k : kernel)
         (vars_info : list json) : outcome (list json) * kernel :=
  if negb (Nat.eqb (List.length (global_namespace k)) used)
  then (Raise changed_size, k)
  else
    match todo with
    | O => (Ok vars_info, k)
    | S rest =>
        match nth_error (global_namespace k) (used - todo) with
        | None => (Ok vars_info, k)
        | Some (name, v) =>
            if startswith name "_" then inspect_items pattern used rest k vars_info
            else
              match filtered_out pattern name with
              | Raise e => (Raise e, k)
              | Ok true => inspect_items pattern used rest k vars_info
              | Ok false =>
                  inspect_items pattern used rest (touch v k)
                                (vars_info ++ [var_info name v])
              end
        end
    end.

Definition handle_inspect (pattern : json) (k : kernel) : outcome json * kernel :=
  let n := List.length (global_namespace k) in
  match inspect_items pattern n n k [] with
  | (Raise e, k') => (Raise e, k')
  | (Ok vars_info, k') =>
      (Ok (JDict [("success", JBool true);
                  ("action", JStr "inspect");
                  ("count", JInt (Z.of_nat (List.length vars_info)));
                  ("variables", JList vars_info)]), k')
  end.

Definition handle_reset (k : kernel) : json * kernel :=
  (JDict [("success", JBool true);
          ("action", JStr "reset");
          ("message", JStr "Kernel 已重置，所有變數已清空")],
   set_namespace [("__name__", VStr "__main__")] k).

(** The clock is read in whole milliseconds, so [uptime] is a whole number
    of them; [round(uptime, 1)] is its nearest tenth of a second.  Where the
    uptime is half-way between two tenths the source rounds the float it
    holds, which lies a little above or below; the model rounds such a tie
    to the even tenth. *)
Definition handle_status (env : probe) (k : kernel) : json * kernel :=
  let uptime := (time_now env - KERNEL_START_TIME k)%Z in
  let var_count :=
    List.length (filter (fun name => negb (startswith name "_"))
                        (map fst (global_namespace k))) in
  let memory_info :=
    match memory_rss env with
    | Some rss => format_1f rss (1024 * 1024) ++ " MB"
    | None => "無法取得（需安裝 psutil）"
    end in
  (JDict [("success", JBool true);
          ("action", JStr "status");
          ("uptime_seconds", JFloat (format_1f uptime 1000));
          ("uptime_human",
           JStr (str_of_Z (uptime / 60000) ++ " 分 "
                 ++ str_of_Z ((uptime mod 60000) / 1000) ++ " 秒"));
          ("variable_count", JInt (Z.of_nat var_count));
          ("memory_usage", JStr memory_info)], k).

(** The [finally] clause of [execute_code]. *)
Definition restore (original_stdout original_stderr : stream) (k : kernel) : kernel :=
  set_stderr original_stderr (set_stdout original_stdout k).

(** [execute_code(code)]; its [timeout] parameter is not used by the body.
    An exception that is not an [Exception] is not caught: it leaves the
    function, after the [finally] clause.  So does the [ValueError] that
    [getvalue] raises on a buffer the code closed: raised in the [try] it is
    handled by the [except] clause, where [getvalue] raises it again. *)
Definition execute_code (code : json) (k : kernel) : outcome json * kernel :=
  let original_stdout := sys_stdout k in
  let original_stderr := sys_stderr k in
  let (capture_stdout, k1) := new_SafeStringIO k in
  let (capture_stderr, k2) := new_SafeStringIO k1 in
  let k3 := set_stderr capture_stderr (set_stdout capture_stdout k2) in
  let (k4, raised) := exec code k3 in
  (* the [except Exception] clause, handling [e] *)
  let handler (e : exc) : outcome json :=
    match getvalue capture_stdout k4 with
    | Raise x => Raise x
    | Ok out =>
        match getvalue capture_stderr k4 with
        | Raise x => Raise x
        | Ok err =>
            Ok (JDict [("success", JBool false);
                       ("stdout", JStr out);
                       ("stderr", JStr err);
                       ("error", JStr (format_exc e))])
        end
    end in
  (match raised with
   | None =>
       match getvalue capture_stdout k4 with
       | Raise x => handler x
       | Ok out =>
           match getvalue capture_stderr k4 with
           | Raise x => handler x
           | Ok err =>
               Ok (JDict [("success", JBool true);
                          ("stdout", JStr out);
                          ("stderr", JStr err);
                          ("error", JNull)])
           end
       end
   | Some e => if is_Exception e then handler e else Raise e
   end,
   restore original_stdout original_stderr k4).

(** ** kernel_server.py: the dispatcher and the listener *)

(** The receiving loop of [handle_client] (lines 225 to 246), from the bytes
    accumulated so far: the bytes it leaves in [data], or the exception
    [recv] raised. *)
Fixpoint receive (data : string) (events : list recv_event) : outcome string :=
  match events with
  | [] => Ok data
  | Recv chunk :: rest =>
      if negb (nonempty chunk) then Ok data
      else
        let data := data ++ chunk in
        if contains END_MARK data then Ok (replace END_MARK "" data)
        else
          match loads_bytes data with
          | Ok _ => Ok data
          | Raise _ => receive data rest
          end
  | RecvTimeout :: _ =>
      Ok (if nonempty data then replace END_MARK "" data else data)
  | RecvRaise e :: _ => Raise e
  end.

(** Lines 254 to 266: the request is routed by its [action]. *)
Definition route (env : probe) (request : json) (k : kernel) : outcome json * kernel :=
  match request with
  | JDict d =>
      let action := dict_get_default d "action" (JStr "execute") in
      if equals_str action "inspect" then
        handle_inspect (dict_get_default d "pattern" (JStr "")) k
      else if equals_str action "reset" then
        let (result, k') := handle_reset k in (Ok result, k')
      else if equals_str action "status" then
        let (result, k') := handle_status env k in (Ok result, k')
      else
        execute_code (dict_get_default d "code" (JStr "")) k
  | _ =>
      (Raise (mkExc "AttributeError"
                ("'" ++ json_type_name request ++ "' object has no attribute 'get'")), k)
  end.

Definition error_response (e : exc) : json :=
  JDict [("success", JBool false);
         ("stdout", JStr "");
         ("stderr", JStr "");
         ("error", JStr ("Kernel error: " ++ str_of_exc e))].

(** [conn.sendall(payload)] inside [try: ... except: pass] *)
Definition sendall (conn : connection) (payload : string) : list string :=
  if send_fails conn then [] else [payload].

(** The clause [except Exception as e] of [handle_client], and what happens
    to an exception it does not catch. *)
Definition on_exception (conn : connection) (e : exc) (k : kernel) : handled :=
  if is_Exception e
  then mkHandled (sendall conn (json_dumps true (error_response e))) None k
  else mkHandled [] (Some e) k.

Definition handle_client (conn : connection) (env : probe) (k : kernel) : handled :=
  match receive "" (incoming conn) with
  | Raise e => on_exception conn e k
  | Ok data =>
      if negb (nonempty data) then mkHandled [] None k
      else
        match loads_bytes data with
        | Raise e => on_exception conn e k
        | Ok request =>
            match route env request k with
            | (Ok result, k') =>
                mkHandled (sendall conn (json_dumps false result)) None k'
            | (Raise e, k') => on_exception conn e k'
            end
        end
  end.

(** The loop [while True: conn, addr = server.accept(); handle_client(...)]. *)
Fixpoint accept_loop (events : list accept_event) (k : kernel) : served :=
  match events with
  | [] => mkServed [] Listening k
  | Accept conn env :: rest =>
      let h := handle_client conn env k in
      match escaped h with
      | None =>
          let s := accept_loop rest (after h) in
          mkServed (reply h :: replies s) (ended s) (kernel_after s)
      | Some e => mkServed [reply h] (Died e) (after h)
      end
  | AcceptRaise e :: _ =>
      if is_Exception e
      then mkServed [] (Exited 1)
             (write (sys_stderr k) ("[KERNEL] ERROR: " ++ str_of_exc e ++ nl) k)
      else mkServed [] (Died e) k
  end.

(** [start_kernel_server(host, port)], [port] given as its decimal text.
    [bind_error] is the exception [bind] or [listen] raises, if any. *)
Definition start_kernel_server (host port : string) (bind_error : option exc)
           (events : list accept_event) (k : kernel) : served :=
  match bind_error with
  | Some e => accept_loop [AcceptRaise e] k
  | None =>
      accept_loop events
        (write (sys_stderr k)
               ("[KERNEL] Server started at " ++ host ++ ":" ++ port ++ nl) k)
  end.

End Engine.

(** ** PyRunner_MCP.py: the supervisor and the RPC caller

    The client process acts on a world it does not control: whether the
    kernel script is on disk, what each [connect] to the endpoint meets, what
    each [Popen] and each [poll] returns.  The world is a script of those
    answers, consumed in order, together with the clock (milliseconds), the
    module global [KERNEL_PROCESS] and the trace of what the client did. *)

(** The far end of an accepted connection: whether [sendall] fails, and what
    each [recv] brings after how many milliseconds. *)
Record peer : Type := mkPeer {
  send_error : option exc;
  answers : list (Z * recv_event)
}.

Inductive connect_result : Type :=
| Connected (p : peer)
| ConnectRaise (e : exc).

Inductive effect : Type :=
| Connect (reached : bool)
| Spawn (result : outcome nat)
| Terminate (pid : nat)
| Sleep (ms : Z)
| Printed (msg : string)
| Send (payload : string).

Record world : Type := mkWorld {
  script_exists : bool;
  connects : list connect_result;
  spawns : list (outcome nat);
  polls : list (option Z);
  clock : Z;
  KERNEL_PROCESS : option nat;
  trace : list effect
}.

Definition KERNEL_HOST : string := "127.0.0.1".
Definition KERNEL_PORT : Z := 9999.

Definition endpoint : string := KERNEL_HOST ++ ":" ++ str_of_Z KERNEL_PORT.

Definition log (e : effect) (w : world) : world :=
  mkWorld (script_exists w) (connects w) (spawns w) (polls w) (clock w)
          (KERNEL_PROCESS w) (trace w ++ [e]).

Definition set_process (p : option nat) (w : world) : world :=
  mkWorld (script_exists w) (connects w) (spawns w) (polls w) (clock w)
          p (trace w).

(** Time passes. *)
Definition tick (ms : Z) (w : world) : world :=
  mkWorld (script_exists w) (connects w) (spawns w) (polls w) (clock w + ms)%Z
          (KERNEL_PROCESS w) (trace w).

(** [time.sleep(ms / 1000)] *)
Definition sleep (ms : Z) (w : world) : world := log (Sleep ms) (tick ms w).

Definition print (msg : string) (w : world) : world := log (Printed msg) w.

Definition refused : exc := mkExc "ConnectionRefusedError" "[Errno 111] Connection refused".

(** [sock.connect((KERNEL_HOST, KERNEL_PORT))]; nothing listens once the
    script is used up. *)
Definition connect (w : world) : connect_result * world :=
  match connects w with
  | [] => (ConnectRaise refused, log (Connect false) w)
  | r :: rest =>
      (r, log (Connect (match r with Connected _ => true | ConnectRaise _ => false end))
              (mkWorld (script_exists w) rest (spawns w) (polls w) (clock w)
                       (KERNEL_PROCESS w) (trace w)))
  end.

(** [subprocess.Popen(...)]: the new process, or the exception raised. *)
Definition Popen (w : world) : outcome nat * world :=
  let r := match spawns w with
           | [] => Raise (mkExc "OSError" "cannot start the process")
           | r :: _ => r
           end in
  (r, log (Spawn r)
          (mkWorld (script_exists w) (connects w) (List.tl (spawns w)) (polls w)
                   (clock w) (KERNEL_PROCESS w) (trace w))).

(** [KERNEL_PROCESS.poll()]: [None] while the process runs, else its exit
    code. *)
Definition poll (w : world) : option Z * world :=
  (match polls w with
   | [] => Some 0%Z
   | r :: _ => r
   end,
   mkWorld (script_exists w) (connects w) (spawns w) (List.tl (polls w)) (clock w)
           (KERNEL_PROCESS w) (trace w)).

(** [terminate()] then [wait(timeout=3)], failures ignored. *)
Definition terminate (pid : nat) (w : world) : world := log (Terminate pid) w.

(** The loop of lines 87 to 102, with [n] rounds left, and the line after. *)
Fixpoint wait_for_kernel (n : nat) (w : world) : bool * world :=
  match n with
  | O => (false, print "ERROR Kernel 啟動超時（10秒）" w)
  | S m =>
      match connect (sleep 200 w) with
      | (Connected _, w1) => (true, print ("MEMORY Kernel 已啟動 (" ++ endpoint ++ ")") w1)
      | (ConnectRaise _, w1) =>
          match poll w1 with
          | (Some rc, w2) =>
              (false, print ("ERROR Kernel 進程已結束（退出碼: " ++ str_of_Z rc ++ "）") w2)
          | (None, w2) => wait_for_kernel m w2
          end
      end
  end.

Definition _start_kernel (w : world) : bool * world :=
  if negb (script_exists w)
  then (false, print "WARN  kernel_server.py 不存在，使用傳統模式" w)
  else
    match connect w with
    | (Connected _, w1) =>
        (true, print ("MEMORY Kernel 已在運行 (" ++ endpoint ++ ")，連接到現有 kernel") w1)
    | (ConnectRaise _, w1) =>
        let w2 :=
          match KERNEL_PROCESS w1 with
          | Some p =>
              match poll w1 with
              | (None, w') => set_process None (terminate p w')
              | (Some _, w') => set_process None w'
              end
          | None => w1
          end in
        match Popen w2 with
        | (Raise e, w3) => (false, print ("ERROR 啟動 Kernel 失敗: " ++ str_of_exc e) w3)
        | (Ok pid, w3) => wait_for_kernel 50 (set_process (Some pid) w3)
        end
    end.

Definition _is_kernel_running (w : world) : bool * world :=
  match connect w with
  | (Connected _, w1) => (true, w1)
  | (ConnectRaise _, w1) =>
      match KERNEL_PROCESS w1 with
      | None => (false, w1)
      | Some _ =>
          match poll w1 with
          | (Some _, w2) => (false, set_process None w2)
          | (None, w2) => (true, w2)
          end
      end
  end.

(** Lines 205 to 210: up to [n] attempts to start the kernel. *)
Fixpoint start_attempts (n : nat) (w : world) : world :=
  match n with
  | O => w
  | S m =>
      match _start_kernel w with
      | (true, w1) => w1
      | (false, w1) => start_attempts m (sleep 1000 w1)
      end
  end.

(** Lines 204 to 212: the kernel is made to run before the exchange. *)
Definition ensure_running (w : world) : outcome unit * world :=
  match _is_kernel_running w with
  | (true, w1) => (Ok tt, w1)
  | (false, w1) =>
      match _is_kernel_running (start_attempts 3 w1) with
      | (true, w2) => (Ok tt, w2)
      | (false, w2) => (Raise (mkExc "RuntimeError" "Kernel 啟動失敗"), w2)
      end
  end.

(** How the receiving loop of [_execute_in_kernel] ends: by [break], by the
    [return] of line 237, or by an exception no clause of the loop caught. *)
Inductive recv_exit : Type :=
| Broke (response : string)
| TimedOut
| Escaped (e : exc).

(** Lines 230 to 262, [timeout] in seconds and [start_time] in
    milliseconds.  A script that is used up stands for a closed connection. *)
Fixpoint recv_response (timeout start_time : Z) (response : string)
         (events : list (Z * recv_event)) (w : world) : recv_exit * world :=
  if (timeout * 1000 <? clock w - start_time)%Z
  then (if nonempty response then Broke response else TimedOut, w)
  else
    match events with
    | [] => (Broke response, w)
    | (dt, ev) :: rest =>
        let w1 := tick dt w in
        match ev with
        | Recv chunk =>
            if negb (nonempty chunk) then (Broke response, w1)
            else
              let response := response ++ chunk in
              match loads_bytes response with
              | Ok _ => (Broke response, w1)
              | Raise _ => recv_response timeout start_time response rest w1
              end
        | RecvTimeout =>
            if nonempty response then
              match loads_bytes response with
              | Ok _ => (Broke response, w1)
              | Raise _ => recv_response timeout start_time response rest w1
              end
            else recv_response timeout start_time response rest w1
        | RecvRaise e =>
            if is_Exception e then (Broke response, w1) else (Escaped e, w1)
        end
    end.

(** The [except] clauses of lines 292 to 297; [socket.timeout] is the class
    [TimeoutError]. *)
Definition on_failure (timeout : Z) (e : exc) : outcome string :=
  if String.eqb (exc_class e) "TimeoutError"
  then Ok ("TIMEOUT 執行超時 (" ++ str_of_Z timeout ++ "s)")
  else if String.eqb (exc_class e) "ConnectionRefusedError"
  then Ok "[ERROR] Kernel 未啟動或連線被拒絕"
  else if is_Exception e
  then Ok ("FATAL Kernel 連線錯誤: " ++ str_of_exc e)
  else Raise e.

(** [result[key]] for a string [key] *)
Definition subscript (result : json) (key : string) : outcome json :=
  match result with
  | JDict d =>
      match dict_get d key with
      | Some v => Ok v
      | None => Raise (mkExc "KeyError" ("'" ++ key ++ "'"))
      end
  | JList _ =>
      Raise (mkExc "TypeError" "list indices must be integers or slices, not str")
  | JStr _ => Raise (mkExc "TypeError" "string indices must be integers, not 'str'")
  | _ =>
      Raise (mkExc "TypeError" ("'" ++ json_type_name result ++ "' object is not subscriptable"))
  end.

(** [repr(j)] *)
Fixpoint json_repr (j : json) : string :=
  match j with
  | JNull => "None"
  | JBool true => "True"
  | JBool false => "False"
  | JInt z => str_of_Z z
  | JFloat t => t
  | JStr s => repr_str s
  | JList l =>
      "[" ++ (fix items (l : list json) : string :=
                match l with
                | [] => EmptyString
                | x :: r =>
                    match r with
                    | [] => json_repr x
                    | _ :: _ => json_repr x ++ ", " ++ items r
                    end
                end) l ++ "]"
  | JDict d =>
      "{" ++ (fix members (d : list (string * json)) : string :=
                match d with
                | [] => EmptyString
                | (k, v) :: r =>
                    match r with
                    | [] => repr_str k ++ ": " ++ json_repr v
                    | _ :: _ => repr_str k ++ ": " ++ json_repr v ++ ", " ++ members r
                    end
                end) d ++ "}"
  end.

(** [f"{j}"] *)
Definition json_str (j : json) : string :=
  match j with
  | JStr s => s
  | _ => json_repr j
  end.

(** [sep.join(parts)] *)
Fixpoint join (sep : string) (parts : list string) : string :=
  match parts with
  | [] => EmptyString
  | [p] => p
  | p :: rest => p ++ sep ++ join sep rest
  end.

(** [parts.append(f"{title}\n{result[key]}")] when [result[key]] is true. *)
Definition with_part (title : string) (result : json) (key : string)
           (parts : list string) : outcome (list string) :=
  match subscript result key with
  | Raise e => Raise e
  | Ok v => Ok (if truthy v then List.app parts [title ++ nl ++ json_str v] else parts)
  end.

(** Lines 276 to 290: the text shown for a decoded result. *)
Definition format_result (result : json) : outcome string :=
  match subscript result "success" with
  | Raise e => Raise e
  | Ok success =>
      if truthy success then
        match with_part "--- Output ---" result "stdout" ["OK 成功"] with
        | Raise e => Raise e
        | Ok parts =>
            match with_part "--- Stderr ---" result "stderr" parts with
            | Raise e => Raise e
            | Ok parts =>
                Ok (if Nat.ltb 1 (List.length parts) then join nl parts
                    else "OK 成功（無輸出）")
            end
        end
      else
        match with_part "--- Output ---" result "stdout" ["ERROR 執行失敗"] with
        | Raise e => Raise e
        | Ok parts =>
            match with_part "--- Error ---" result "error" parts with
            | Raise e => Raise e
            | Ok parts => Ok (join nl parts)
            end
        end
  end.

(** The [try] statement around a call that can raise: the exception meets
    the [except] clauses. *)
Definition caught (timeout : Z) (r : outcome string * world) : outcome string * world :=
  match r with
  | (Ok text, w) => (Ok text, w)
  | (Raise e, w) => (on_failure timeout e, w)
  end.

(** The body of [_execute_in_kernel]; [self] stands for the function in its
    one recursive call (line 270), which is made inside the [try]. *)
Definition execute_in_kernel_body
           (self : string -> Z -> bool -> world -> outcome string * world)
           (code : string) (timeout : Z) (_retry : bool) (w : world)
  : outcome string * world :=
  match ensure_running w with
  | (Raise e, w1) => (Raise e, w1)
  | (Ok _, w1) =>
      match connect w1 with
      | (ConnectRaise e, w2) => (on_failure timeout e, w2)
      | (Connected p, w2) =>
          let request := json_dumps false (JDict [("code", JStr code)]) in
          match send_error p with
          | Some e => (on_failure timeout e, w2)
          | None =>
              let w3 := log (Send (request ++ END_MARK)) w2 in
              match recv_response timeout (clock w3) "" (answers p) w3 with
              | (TimedOut, w4) =>
                  (Ok ("[TIMEOUT] 執行超時 (" ++ str_of_Z timeout
                       ++ "s)，任務可能仍在背景執行"), w4)
              | (Escaped e, w4) => (on_failure timeout e, w4)
              | (Broke response, w4) =>
                  if negb (nonempty response) then
                    if _retry then caught timeout (self code timeout false (sleep 3000 w4))
                    else (Ok "[ERROR] Kernel 無回應，請稍後重試", w4)
                  else
                    match loads_bytes response with
                    | Raise e => (on_failure timeout e, w4)
                    | Ok result =>
                        match format_result result with
                        | Ok text => (Ok text, w4)
                        | Raise e => (on_failure timeout e, w4)
                        end
                    end
              end
          end
      end
  end.

(** Never called: the recursive call passes [_retry = False], and the body
    with [_retry = False] calls nothing. *)
Definition no_further_call (code : string) (timeout : Z) (_retry : bool) (w : world)
  : outcome string * world :=
  (Raise (mkExc "RecursionError" "maximum recursion depth exceeded"), w).

(** [_execute_in_kernel(code, timeout, _retry)]: the recursion is at most
    one call deep. *)
Definition _execute_in_kernel : string -> Z -> bool -> world -> outcome string * world :=
  execute_in_kernel_body (execute_in_kernel_body no_further_call).

(** ** PyRunner_MCP.py: the command caller and the kernel tools *)

(** The document [_send_kernel_command] returns for a failure of its own. *)
Definition command_error (msg : string) : json :=
  JDict [("success", JBool false); ("error", JStr msg)].

(** The receiving loop of [_send_kernel_command] (lines 333 to 340): bytes
    are gathered until the peer closes or a read times out.  A [RecvRaise]
    is an exception other than [socket.timeout], as in [recv_response]. *)
Fixpoint recv_all (response : string) (events : list (Z * recv_event)) (w : world)
  : outcome string * world :=
  match events with
  | [] => (Ok response, w)
  | (dt, ev) :: rest =>
      let w1 := tick dt w in
      match ev with
      | Recv chunk =>
          if negb (nonempty chunk) then (Ok response, w1)
          else recv_all (response ++ chunk) rest w1
      | RecvTimeout => (Ok response, w1)
      | RecvRaise e => (Raise e, w1)
      end
  end.

(** What an [except] clause of [_send_kernel_command] decides. *)
Inductive verdict : Type :=
| Retry (ms : Z)
| Return (r : outcome json).

(** The [except] clauses of lines 352 to 364; [last] tells that
    [attempt < max_retries - 1] fails. *)
Definition on_command_failure (last : bool) (e : exc) : verdict :=
  if String.eqb (exc_class e) "ConnectionRefusedError" then
    if last then Return (Ok (command_error "Kernel 未啟動或連線被拒絕")) else Retry 1000
  else if String.eqb (exc_class e) "ConnectionResetError" then
    if last then Return (Ok (command_error "Kernel 繁忙，請稍後重試")) else Retry 2000
  else if is_Exception e then
    Return (Ok (command_error ("Kernel 連線錯誤: " ++ str_of_exc e)))
  else Return (Raise e).

(** The loop [for attempt in range(max_retries)] with [n] attempts left, on
    the encoded [request].  When the loop is used up the function ends
    without a [return], which is worth [None]. *)
Fixpoint command_attempts (n : nat) (request : string) (w : world) : outcome json * world :=
  match n with
  | O => (Ok JNull, w)
  | S m =>
      let last := Nat.eqb m 0 in
      let failed (e : exc) (w' : world) :=
        match on_command_failure last e with
        | Retry ms => command_attempts m request (sleep ms w')
        | Return r => (r, w')
        end in
      match connect w with
      | (ConnectRaise e, w1) => failed e w1
      | (Connected p, w1) =>
          match send_error p with
          | Some e => failed e w1
          | None =>
              let w2 := log (Send (request ++ END_MARK)) w1 in
              match recv_all "" (answers p) w2 with
              | (Raise e, w3) => failed e w3
              | (Ok response, w3) =>
                  if negb (nonempty response) then
                    if last then (Ok (command_error "Kernel 空回應"), w3)
                    else command_attempts m request (sleep 1000 w3)
                  else
                    match loads_bytes response with
                    | Ok result => (Ok result, w3)
                    | Raise e => failed e w3
                    end
              end
          end
      end
  end.

(** [{"action": action, **kwargs}] *)
Definition command_request (action : string) (kwargs : list (string * json)) : json :=
  JDict (fold_left (fun d kv => dict_set d (fst kv) (snd kv)) kwargs
                   [("action", JStr action)]).

(** [_send_kernel_command(action, **kwargs)] *)
Definition _send_kernel_command (action : string) (kwargs : list (string * json))
           (w : world) : outcome json * world :=
  let request := json_dumps false (command_request action kwargs) in
  match KERNEL_PROCESS w with
  | None =>
      match _start_kernel w with
      | (false, w1) => (Ok (command_error "Kernel 啟動失敗"), w1)
      | (true, w1) => command_attempts 3 request w1
      end
  | Some _ => command_attempts 3 request w
  end.

(** [result.get(key, dflt)] *)
Definition get_method (result : json) (key : string) (dflt : json) : outcome json :=
  match result with
  | JDict d => Ok (dict_get_default d key dflt)
  | _ =>
      Raise (mkExc "AttributeError"
               ("'" ++ json_type_name result ++ "' object has no attribute 'get'"))
  end.

(** The answer of a tool to a result that does not report success:
    [f"ERROR {result.get('error', dflt)}"]. *)
Definition failure_text (result : json) (dflt : string) : outcome string :=
  match get_method result "error" (JStr dflt) with
  | Raise e => Raise e
  | Ok v => Ok ("ERROR " ++ json_str v)
  end.

(** Lines 960 to 968 of [kernel_status]. *)
Definition status_text (result : json) : outcome string :=
  match get_method result "success" JNull with
  | Raise e => Raise e
  | Ok success =>
      if negb (truthy success) then failure_text result "Kernel 狀態查詢失敗"
      else
        match subscript result "uptime_human" with
        | Raise e => Raise e
        | Ok uptime =>
            match subscript result "variable_count" with
            | Raise e => Raise e
            | Ok count =>
                match subscript result "memory_usage" with
                | Raise e => Raise e
                | Ok memory =>
                    Ok ("🟢 KERNEL 狀態" ++ nl
                        ++ "├─ 運行時間: " ++ json_str uptime ++ nl
                        ++ "├─ 變數數量: " ++ json_str count ++ " 個" ++ nl
                        ++ "└─ 記憶體使用: " ++ json_str memory)
                end
            end
        end
  end.

(** The three kernel tools have one shape: when [_is_kernel_running()] says
    no, the tool returns the text [idle]; else it sends the command and
    returns what [show] makes of the result.  An exception of the command
    or of [show] leaves the tool. *)
Definition kernel_tool (idle : string) (action : string) (kwargs : list (string * json))
           (show : json -> outcome string) (w : world) : outcome string * world :=
  match _is_kernel_running w with
  | (false, w1) => (Ok idle, w1)
  | (true, w1) =>
      match _send_kernel_command action kwargs w1 with
      | (Raise e, w2) => (Raise e, w2)
      | (Ok result, w2) => (show result, w2)
      end
  end.

Definition kernel_status : world -> outcome string * world :=
  kernel_tool ("🔴 KERNEL 未運行" ++ nl ++ "（執行程式碼時會自動啟動）")
              "status" [] status_text.







(** Lines 1043 to 1046 of [reset_kernel]. *)
Definition reset_text (result : json) : outcome string :=
  match get_method result "success" JNull with
  | Raise e => Raise e
  | Ok success =>
      if negb (truthy success) then failure_text result "Kernel 重置失敗"
      else Ok ("🔄 RESET Kernel 已重置，所有變數和 import 已清空" ++ nl
               ++ "（下次執行需重新 import 套件）")
  end.

Definition reset_kernel : world -> outcome string * world :=
  kernel_tool "🔄 RESET Kernel 未運行，無需重置" "reset" [] reset_text.

(** ** PyRunner_MCP.py: the header of a saved script *)

(** The two lines [save_and_run] writes before the code (line 653). *)
Definition subprocess_header : string :=
  "# -*- coding: utf-8 -*-" ++ nl
  ++ "import sys; sys.stdout.reconfigure(encoding='utf-8'); sys.stderr.reconfigure(encoding='utf-8')"
  ++ nl.

(** [s.split(sep, maxsplit)] for a separator of one character; [cur] holds
    the part being read. *)
Fixpoint split_char (sep : ascii) (maxsplit : nat) (cur s : string) : list string :=
  match s with
  | EmptyString => [cur]
  | String c r =>
      match maxsplit with
      | O => [cur ++ s]
      | S m =>
          if Ascii.eqb c sep then cur :: split_char sep m EmptyString r
          else split_char sep maxsplit (cur ++ String c EmptyString) r
      end
  end.

(** Lines 729 to 732 of [run_file]: the code sent to the kernel for the
    text read from the script. *)
Definition kernel_code (code : string) : string :=
  if startswith code "# -*- coding: utf-8 -*-" then
    let lines := split_char newline 2 EmptyString code in
    if (Nat.leb 3 (List.length lines) && contains "reconfigure" (nth 1 lines EmptyString))%bool
    then nth 2 lines EmptyString
    else code
  else code.

(** ** Notions used to state the properties *)

(** The state [execute_code] hands to [exec]: two fresh buffers, installed
    as [sys.stdout] and [sys.stderr]. *)
Definition capturing (k : kernel) : kernel :=
  let (capture_stdout, k1) := new_SafeStringIO k in
  let (capture_stderr, k2) := new_SafeStringIO k1 in
  set_stderr capture_stderr (set_stdout capture_stdout k2).

(** No buffer yet to be constructed has been written to. *)
Definition fresh_buffers (k : kernel) : Prop :=
  forall i t, In (SafeStringIO i, t) (written k) -> i < next_id k.

(** The document [execute_code] returns. *)
Definition execute_result (success : bool) (out err : string) (error : json) : json :=
  JDict [("success", JBool success); ("stdout", JStr out); ("stderr", JStr err);
         ("error", error)].

(** What [execute_code] reads back from its two buffers in the state [k4]
    that [exec] left, when it started from [k]: the first [getvalue] that
    raises ends the reading. *)
Definition captured (k k4 : kernel) : outcome (string * string) :=
  match getvalue (SafeStringIO (next_id k)) k4 with
  | Raise x => Raise x
  | Ok out =>
      match getvalue (SafeStringIO (S (next_id k))) k4 with
      | Raise x => Raise x
      | Ok err => Ok (out, err)
      end
  end.



(** An entry [handle_inspect] shows for a string pattern. *)
Definition shown (python : interpreter) (pattern : string) (entry : string * value)
  : bool :=
  (negb (startswith (fst entry) "_")
   && (negb (nonempty pattern)
       || contains (str_lower python pattern) (str_lower python (fst entry))))%bool.






(** The class of the exception a run ended with, if it ended with one. *)
Definition exc_class_of (r : option exc) : option string := option_map exc_class r.

(** The class of the exception a computation raised, if it raised one. *)
Definition raises {A : Type} (r : outcome A) : option string :=
  match r with
  | Raise e => Some (exc_class e)
  | Ok _ => None
  end.

(** Two ends of a run are told apart by the class of the exception raised,
    if any, and by whether it is an [Exception]; the text of its trace is
    left open. *)
Definition same_end (a b : option exc) : Prop :=
  match a, b with
  | None, None => True
  | Some x, Some y => exc_class x = exc_class y /\ is_Exception x = is_Exception y
  | _, _ => False
  end.

(** An interpreter that runs the fragment as [py_run] says. *)
Definition runs_fragment (exec : json -> kernel -> kernel * option exc) : Prop :=
  forall (src : string) (k k' : kernel) (r : option exc),
    py_run src k = Some (k', r) ->
    exists r', exec (JStr src) k = (k', r') /\ same_end r r'.

(** The names [print] and [Exception] mean the builtins: nothing is bound to
    them in the module globals, whose builtins are the module's own, and
    the module [builtins] holds the function and the class. *)
Definition plain_builtins (k : kernel) : Prop :=
  dict_get (global_namespace k) "print" = None
  /\ dict_get (global_namespace k) "Exception" = None
  /\ (dict_get (global_namespace k) "__builtins__" = None
      \/ dict_get (global_namespace k) "__builtins__" = Some VBuiltins)
  /\ dict_get (builtins k) "print" = Some (VBuiltinFn "print")
  /\ dict_get (builtins k) "Exception" = Some (VExcClass "Exception").

(** The accumulated bytes end a request: they hold the sentinel, or they
    are a whole document. *)
Definition complete (data : string) : bool :=
  (contains END_MARK data
   || match loads_bytes data with Ok _ => true | Raise _ => false end)%bool.

(** What the receiving loop leaves of complete bytes. *)
Definition framed (data : string) : string :=
  if contains END_MARK data then replace END_MARK "" data else data.

(** The bytes accumulated after each of the chunks in turn. *)
Fixpoint accumulations (data : string) (chunks : list string) : list string :=
  match chunks with
  | [] => []
  | c :: rest => (data ++ c) :: accumulations (data ++ c) rest
  end.

(** The number of requests put on the wire. *)
Definition sends (t : list effect) : nat :=
  List.length (filter (fun e => match e with Send _ => true | _ => false end) t).

(** The number of processes the client tried to start. *)
Definition spawn_count (t : list effect) : nat :=
  List.length (filter (fun e => match e with Spawn _ => true | _ => false end) t).

(** One exchange of [_execute_in_kernel] from [w] that ends in [w'] with the
    connection closed and no byte of response received. *)
Definition empty_exchange (code : string) (timeout : Z) (w w' : world) : Prop :=
  exists w1 w2 p,
    ensure_running w = (Ok tt, w1)
    /\ connect w1 = (Connected p, w2)
    /\ send_error p = None
    /\ (let w3 := log (Send (json_dumps false (JDict [("code", JStr code)]) ++ END_MARK))
                      w2 in
        recv_response timeout (clock w3) "" (answers p) w3 = (Broke "", w')).

Definition NO_RESPONSE : string := "[ERROR] Kernel 無回應，請稍後重試".

(** ** Notions used to state further properties *)

(** A name an inspection can show. *)
Definition visible (name : string) : bool := negb (startswith name "_").

(** The names a statement binds or unbinds. *)
Definition rebound (s : stmt) : list string :=
  match s with
  | SAssign x _ => [x]
  | SDel x => [x]
  | SImport m => [m]
  | _ => []
  end.

(** The names the statements of a text of the fragment bind or unbind. *)
Definition rebinds (prog : list stmt) (x : string) : bool :=
  existsb (String.eqb x) (flat_map rebound prog).

(** A stream that exists in the state: one of the process, or a buffer
    already constructed. *)
Definition allocated (k : kernel) (s : stream) : Prop :=
  match s with
  | SafeStringIO i => i < next_id k
  | _ => True
  end.

(** The footprint of a run: no buffer is constructed, what was written
    stays and more is appended, on streams that exist. *)
Definition extends (k k' : kernel) : Prop :=
  next_id k' = next_id k
  /\ KERNEL_START_TIME k' = KERNEL_START_TIME k
  /\ allocated k' (sys_stdout k') /\ allocated k' (sys_stderr k')
  /\ exists new, written k' = (written k ++ new)%list
                 /\ forall s t, In (s, t) new -> allocated k s.

(** The connections among the events. *)
Definition accepts (events : list accept_event) : nat :=
  List.length (filter (fun ev => match ev with Accept _ _ => true | _ => false end) events).

(** *** Documents on the wire *)

(** The keys differ from one another, as those of a Python [dict] do. *)
Fixpoint distinct (ks : list string) : bool :=
  match ks with
  | [] => true
  | k :: r => (negb (mem k r) && distinct r)%bool
  end.

(** Every character of the text is a digit. *)
Fixpoint digits (s : string) : bool :=
  match s with
  | EmptyString => true
  | String c r => (is_digit c && digits r)%bool
  end.

(** The digits of a whole number: one digit, or several of which the first
    is not a zero. *)
Definition whole (ip : string) : bool :=
  match ip with
  | EmptyString => false
  | String c r =>
      (is_digit c && digits r && (negb (Ascii.eqb c "0") || negb (nonempty r)))%bool
  end.

(** The text up to its first dot, and the text after that dot. *)
Fixpoint before_dot (s : string) : string :=
  match s with
  | EmptyString => EmptyString
  | String c r => if Ascii.eqb c "." then EmptyString else String c (before_dot r)
  end.

Fixpoint after_dot (s : string) : option string :=
  match s with
  | EmptyString => None
  | String c r => if Ascii.eqb c "." then Some r else after_dot r
  end.

(** A whole number, a dot and one digit or more. *)
Definition unsigned_positional (u : string) : bool :=
  (whole (before_dot u)
   && match after_dot u with
      | Some fd => nonempty fd && digits fd
      | None => false
      end)%bool.

(** The text of a float in positional notation, as [repr] writes a float
    that is neither tiny nor huge: an optional minus sign, a whole number, a
    dot and one digit or more. *)
Definition positional (t : string) : bool :=
  match t with
  | EmptyString => false
  | String c r => if Ascii.eqb c "-" then unsigned_positional r else unsigned_positional t
  end.

(** A document that goes over the wire unchanged: the keys of each of its
    dictionaries are distinct, as those of a Python [dict] are, and its
    floats are in positional notation (a float is carried as its text). *)
Fixpoint document (j : json) : bool :=
  match j with
  | JFloat t => positional t
  | JList l => forallb document l
  | JDict d => (distinct (map fst d) && forallb (fun kv => document (snd kv)) d)%bool
  | _ => true
  end.

(** One member of an object as [json.dumps] writes it. *)
Definition member_text (kv : string * json) : string :=
  dumps_str false (fst kv) ++ ": " ++ json_dumps false (snd kv).

(** A character that can go on a number. *)
Definition number_char (c : ascii) : bool :=
  (is_digit c || Ascii.eqb c "." || Ascii.eqb c "e" || Ascii.eqb c "E")%bool.

(** The text [T] ends a number written before it. *)
Definition ends_number (T : string) : bool :=
  match T with
  | EmptyString => true
  | String c _ => negb (number_char c)
  end.

(** The text starts a value: its first character is neither blank nor a
    closing bracket. *)
Definition opens_value (s : string) : bool :=
  match s with
  | EmptyString => false
  | String c _ => (negb (is_ws c) && negb (Ascii.eqb c "]") && negb (Ascii.eqb c "}"))%bool
  end.

(** No line feed in the text. *)
Fixpoint one_line (s : string) : bool :=
  match s with
  | EmptyString => true
  | String c r => (negb (Ascii.eqb c newline) && one_line r)%bool
  end.

(** The decoder reads the text of [j] back, whatever text that can follow a
    value comes after it. *)
Definition reads_back (j : json) : Prop :=
  forall (f : nat) (T : string),
    String.length (json_dumps false j) <= f -> ends_number T = true ->
    scan_value (S f) (json_dumps false j ++ T) = Some (j, T).

(** Every character of the text is an ASCII one. *)
Fixpoint ascii_only (s : string) : bool :=
  match s with
  | EmptyString => true
  | String c r => (N.ltb (code c) 128 && ascii_only r)%bool
  end.

(** The text is well-formed UTF-8, that is, it stands for a Python [str]. *)
Definition is_text (s : string) : bool := utf8_ok 0 128 191 s.

(** Every string of the document stands for a Python [str]. *)
Fixpoint unicode (j : json) : bool :=
  match j with
  | JFloat t => is_text t
  | JStr s => is_text s
  | JList l => forallb unicode l
  | JDict d => forallb (fun kv => (is_text (fst kv) && unicode (snd kv))%bool) d
  | _ => true
  end.


(** *** Counting what the supervisor does *)

(** The number of probes of the endpoint that connected. *)
Definition reached_count (t : list effect) : nat :=
  List.length (filter (fun e => match e with Connect true => true | _ => false end) t).

(** The exception [_execute_in_kernel] raises when the kernel cannot be
    started. *)
Definition START_FAILED : exc := mkExc "RuntimeError" "Kernel 啟動失敗".

(** What a step adds to the two counts. *)
Definition adds (w w' : world) (reached spawned : nat) : Prop :=
  reached_count (trace w') = reached_count (trace w) + reached
  /\ spawn_count (trace w') = spawn_count (trace w) + spawned.

(** *** A text read in pieces *)

(** The text goes on after a number: it is not empty, and its first
    character cannot be part of a number. *)
Definition ends_here (r : string) : bool :=
  match r with
  | EmptyString => false
  | String c _ => negb (number_char c)
  end.

(** The text opens a number: a digit or a minus sign comes first. *)
Definition opens_number (s : string) : bool :=
  match s with
  | EmptyString => false
  | String c _ => (is_digit c || Ascii.eqb c "-")%bool
  end.

(** The rest of [scan_number] once the sign and the digits of the whole
    part are read: the fraction, the exponent and the value, as they are
    written there ([scan_number_eq] ties the two). *)
Definition number_rest (sign ds r1 : string) : option (json * string) :=
  let (frac, r2) :=
    match r1 with
    | String "." r =>
        let (fd, r') := span_digits r in
        if nonempty fd then ("." ++ fd, r') else (EmptyString, r1)
    | _ => (EmptyString, r1)
    end in
  let (expo, r3) :=
    match r2 with
    | String e r =>
        if (Ascii.eqb e "e" || Ascii.eqb e "E")%bool then
          let (sg, r') :=
            match r with
            | String "+" t => ("+", t)
            | String "-" t => ("-", t)
            | _ => (EmptyString, r)
            end in
          let (ed, r'') := span_digits r' in
          if nonempty ed then (String e (sg ++ ed), r'') else (EmptyString, r2)
        else (EmptyString, r2)
    | EmptyString => (EmptyString, r2)
    end in
  if (nonempty frac || nonempty expo)%bool
  then Some (JFloat (sign ++ ds ++ frac ++ expo), r3)
  else Some (JInt (if nonempty sign then (- Z_of_digits 0 ds)%Z else Z_of_digits 0 ds), r3).

(** The stages of [scan_number], with tests on the characters in place of
    the patterns ([scan_number_eq] and [number_rest_eq] tie them to it):
    the whole part of a number at the head of [s1]; *)
Definition number_whole (s1 : string) : option (string * string) :=
  match s1 with
  | EmptyString => None
  | String c r =>
      if Ascii.eqb c "0" then Some ("0", r)
      else if is_digit c then Some (span_digits s1)
      else None
  end.

(** the fraction at the head of [r1]; *)
Definition number_frac (r1 : string) : string * string :=
  match r1 with
  | EmptyString => (EmptyString, r1)
  | String c r =>
      if Ascii.eqb c "." then
        let (fd, r') := span_digits r in
        if nonempty fd then ("." ++ fd, r') else (EmptyString, r1)
      else (EmptyString, r1)
  end.

(** the sign of an exponent; *)
Definition exponent_sign (r : string) : string * string :=
  match r with
  | EmptyString => (EmptyString, r)
  | String c t =>
      if Ascii.eqb c "+" then ("+", t)
      else if Ascii.eqb c "-" then ("-", t)
      else (EmptyString, r)
  end.

(** the exponent at the head of [r2]. *)
Definition number_expo (r2 : string) : string * string :=
  match r2 with
  | EmptyString => (EmptyString, r2)
  | String e r =>
      if (Ascii.eqb e "e" || Ascii.eqb e "E")%bool then
        let (sg, r') := exponent_sign r in
        let (ed, r'') := span_digits r' in
        if nonempty ed then (String e (sg ++ ed), r'') else (EmptyString, r2)
      else (EmptyString, r2)
  end.

(** The bytes that reads bring one after the other, put end to end. *)
Definition joined (chunks : list string) : string :=
  fold_right String.append EmptyString chunks.

(** The time the reads of the pieces take, in milliseconds. *)
Definition elapsed (pieces : list (Z * string)) : Z :=
  fold_right (fun p t => (fst p + t)%Z) 0%Z pieces.

(** The reads that bring the pieces, each after its time. *)
Definition reads (pieces : list (Z * string)) : list (Z * recv_event) :=
  map (fun p => (fst p, Recv (snd p))) pieces.

(** Each piece comes after some time and holds a byte at least. *)
Definition in_pieces (pieces : list (Z * string)) : Prop :=
  Forall (fun p => (0 <= fst p)%Z /\ nonempty (snd p) = true) pieces.

(** * Properties *)

(** ** The execution engine *)

Section EngineProperties.

Variable exec : json -> kernel -> kernel * option exc.

(** [execute_code] by what [exec] left: the captured text when both buffers
    are open, and the way out. *)
Lemma execute_code_unfold (code : json) (k : kernel) :
  execute_code exec code k =
  let (k4, raised) := exec code (capturing k) in
  (match raised, captured k k4 with
   | None, Ok (out, err) => Ok (execute_result true out err JNull)
   | None, Raise x => Raise x
   | Some e, Ok (out, err) =>
       if is_Exception e then Ok (execute_result false out err (JStr (format_exc e)))
       else Raise e
   | Some e, Raise x => if is_Exception e then Raise x else Raise e
   end,
   restore (sys_stdout k) (sys_stderr k) k4).
Proof.
  unfold execute_code, capturing, captured, new_SafeStringIO.
  cbn [next_id sys_stdout sys_stderr].
  destruct (exec code _) as [k4 [e|]].
  - destruct (is_Exception e);
      destruct (getvalue (SafeStringIO (next_id k)) k4);
      destruct (getvalue (SafeStringIO (S (next_id k))) k4); reflexivity.
  - destruct (getvalue (SafeStringIO (next_id k)) k4);
      destruct (getvalue (SafeStringIO (S (next_id k))) k4); reflexivity.
Qed.

Lemma restore_streams (o e : stream) (k : kernel) :
  sys_stdout (restore o e k) = o /\ sys_stderr (restore o e k) = e.
Proof. split; reflexivity. Qed.

Lemma restore_namespace (o e : stream) (k : kernel) :
  global_namespace (restore o e k) = global_namespace k.
Proof. reflexivity. Qed.

Lemma execute_code_state (code : json) (k : kernel) :
  snd (execute_code exec code k)
  = restore (sys_stdout k) (sys_stderr k) (fst (exec code (capturing k))).
Proof.
  rewrite execute_code_unfold. destruct (exec code (capturing k)); reflexivity.
Qed.

(** C2. Whatever the submitted code does, and on each way out of
    [execute_code] (the result of a success, the result of a fault, an
    exception that is let through), [sys.stdout] and [sys.stderr] refer
    again to the objects they referred to before the call. *)
Theorem C2_streams_restored (code : json) (k : kernel) :
  sys_stdout (snd (execute_code exec code k)) = sys_stdout k
  /\ sys_stderr (snd (execute_code exec code k)) = sys_stderr k.
Proof.
  rewrite execute_code_state. split; reflexivity.
Qed.

(** A fault during execution, for any interpreter: the result reports the
    failure with the captured output and the trace, and the namespace is the
    one the code left behind. *)
Lemma execute_code_fault (code : json) (k k' : kernel) (e : exc) (out err : string) :
  exec code (capturing k) = (k', Some e) ->
  is_Exception e = true ->
  captured k k' = Ok (out, err) ->
  execute_code exec code k =
    (Ok (execute_result false out err (JStr (format_exc e))),
     restore (sys_stdout k) (sys_stderr k) k').
Proof.
  intros Hexec He Hc. rewrite execute_code_unfold, Hexec, He, Hc. reflexivity.
Qed.

Lemma execute_code_success (code : json) (k k' : kernel) (out err : string) :
  exec code (capturing k) = (k', None) ->
  captured k k' = Ok (out, err) ->
  execute_code exec code k =
    (Ok (execute_result true out err JNull),
     restore (sys_stdout k) (sys_stderr k) k').
Proof.
  intros Hexec Hc. rewrite execute_code_unfold, Hexec, Hc. reflexivity.
Qed.

End EngineProperties.

(** ** Faults in the fragment *)

Lemma call_print_raise (callee : value) (args : list value) (k k' : kernel) (e : exc) :
  call_print callee args k = Some (k', Some e) -> k' = k.
Proof.
  unfold call_print. intros H.
  destruct callee; try discriminate; try (inversion H; reflexivity).
  destruct (String.eqb name "print"); [|discriminate].
  destruct (match args with [] => Some "" | [v] => printed v | _ => None end);
    [|discriminate].
  destruct (is_closed (sys_stdout k) k); inversion H; reflexivity.
Qed.

(** A statement that raises leaves the state as it found it. *)
Lemma exec_stmt_raise (s : stmt) (k k' : kernel) (e : exc) :
  exec_stmt s k = Some (k', Some e) -> k' = k.
Proof.
  destruct s as [|ex|x ex|x|arg|cls called| |m|m a m' a'|m a]; simpl; intros H.
  - discriminate.
  - destruct (eval _ ex) as [[]|]; inversion H; reflexivity.
  - destruct (eval _ ex) as [[]|]; inversion H; reflexivity.
  - destruct (dict_get _ x); inversion H; reflexivity.
  - destruct (lookup k "print") as [callee|]; [|inversion H; reflexivity].
    destruct arg as [ex|]; [|exact (call_print_raise _ _ _ _ _ H)].
    destruct (eval _ ex) as [[v|]|]; [| |discriminate].
    + exact (call_print_raise _ _ _ _ _ H).
    + inversion H; reflexivity.
  - destruct (lookup _ cls) as [[]|]; try discriminate;
      try (inversion H; reflexivity).
    destruct called; [discriminate | inversion H; reflexivity].
  - inversion H; reflexivity.
  - destruct (dict_get _ "__import__") as [[]|]; try discriminate.
    destruct (String.eqb _ _); discriminate.
  - destruct (stream_of k m' a') as [[]|]; [| |discriminate].
    + destruct (lookup _ m) as [v|]; [|inversion H; reflexivity].
      destruct v; simpl in H; try discriminate; try (inversion H; reflexivity).
      destruct (String.eqb _ _); discriminate.
    + inversion H; reflexivity.
  - destruct (stream_of k m a) as [[[]|]|]; try discriminate.
    inversion H; reflexivity.
Qed.

(** The statements before the one that raises have run; none after it has. *)
Lemma run_until_fault (pre post : list stmt) (s : stmt) (k k1 k2 : kernel) (e : exc) :
  run pre k = Some (k1, None) ->
  exec_stmt s k1 = Some (k2, Some e) ->
  run (pre ++ s :: post) k = Some (k1, Some e).
Proof.
  revert k. induction pre as [|p pre IH]; simpl; intros k Hpre Hs.
  - inversion Hpre; subst k1. rewrite Hs.
    rewrite (exec_stmt_raise _ _ _ _ Hs). reflexivity.
  - destruct (exec_stmt p k) as [[kp [ep|]]|]; try discriminate.
    apply IH; assumption.
Qed.

Lemma dict_get_set_same {V : Type} (d : list (string * V)) (k : string) (v : V) :
  dict_get (dict_set d k v) k = Some v.
Proof.
  induction d as [|[k' v'] d IH]; simpl.
  - rewrite String.eqb_refl. reflexivity.
  - destruct (String.eqb k' k) eqn:E; simpl; rewrite E; [reflexivity | exact IH].
Qed.

Lemma dict_get_set_other {V : Type} (d : list (string * V)) (k k' : string) (v : V) :
  k' <> k -> dict_get (dict_set d k v) k' = dict_get d k'.
Proof.
  intros Hk. induction d as [|[k0 v0] d IH]; simpl.
  - destruct (String.eqb_spec k k'); [congruence | reflexivity].
  - destruct (String.eqb_spec k0 k); simpl.
    + subst. destruct (String.eqb_spec k k'); [congruence | reflexivity].
    + rewrite IH. reflexivity.
Qed.

Lemma with_builtins_get (ns : namespace) (x : string) :
  x <> "__builtins__" -> dict_get (with_builtins ns) x = dict_get ns x.
Proof.
  intros H. unfold with_builtins. destruct (dict_get ns "__builtins__"); [reflexivity|].
  apply dict_get_set_other. exact H.
Qed.

Lemma with_builtins_has (ns : namespace) :
  dict_get (with_builtins ns) "__builtins__" <> None.
Proof.
  unfold with_builtins. destruct (dict_get ns "__builtins__") eqn:E.
  - rewrite E. discriminate.
  - rewrite dict_get_set_same. discriminate.
Qed.

Lemma with_builtins_again (ns : namespace) :
  dict_get ns "__builtins__" <> None -> with_builtins ns = ns.
Proof.
  intros H. unfold with_builtins.
  destruct (dict_get ns "__builtins__"); [reflexivity | congruence].
Qed.

Lemma stream_eqb_eq (a b : stream) : stream_eqb a b = true -> a = b.
Proof.
  destruct a, b; simpl; intros H; try discriminate; try reflexivity.
  apply Nat.eqb_eq in H. congruence.
Qed.

(** Nothing has been read back from a stream nothing was written to. *)
Lemma text_of_fresh (s : stream) (log : list (stream * string)) :
  (forall t, ~ In (s, t) log) -> text_of s log = "".
Proof.
  induction log as [|[s' t'] log IH]; simpl; intros H; [reflexivity|].
  destruct (stream_eqb s' s) eqn:E.
  - exfalso. apply (H t'). left. rewrite (stream_eqb_eq _ _ E). reflexivity.
  - apply IH. intros t Ht. apply (H t). right. exact Ht.
Qed.

Lemma text_of_app (s : stream) (log log' : list (stream * string)) :
  text_of s (log ++ log') = text_of s log ++ text_of s log'.
Proof.
  induction log as [|[s' t'] log IH]; simpl; [reflexivity|].
  destruct (stream_eqb s' s); rewrite IH; [|reflexivity].
  clear. induction t'; simpl; congruence.
Qed.

Lemma written_fresh (k : kernel) (i : nat) :
  fresh_buffers k -> next_id k <= i -> text_of (SafeStringIO i) (written k) = "".
Proof.
  intros Hf Hi. apply text_of_fresh. intros t Ht. apply Hf in Ht. lia.
Qed.

Lemma getvalue_open (s : stream) (k : kernel) :
  is_closed s k = false -> getvalue s k = Ok (text_of s (written k)).
Proof. unfold getvalue. intros H. rewrite H. reflexivity. Qed.

Lemma not_in_filtered (i : nat) (l : list nat) :
  existsb (Nat.eqb i) (filter (fun j => negb (Nat.eqb j i)) l) = false.
Proof.
  induction l as [|j l IH]; simpl; [reflexivity|].
  destruct (Nat.eqb j i) eqn:E; simpl; [exact IH|].
  rewrite Nat.eqb_sym, E. exact IH.
Qed.

Lemma filtered_keeps_out (i j : nat) (l : list nat) :
  existsb (Nat.eqb i) l = false ->
  existsb (Nat.eqb i) (filter (fun x => negb (Nat.eqb x j)) l) = false.
Proof.
  induction l as [|x l IH]; simpl; [reflexivity|].
  intros H. apply orb_false_iff in H. destruct H as [H1 H2].
  destruct (Nat.eqb x j); simpl; [exact (IH H2)|].
  rewrite H1. exact (IH H2).
Qed.

(** The two buffers [execute_code] constructs are open when [exec] starts. *)
Lemma capturing_open (k : kernel) :
  is_closed (SafeStringIO (next_id k)) (capturing k) = false
  /\ is_closed (SafeStringIO (S (next_id k))) (capturing k) = false.
Proof.
  unfold capturing, new_SafeStringIO, is_closed.
  cbn [closed set_stdout set_stderr next_id]. split.
  - apply filtered_keeps_out. apply not_in_filtered.
  - apply not_in_filtered.
Qed.

(** The text captured in a state whose buffers are open. *)
Lemma captured_open (k k' : kernel) :
  is_closed (SafeStringIO (next_id k)) k' = false ->
  is_closed (SafeStringIO (S (next_id k))) k' = false ->
  captured k k' = Ok (text_of (SafeStringIO (next_id k)) (written k'),
                      text_of (SafeStringIO (S (next_id k))) (written k')).
Proof.
  intros H1 H2. unfold captured. rewrite !getvalue_open by assumption. reflexivity.
Qed.

Lemma same_end_refl (r : option exc) : same_end r r.
Proof. destruct r; simpl; auto. Qed.

(** The interpreter of the fragment runs the fragment. *)
Lemma py_exec_runs_fragment : runs_fragment py_exec.
Proof.
  intros src k k' r H. exists r. unfold py_exec. rewrite H.
  split; [reflexivity | apply same_end_refl].
Qed.

(** What an interpreter that runs the fragment returns where the fragment
    ends with a fault, and where it ends without one. *)
Lemma runs_fragment_fault (exec : json -> kernel -> kernel * option exc)
      (src : string) (k k' : kernel) (e : exc) :
  runs_fragment exec ->
  py_run src k = Some (k', Some e) ->
  exists e', exec (JStr src) k = (k', Some e')
             /\ exc_class e' = exc_class e /\ is_Exception e' = is_Exception e.
Proof.
  intros Hx Hr. destruct (Hx _ _ _ _ Hr) as [[e'|] [H1 H2]]; simpl in H2.
  - exists e'. destruct H2 as [Hc Hi]. auto.
  - contradiction.
Qed.

Lemma runs_fragment_done (exec : json -> kernel -> kernel * option exc)
      (src : string) (k k' : kernel) :
  runs_fragment exec ->
  py_run src k = Some (k', None) ->
  exec (JStr src) k = (k', None).
Proof.
  intros Hx Hr. destruct (Hx _ _ _ _ Hr) as [[e'|] [H1 H2]]; simpl in H2.
  - contradiction.
  - exact H1.
Qed.

(** The state the scenario starts from, once the capture is installed and
    the builtins are in the namespace. *)
Lemma plain_builtins_started (k : kernel) :
  plain_builtins k ->
  dict_get (with_builtins (global_namespace k)) "__builtins__" = Some VBuiltins.
Proof.
  intros (_ & _ & Hb & _). unfold with_builtins.
  destruct Hb as [Hb|Hb]; rewrite Hb.
  - apply dict_get_set_same.
  - exact Hb.
Qed.

(** C1. When the submitted code raises a fault (an exception that is an
    [Exception]) and leaves the two capture buffers open, [execute_code]
    returns a result with [success] false, the text captured on the two
    streams and the trace in [error]; the namespace is the one the code
    left, so the bindings made by the statements that ran before the fault
    stay.  First for any interpreter; then statement by statement for an
    interpreter that runs the fragment, where the output and the namespace
    are those reached when the faulting statement started; last the scenario
    of the specification, from any state in which the names [print] and
    [Exception] mean the builtins. *)
Theorem C1_fault_keeps_bindings :
  (forall (exec : json -> kernel -> kernel * option exc)
          (code : string) (k k' : kernel) (e : exc) (out err : string),
      exec (JStr code) (capturing k) = (k', Some e) ->
      is_Exception e = true ->
      getvalue (SafeStringIO (next_id k)) k' = Ok out ->
      getvalue (SafeStringIO (S (next_id k))) k' = Ok err ->
      fst (execute_code exec (JStr code) k)
        = Ok (execute_result false out err (JStr (format_exc e)))
      /\ global_namespace (snd (execute_code exec (JStr code) k)) = global_namespace k')
  /\ (forall (exec : json -> kernel -> kernel * option exc)
             (code : string) (k k1 k2 : kernel) (pre post : list stmt) (s : stmt)
             (e : exc) (out err : string),
      runs_fragment exec ->
      dict_get (with_builtins (global_namespace k)) "__builtins__" = Some VBuiltins ->
      py_compile code = Some (pre ++ s :: post)%list ->
      run pre (set_namespace (with_builtins (global_namespace k)) (capturing k))
        = Some (k1, None) ->
      exec_stmt s k1 = Some (k2, Some e) ->
      is_Exception e = true ->
      getvalue (SafeStringIO (next_id k)) k1 = Ok out ->
      getvalue (SafeStringIO (S (next_id k))) k1 = Ok err ->
      (exists trace : string,
          fst (execute_code exec (JStr code) k)
          = Ok (execute_result false out err (JStr trace)))
      /\ global_namespace (snd (execute_code exec (JStr code) k)) = global_namespace k1)
  /\ (forall (exec : json -> kernel -> kernel * option exc) (k : kernel),
      runs_fragment exec ->
      fresh_buffers k ->
      plain_builtins k ->
      let first := execute_code exec (JStr ("x = 1" ++ nl ++ "raise Exception()")) k in
      let second := execute_code exec (JStr "print(x)") (snd first) in
      (exists trace : string,
          fst first = Ok (execute_result false "" "" (JStr trace)))
      /\ dict_get (global_namespace (snd first)) "x" = Some (VInt 1)
      /\ fst second = Ok (execute_result true ("1" ++ nl) "" JNull)).
Proof.
  split; [|split].
  - intros exec code k k' e out err Hexec He Ho Hr.
    assert (Hc : captured k k' = Ok (out, err)) by (unfold captured; rewrite Ho, Hr; reflexivity).
    rewrite (execute_code_fault exec _ _ _ _ _ _ Hexec He Hc). split; reflexivity.
  - intros exec code k k1 k2 pre post s e out err Hx Hb Hc Hpre Hs He Ho Hr.
    assert (Hrun : py_run code (capturing k) = Some (k1, Some e)).
    { unfold py_run. change (global_namespace (capturing k)) with (global_namespace k).
      cbn [global_namespace set_namespace]. rewrite Hb, Hc.
      exact (run_until_fault pre post s _ k1 k2 e Hpre Hs). }
    destruct (runs_fragment_fault exec _ _ _ _ Hx Hrun) as (e' & Hexec & _ & Hi).
    assert (Hcap : captured k k1 = Ok (out, err))
      by (unfold captured; rewrite Ho, Hr; reflexivity).
    rewrite (execute_code_fault exec _ _ _ e' _ _ Hexec (eq_trans Hi He) Hcap).
    split; [exists (format_exc e')|]; reflexivity.
  - intros exec k Hx Hf Hpb first second.
    pose proof (plain_builtins_started k Hpb) as Hb.
    destruct Hpb as (Hp & He & _ & Hbp & Hbe).
    assert (Hc1 : py_compile ("x = 1" ++ nl ++ "raise Exception()")
                  = Some [SAssign "x" (EInt 1); SRaise "Exception" true]) by reflexivity.
    assert (Hc2 : py_compile "print(x)" = Some [SPrint (Some (EName "x"))]) by reflexivity.
    set (ns1 := dict_set (with_builtins (global_namespace k)) "x" (VInt 1)).
    assert (Hl : dict_get ns1 "Exception" = None).
    { subst ns1. rewrite dict_get_set_other by discriminate.
      rewrite with_builtins_get by discriminate. exact He. }
    assert (Hp1 : dict_get ns1 "print" = None).
    { subst ns1. rewrite dict_get_set_other by discriminate.
      rewrite with_builtins_get by discriminate. exact Hp. }
    assert (Hx1 : dict_get ns1 "x" = Some (VInt 1))
      by (subst ns1; apply dict_get_set_same).
    assert (Hb1 : dict_get ns1 "__builtins__" = Some VBuiltins).
    { subst ns1. rewrite dict_get_set_other by discriminate. exact Hb. }
    assert (Hw1 : with_builtins ns1 = ns1).
    { apply with_builtins_again. rewrite Hb1. discriminate. }
    set (k1 := set_namespace ns1 (capturing k)).
    assert (Hrun1 : py_run ("x = 1" ++ nl ++ "raise Exception()") (capturing k)
                    = Some (k1, Some (mkExc "Exception" ""))).
    { unfold py_run. change (global_namespace (capturing k)) with (global_namespace k).
      cbn [global_namespace set_namespace]. rewrite Hb, Hc1.
      cbn [run exec_stmt eval global_namespace set_namespace]. fold ns1.
      change (set_namespace ns1 (set_namespace (with_builtins (global_namespace k))
                                               (capturing k))) with k1.
      unfold lookup.
      assert (Hm : mem "Exception" constant_keywords = false) by reflexivity.
      rewrite Hm. change (global_namespace k1) with ns1. rewrite Hl.
      change (builtins k1) with (builtins k). rewrite Hbe. reflexivity. }
    destruct (runs_fragment_fault exec _ _ _ _ Hx Hrun1) as (e' & Hexec1 & _ & Hi).
    destruct (capturing_open k) as [Ho1 Ho2].
    assert (Hcap1 : captured k k1 = Ok ("", "")).
    { rewrite captured_open by assumption.
      change (written k1) with (written k).
      rewrite !(written_fresh k) by (assumption || lia). reflexivity. }
    assert (Hfirst : first = (Ok (execute_result false "" "" (JStr (format_exc e'))),
                              restore (sys_stdout k) (sys_stderr k) k1)).
    { subst first. exact (execute_code_fault exec _ _ _ e' _ _ Hexec1 Hi Hcap1). }
    rewrite Hfirst. cbn [fst snd].
    split; [exists (format_exc e'); reflexivity|].
    split; [exact Hx1|].
    subst second. rewrite Hfirst. cbn [snd].
    set (k' := restore (sys_stdout k) (sys_stderr k) k1).
    assert (Hf' : fresh_buffers k').
    { intros i t Hin. apply Hf in Hin. cbn. lia. }
    set (k2 := write (SafeStringIO (next_id k')) ("1" ++ nl)
                     (set_namespace ns1 (capturing k'))).
    assert (Hrun2 : py_run "print(x)" (capturing k') = Some (k2, None)).
    { unfold py_run. change (global_namespace (capturing k')) with ns1.
      cbn [global_namespace set_namespace]. rewrite Hw1, Hb1, Hc2.
      cbn [run exec_stmt eval]. unfold lookup.
      assert (Hm : mem "print" constant_keywords = false) by reflexivity.
      assert (Hm' : mem "x" constant_keywords = false) by reflexivity.
      rewrite Hm, Hm'. cbn [global_namespace set_namespace]. rewrite Hp1, Hx1.
      change (builtins (set_namespace ns1 (capturing k'))) with (builtins k).
      rewrite Hbp. cbn [call_print String.eqb Ascii.eqb Bool.eqb].
      change (printed (VInt 1)) with (Some "1").
      change (sys_stdout (set_namespace ns1 (capturing k'))) with (SafeStringIO (next_id k')).
      change (is_closed (SafeStringIO (next_id k')) (set_namespace ns1 (capturing k')))
        with (is_closed (SafeStringIO (next_id k')) (capturing k')).
      rewrite (proj1 (capturing_open k')). reflexivity. }
    pose proof (runs_fragment_done exec _ _ _ Hx Hrun2) as Hexec2.
    destruct (capturing_open k') as [Ho1' Ho2'].
    assert (Hcap2 : captured k' k2 = Ok ("1" ++ nl, "")).
    { rewrite captured_open by assumption.
      unfold k2, write. cbn [written set_namespace].
      change (written (capturing k')) with (written k').
      rewrite !text_of_app, !(written_fresh k') by (assumption || lia).
      cbn [text_of stream_eqb]. rewrite Nat.eqb_refl.
      assert (Hn : Nat.eqb (next_id k') (S (next_id k')) = false)
        by (apply Nat.eqb_neq; lia).
      rewrite Hn. reflexivity. }
    rewrite (execute_code_success exec _ _ _ _ _ Hexec2 Hcap2). reflexivity.
Qed.

(** C1 as the specification states it fails.  Code that closes
    [sys.stdout] and then raises a fault gets no result: [getvalue] raises
    [ValueError] on the closed buffer, in the clause that handles the fault,
    and that exception leaves [execute_code].  An exception that is not an
    [Exception], as [SystemExit], is not handled at all.  And the scenario
    does not end as the specification says on a kernel where [print] has
    been bound to something else. *)
Lemma C1_counterexample :
  let k := initial_kernel 0 in
  let closing :=
    JStr ("import sys" ++ nl ++ "sys.stdout.close()" ++ nl ++ "raise Exception()") in
  let leaving := JStr "raise SystemExit()" in
  let rebound := set_namespace [("__name__", VStr "__main__"); ("print", VInt 5)] k in
  let first := execute_code py_exec (JStr ("x = 1" ++ nl ++ "raise Exception()")) rebound in
  (exc_class_of (snd (py_exec closing (capturing k))) = Some "Exception"
   /\ raises (fst (execute_code py_exec closing k)) = Some "ValueError")
  /\ (exc_class_of (snd (py_exec leaving (capturing k))) = Some "SystemExit"
      /\ raises (fst (execute_code py_exec leaving k)) = Some "SystemExit")
  /\ fst (execute_code py_exec (JStr "print(x)") (snd first))
     <> Ok (execute_result true ("1" ++ nl) "" JNull).
Proof. vm_compute. repeat split. discriminate. Qed.

(** C1 at work, on a kernel just started: the general statement applied to
    the code of the scenario, statement by statement, and the scenario
    itself. *)
Lemma C1_fault_keeps_bindings_witness :
  let k := initial_kernel 0 in
  let code := "x = 1" ++ nl ++ "raise Exception()" in
  let k' := fst (py_exec (JStr code) (capturing k)) in
  let first := execute_code py_exec (JStr code) k in
  (exists e : exc,
      py_exec (JStr code) (capturing k) = (k', Some e)
      /\ is_Exception e = true
      /\ getvalue (SafeStringIO (next_id k)) k' = Ok ""
      /\ getvalue (SafeStringIO (S (next_id k))) k' = Ok ""
      /\ fst first = Ok (execute_result false "" "" (JStr (format_exc e)))
      /\ global_namespace (snd first) = global_namespace k')
  /\ (exists e : exc,
      runs_fragment py_exec
      /\ dict_get (with_builtins (global_namespace k)) "__builtins__" = Some VBuiltins
      /\ py_compile code = Some ([SAssign "x" (EInt 1)] ++ SRaise "Exception" true :: [])%list
      /\ run [SAssign "x" (EInt 1)]
             (set_namespace (with_builtins (global_namespace k)) (capturing k))
         = Some (k', None)
      /\ exec_stmt (SRaise "Exception" true) k' = Some (k', Some e)
      /\ is_Exception e = true
      /\ (exists trace : string,
             fst first = Ok (execute_result false "" "" (JStr trace)))
      /\ global_namespace (snd first) = global_namespace k')
  /\ (runs_fragment py_exec
      /\ fresh_buffers k
      /\ plain_builtins k
      /\ dict_get (global_namespace (snd first)) "x" = Some (VInt 1)
      /\ fst (execute_code py_exec (JStr "print(x)") (snd first))
         = Ok (execute_result true ("1" ++ nl) "" JNull)).
Proof.
  intros k code k' first.
  set (e := mkExc "Exception" "").
  assert (H1 : py_exec (JStr code) (capturing k) = (k', Some e)) by reflexivity.
  assert (H2 : is_Exception e = true) by reflexivity.
  assert (Ho : getvalue (SafeStringIO (next_id k)) k' = Ok "") by reflexivity.
  assert (Hr : getvalue (SafeStringIO (S (next_id k))) k' = Ok "") by reflexivity.
  assert (H3 : fresh_buffers k) by (intros i t []).
  assert (H4 : plain_builtins k).
  { repeat split; try reflexivity. left. reflexivity. }
  assert (H5 : dict_get (with_builtins (global_namespace k)) "__builtins__" = Some VBuiltins)
    by reflexivity.
  assert (H6 : py_compile code
               = Some ([SAssign "x" (EInt 1)] ++ SRaise "Exception" true :: [])%list)
    by reflexivity.
  assert (H7 : run [SAssign "x" (EInt 1)]
                   (set_namespace (with_builtins (global_namespace k)) (capturing k))
               = Some (k', None)) by reflexivity.
  assert (H8 : exec_stmt (SRaise "Exception" true) k' = Some (k', Some e)) by reflexivity.
  split; [|split].
  - exists e. split; [exact H1|]. split; [exact H2|]. split; [exact Ho|]. split; [exact Hr|].
    exact (proj1 C1_fault_keeps_bindings py_exec code k k' e "" "" H1 H2 Ho Hr).
  - exists e. split; [exact py_exec_runs_fragment|]. split; [exact H5|]. split; [exact H6|].
    split; [exact H7|]. split; [exact H8|]. split; [exact H2|].
    exact (proj1 (proj2 C1_fault_keeps_bindings) py_exec code k k' k'
                 [SAssign "x" (EInt 1)] [] (SRaise "Exception" true) e "" ""
                 py_exec_runs_fragment H5 H6 H7 H8 H2 Ho Hr).
  - split; [exact py_exec_runs_fragment|]. split; [exact H3|]. split; [exact H4|].
    pose proof (proj2 (proj2 C1_fault_keeps_bindings) py_exec k
                      py_exec_runs_fragment H3 H4) as (_ & Hx & Hs).
    split; [exact Hx | exact Hs].
Defined.

(** An exception that is not an [Exception] leaves [execute_code], and the
    listener with it; the streams are put back all the same. *)
Example exit_request_is_not_caught :
  let h := handle_client ascii_python (fun _ => None) py_exec
             (mkConnection
                [Recv (json_dumps false (JDict [("code", JStr "raise SystemExit()")])
                       ++ END_MARK)] false)
             (mkProbe 0 None) (initial_kernel 0) in
  reply h = []
  /\ exc_class_of (escaped h) = Some "SystemExit"
  /\ sys_stdout (after h) = ProcessStdout
  /\ sys_stderr (after h) = ProcessStderr.
Proof. vm_compute. repeat split. Qed.

(** The fault on a closed buffer reaches the client as an error of the
    kernel: the result of the call is lost, the connection is answered. *)
Example closed_buffer_is_a_kernel_error :
  let code := "import sys" ++ nl ++ "sys.stdout.close()" ++ nl ++ "raise Exception()" in
  let h := handle_client ascii_python (fun _ => None) py_exec
             (mkConnection
                [Recv (json_dumps false (JDict [("code", JStr code)]) ++ END_MARK)] false)
             (mkProbe 0 None) (initial_kernel 0) in
  reply h = [json_dumps true
               (error_response (mkExc "ValueError" "I/O operation on closed file"))]
  /\ escaped h = None.
Proof. vm_compute. repeat split. Qed.

(** C2 at work: the code itself rebinds [sys.stdout], and prints on what was
    [sys.stderr]; after the call both streams are the process's own again,
    and the text went to the second buffer. *)
Example streams_restored_after_rebinding :
  let code := "import sys" ++ nl ++ "sys.stdout = sys.stderr" ++ nl ++ "print('moved')" in
  let r := execute_code py_exec (JStr code) (initial_kernel 0) in
  fst r = Ok (execute_result true "" ("moved" ++ nl) JNull)
  /\ sys_stdout (snd r) = ProcessStdout
  /\ sys_stderr (snd r) = ProcessStderr.
Proof. vm_compute. repeat split. Qed.


(** ** Introspection and reset *)




Lemma skipn_nth {A : Type} (l : list A) (i : nat) (x : A) :
  nth_error l i = Some x -> skipn i l = x :: skipn (S i) l.
Proof.
  revert l. induction i as [|i IH]; intros [|y l]; simpl; intros H; try discriminate.
  - inversion H. reflexivity.
  - exact (IH l H).
Qed.














Section InspectProperties.

Variable python : interpreter.
Variable sys_getsizeof : value -> option Z.

Lemma handle_status_state (env : probe) (k : kernel) :
  snd (handle_status env k) = k.
Proof. reflexivity. Qed.







(** C3 as the specification states it fails: after a reset the namespace is
    not empty, it holds the entry [__name__]. *)
Lemma C3_counterexample :
  ~ (global_namespace (snd (handle_reset (initial_kernel 0))) = []
     /\ fst (handle_inspect ascii_python (fun _ => None) (JStr "")
                            (snd (handle_reset (initial_kernel 0))))
        = Ok (JDict [("success", JBool true); ("action", JStr "inspect");
                     ("count", JInt 0); ("variables", JList [])])).
Proof. intros [H _]. discriminate H. Qed.

(** C3, amended. Whatever the namespace held, [handle_reset] replaces it by
    a new one that holds the single reserved entry [__name__], bound to
    [__main__], and an inspection with the empty pattern right after it
    returns [count] 0 and no variable.  The start time is left alone. *)
Theorem C3_reset_clears (k : kernel) :
  let k' := snd (handle_reset k) in
  global_namespace k' = [("__name__", VStr "__main__")]
  /\ KERNEL_START_TIME k' = KERNEL_START_TIME k
  /\ handle_inspect python sys_getsizeof (JStr "") k'
     = (Ok (JDict [("success", JBool true); ("action", JStr "inspect");
                   ("count", JInt 0); ("variables", JList [])]), k').
Proof. intros k'. repeat split. Qed.



End InspectProperties.






(** ** Request framing *)

Lemma nonempty_true (s : string) : s <> "" -> nonempty s = true.
Proof. destruct s; [congruence | reflexivity]. Qed.

Lemma complete_false (data : string) :
  complete data = false ->
  contains END_MARK data = false /\ exists e, loads_bytes data = Raise e.
Proof.
  unfold complete. intros H. apply orb_false_iff in H as [Hc Hl].
  split; [exact Hc|]. destruct (loads_bytes data) as [j|e]; [discriminate|].
  exists e. reflexivity.
Qed.

(** While the bytes accumulated after a read are not complete, the loop
    reads on. *)
Lemma receive_incomplete (data c : string) (rest : list recv_event) :
  c <> "" -> complete (data ++ c) = false ->
  receive data (Recv c :: rest) = receive (data ++ c) rest.
Proof.
  intros Hc Hi. simpl. rewrite (nonempty_true c Hc). simpl.
  destruct (complete_false _ Hi) as [Hs [e He]]. rewrite Hs, He. reflexivity.
Qed.

(** Once they are complete, it stops, and strips the sentinel if there. *)
Lemma receive_complete (data c : string) (rest : list recv_event) :
  c <> "" -> complete (data ++ c) = true ->
  receive data (Recv c :: rest) = Ok (framed (data ++ c)).
Proof.
  intros Hc Hi. simpl. rewrite (nonempty_true c Hc). simpl.
  unfold framed, complete in *.
  destruct (contains END_MARK (data ++ c)); [reflexivity|].
  destruct (loads_bytes (data ++ c)); [reflexivity | discriminate].
Qed.

(** C4 as the specification states it fails: the peer sends an opening
    brace and closes.  The loop stops with that one byte accumulated, which
    neither holds the sentinel nor is a document. *)
Lemma C4_counterexample :
  receive "" [Recv "{"] = Ok "{"
  /\ accumulations "" ["{"] = ["{"]
  /\ contains END_MARK "{" = false
  /\ loads_bytes "{" = Raise (mkExc "JSONDecodeError" "Expecting value").
Proof. vm_compute. repeat split. Qed.

(** C4, amended. Let the reads bring the non-empty chunks [chunks], the
    bytes accumulated after each of them being incomplete (no sentinel in
    them, and not a document).  Then the loop has read them all and goes on
    from the bytes put together.  There it stops
    - at the next read that makes the accumulated bytes complete, whatever
      follows, and leaves them with the sentinel, if they hold it, taken out;
    - or when the peer has closed (an empty read), leaving the bytes as they
      are;
    - or when a read times out, leaving the bytes, any sentinel taken out;
    - or when a read fails, with the exception raised.
    Both tests are made after every read that brings bytes. *)
Theorem C4_framing_stops (data : string) (chunks : list string) (tail : list recv_event) :
  Forall (fun c => c <> "") chunks ->
  Forall (fun acc => complete acc = false) (accumulations data chunks) ->
  let all := fold_left String.append chunks data in
  receive data (map Recv chunks ++ tail) = receive all tail
  /\ (forall c, c <> "" -> complete (all ++ c) = true ->
        receive data (map Recv chunks ++ Recv c :: tail) = Ok (framed (all ++ c))
        /\ (contains END_MARK (all ++ c) = true ->
              framed (all ++ c) = replace END_MARK "" (all ++ c))
        /\ (contains END_MARK (all ++ c) = false ->
              framed (all ++ c) = all ++ c /\ exists j, loads_bytes (all ++ c) = Ok j))
  /\ receive data (map Recv chunks) = Ok all
  /\ receive data (map Recv chunks ++ Recv "" :: tail) = Ok all
  /\ receive data (map Recv chunks ++ RecvTimeout :: tail)
     = Ok (if nonempty all then replace END_MARK "" all else all)
  /\ (forall e, receive data (map Recv chunks ++ RecvRaise e :: tail) = Raise e).
Proof.
  intros Hne Hinc all.
  assert (Hgo : forall tl, receive data (map Recv chunks ++ tl) = receive all tl).
  { subst all. clear tail. revert data Hinc.
    induction Hne as [|c chunks Hc Hne IH]; intros data Hinc tl; simpl.
    - reflexivity.
    - simpl in Hinc. inversion Hinc as [|? ? Hhd Htl]; subst.
      change (receive data (Recv c :: (map Recv chunks ++ tl))%list
              = receive (fold_left String.append chunks (data ++ c)) tl).
      rewrite (receive_incomplete data c _ Hc Hhd). apply IH. exact Htl. }
  split; [apply Hgo|]. split; [|split; [|split; [|split]]].
  - intros c Hc Hcomp. split; [|split].
    + rewrite Hgo. apply receive_complete; assumption.
    + intros Hs. unfold framed. rewrite Hs. reflexivity.
    + intros Hs. unfold framed. rewrite Hs. split; [reflexivity|].
      unfold complete in Hcomp. rewrite Hs in Hcomp. simpl in Hcomp.
      destruct (loads_bytes (all ++ c)) as [j|]; [exists j; reflexivity | discriminate].
  - rewrite <- (app_nil_r (map Recv chunks)). rewrite Hgo. reflexivity.
  - rewrite Hgo. reflexivity.
  - rewrite Hgo. reflexivity.
  - intros e. rewrite Hgo. reflexivity.
Qed.

(** C4 at work: a request that arrives in two pieces, the second bringing
    the sentinel. *)
Lemma C4_framing_stops_witness :
  let doc := "{" ++ String dquote "code" ++ String dquote ": " in
  let rest := String dquote "x" ++ String dquote "}" ++ END_MARK in
  Forall (fun c => c <> "") [doc]
  /\ Forall (fun acc => complete acc = false) (accumulations "" [doc])
  /\ receive "" [Recv doc; Recv rest; Recv "ignored"]
     = Ok ("{" ++ String dquote "code" ++ String dquote ": "
           ++ String dquote "x" ++ String dquote "}").
Proof.
  intros doc rest.
  assert (H1 : Forall (fun c => c <> "") [doc])
    by (repeat constructor; discriminate).
  assert (H2 : Forall (fun acc => complete acc = false) (accumulations "" [doc]))
    by (repeat constructor).
  split; [exact H1|]. split; [exact H2|].
  assert (Hc : rest <> "") by discriminate.
  assert (Hk : complete (fold_left String.append [doc] "" ++ rest) = true)
    by (vm_compute; reflexivity).
  destruct (proj1 (proj2 (C4_framing_stops "" [doc] [Recv "ignored"] H1 H2)) rest Hc Hk)
    as [Hr _].
  etransitivity; [exact Hr | vm_compute; reflexivity].
Defined.

(** ** The dispatcher and the listener *)

(** What the decoder raises is an [Exception]. *)
Lemma loads_bytes_raise (data : string) (e : exc) :
  loads_bytes data = Raise e -> is_Exception e = true.
Proof.
  unfold loads_bytes, decode_utf8, json_loads.
  destruct (utf8_ok 0 128 191 data).
  - destruct (scan_value _ _) as [[v rest]|].
    + destruct (skip_ws rest); intros H; inversion H; reflexivity.
    + intros H; inversion H; reflexivity.
  - intros H; inversion H; reflexivity.
Qed.

Lemma equals_str_false (j : json) (s : string) :
  j <> JStr s -> equals_str j s = false.
Proof.
  destruct j; simpl; try reflexivity. intros H.
  destruct (String.eqb_spec s0 s); [subst; congruence | reflexivity].
Qed.

Section DispatcherProperties.

Variable python : interpreter.
Variable sys_getsizeof : value -> option Z.
Variable exec : json -> kernel -> kernel * option exc.

(** C5. A request that was received, is not empty, and does not decode to a
    request document (its bytes are not UTF-8, or not JSON, or the JSON is
    not an object): [handle_client] answers on the same connection with the
    error document, [success] false and the message in [error]; no
    exception leaves it, so the accept loop goes on with the connections
    that follow; and the state of the kernel, the namespace in it, is what
    it was. *)
Theorem C5_malformed_request (conn : connection) (env : probe) (k : kernel) (data : string) :
  receive "" (incoming conn) = Ok data ->
  data <> "" ->
  (forall d, loads_bytes data <> Ok (JDict d)) ->
  exists e : exc,
    handle_client python sys_getsizeof exec conn env k
    = mkHandled
        (sendall conn
           (json_dumps true
              (JDict [("success", JBool false); ("stdout", JStr ""); ("stderr", JStr "");
                      ("error", JStr ("Kernel error: " ++ str_of_exc e))])))
        None k
    /\ (send_fails conn = false ->
        reply (handle_client python sys_getsizeof exec conn env k)
        = [json_dumps true (error_response e)])
    /\ global_namespace (after (handle_client python sys_getsizeof exec conn env k))
       = global_namespace k
    /\ (forall rest : list accept_event,
          accept_loop python sys_getsizeof exec (Accept conn env :: rest) k
          = mkServed
              (reply (handle_client python sys_getsizeof exec conn env k)
               :: replies (accept_loop python sys_getsizeof exec rest k))
              (ended (accept_loop python sys_getsizeof exec rest k))
              (kernel_after (accept_loop python sys_getsizeof exec rest k))).
Proof.
  intros Hrecv Hne Hbad.
  assert (Hh : exists e : exc,
             handle_client python sys_getsizeof exec conn env k
             = mkHandled (sendall conn (json_dumps true (error_response e))) None k).
  { unfold handle_client. rewrite Hrecv, (nonempty_true data Hne).
    destruct (loads_bytes data) as [request|e] eqn:Hl; cbv beta iota delta [negb].
    - assert (Hroute : route python sys_getsizeof exec env request k
                       = (Raise (mkExc "AttributeError"
                                   ("'" ++ json_type_name request
                                    ++ "' object has no attribute 'get'")), k)).
      { destruct request as [|b|z|t|s|l|d]; try reflexivity.
        exfalso. exact (Hbad d eq_refl). }
      rewrite Hroute.
      exists (mkExc "AttributeError"
                ("'" ++ json_type_name request ++ "' object has no attribute 'get'")).
      reflexivity.
    - exists e. unfold on_exception. rewrite (loads_bytes_raise _ _ Hl). reflexivity. }
  destruct Hh as [e He]. exists e.
  split; [exact He|]. split; [|split].
  - intros Hs. rewrite He. unfold sendall. rewrite Hs. reflexivity.
  - rewrite He. reflexivity.
  - intros rest. simpl. rewrite He. reflexivity.
Qed.

(** C10. A request document whose [action] is absent, or is anything but
    the strings [inspect], [reset] and [status], is routed to
    [execute_code], on its [code] field, the empty string when the field is
    absent; what [handle_client] sends back is the result of that
    execution (and an exception that leaves the execution meets the
    [except] clause of [handle_client]). *)
Theorem C10_default_is_execute (env : probe) (d : list (string * json)) (k : kernel) :
  let action := dict_get_default d "action" (JStr "execute") in
  action <> JStr "inspect" -> action <> JStr "reset" -> action <> JStr "status" ->
  route python sys_getsizeof exec env (JDict d) k
  = execute_code exec (dict_get_default d "code" (JStr "")) k
  /\ (dict_get d "code" = None ->
      route python sys_getsizeof exec env (JDict d) k = execute_code exec (JStr "") k)
  /\ (forall (conn : connection) (data : string),
        receive "" (incoming conn) = Ok data ->
        data <> "" ->
        loads_bytes data = Ok (JDict d) ->
        handle_client python sys_getsizeof exec conn env k
        = match execute_code exec (dict_get_default d "code" (JStr "")) k with
          | (Ok result, k') => mkHandled (sendall conn (json_dumps false result)) None k'
          | (Raise e, k') => on_exception conn e k'
          end).
Proof.
  intros action H1 H2 H3.
  assert (Hr : route python sys_getsizeof exec env (JDict d) k
               = execute_code exec (dict_get_default d "code" (JStr "")) k).
  { unfold route. fold action.
    rewrite (equals_str_false _ _ H1), (equals_str_false _ _ H2),
            (equals_str_false _ _ H3). reflexivity. }
  split; [exact Hr|]. split.
  - intros Hc. rewrite Hr. unfold dict_get_default. rewrite Hc. reflexivity.
  - intros conn data Hrecv Hne Hl.
    unfold handle_client. rewrite Hrecv, (nonempty_true data Hne), Hl, Hr. simpl.
    destruct (execute_code exec (dict_get_default d "code" (JStr "")) k)
      as [[result|e] k']; reflexivity.
Qed.

End DispatcherProperties.

(** C5 at work: a lone opening brace before the sentinel gets the error
    document, and the request that follows is served. *)
Lemma C5_malformed_request_witness :
  let conn := mkConnection [Recv ("{" ++ END_MARK)] false in
  let env := mkProbe 1000 None in
  let k := initial_kernel 0 in
  receive "" (incoming conn) = Ok "{"
  /\ "{" <> ""
  /\ (forall d, loads_bytes "{" <> Ok (JDict d))
  /\ (exists e : exc,
        handle_client ascii_python (fun _ => None) py_exec conn env k
        = mkHandled [json_dumps true (error_response e)] None k)
  /\ (let payload := List.hd "" (reply (handle_client ascii_python (fun _ => None) py_exec conn env k)) in
      reply (handle_client ascii_python (fun _ => None) py_exec conn env k) = [payload]
      /\ json_loads payload
         = Ok (JDict [("success", JBool false); ("stdout", JStr ""); ("stderr", JStr "");
                      ("error", JStr "Kernel error: Expecting value")])).
Proof.
  intros conn env k.
  assert (H1 : receive "" (incoming conn) = Ok "{") by reflexivity.
  assert (H2 : "{" <> "") by discriminate.
  assert (H3 : forall d, loads_bytes "{" <> Ok (JDict d)) by (intros d; discriminate).
  split; [exact H1|]. split; [exact H2|]. split; [exact H3|].
  destruct (C5_malformed_request ascii_python (fun _ => None) py_exec conn env k "{" H1 H2 H3)
    as [e [He _]].
  split; [exists e; exact He|].
  split; vm_compute; reflexivity.
Defined.

(** C10 at work: an action the dispatcher does not know, with code to run. *)
Lemma C10_default_is_execute_witness :
  let d := [("action", JStr "frobnicate"); ("code", JStr "x = 1")] in
  let env := mkProbe 1000 None in
  let k := initial_kernel 0 in
  dict_get_default d "action" (JStr "execute") <> JStr "inspect"
  /\ dict_get_default d "action" (JStr "execute") <> JStr "reset"
  /\ dict_get_default d "action" (JStr "execute") <> JStr "status"
  /\ route ascii_python (fun _ => None) py_exec env (JDict d) k = execute_code py_exec (JStr "x = 1") k
  /\ dict_get (global_namespace (snd (route ascii_python (fun _ => None) py_exec env (JDict d) k))) "x"
     = Some (VInt 1).
Proof.
  intros d env k.
  assert (H1 : dict_get_default d "action" (JStr "execute") <> JStr "inspect")
    by discriminate.
  assert (H2 : dict_get_default d "action" (JStr "execute") <> JStr "reset")
    by discriminate.
  assert (H3 : dict_get_default d "action" (JStr "execute") <> JStr "status")
    by discriminate.
  split; [exact H1|]. split; [exact H2|]. split; [exact H3|].
  pose proof (proj1 (C10_default_is_execute ascii_python (fun _ => None) py_exec env d k H1 H2 H3)) as Hr.
  split; [exact Hr|]. rewrite Hr. reflexivity.
Defined.

(** ** The supervisor *)

(** C8. When the kernel script is there and the first probe of the endpoint
    connects, [_start_kernel] reports success having done nothing but that
    probe and a message: no process is started, none is terminated, and
    [KERNEL_PROCESS] is what it was.  The supervisor then holds the kernel
    for running for as long as the endpoint answers. *)
Theorem C8_adopts_running_kernel (w : world) (p : peer) (rest : list connect_result) :
  script_exists w = true ->
  connects w = Connected p :: rest ->
  let w' := snd (_start_kernel w) in
  fst (_start_kernel w) = true
  /\ trace w' = (trace w
                 ++ [Connect true;
                     Printed ("MEMORY Kernel 已在運行 (" ++ endpoint
                              ++ ")，連接到現有 kernel")])%list
  /\ spawn_count (trace w') = spawn_count (trace w)
  /\ spawns w' = spawns w
  /\ KERNEL_PROCESS w' = KERNEL_PROCESS w
  /\ (forall p' rest', connects w' = Connected p' :: rest' ->
        fst (_is_kernel_running w') = true).
Proof.
  intros Hs Hc w'. subst w'. unfold _start_kernel, connect. rewrite Hs, Hc. simpl.
  split; [reflexivity|]. split; [|split; [|split; [reflexivity|split; [reflexivity|]]]].
  - rewrite <- app_assoc. reflexivity.
  - unfold spawn_count. rewrite <- app_assoc, filter_app. simpl.
    rewrite app_nil_r. reflexivity.
  - intros p' rest' Hc'. unfold _is_kernel_running, connect. simpl. rewrite Hc'.
    reflexivity.
Qed.

(** C8 at work: the endpoint answers, and a process of an earlier start is
    still on record. *)
Lemma C8_adopts_running_kernel_witness :
  let w := mkWorld true [Connected (mkPeer None [])] [Ok 7] [None] 0 (Some 3) [] in
  script_exists w = true
  /\ connects w = [Connected (mkPeer None [])]
  /\ fst (_start_kernel w) = true
  /\ spawn_count (trace (snd (_start_kernel w))) = 0
  /\ KERNEL_PROCESS (snd (_start_kernel w)) = Some 3.
Proof.
  intros w.
  assert (H1 : script_exists w = true) by reflexivity.
  assert (H2 : connects w = [Connected (mkPeer None [])]) by reflexivity.
  split; [exact H1|]. split; [exact H2|].
  destruct (C8_adopts_running_kernel w _ _ H1 H2) as [Ht [_ [Hn [_ [Hp _]]]]].
  split; [exact Ht|]. split; [exact Hn | exact Hp].
Defined.

(** ** The RPC caller *)

Lemma sends_app (t u : list effect) : sends (t ++ u) = sends t + sends u.
Proof. unfold sends. rewrite filter_app, length_app. reflexivity. Qed.

Ltac count_sends := rewrite ?sends_app; unfold sends; simpl; lia.

Lemma sends_connect (w : world) : sends (trace (snd (connect w))) = sends (trace w).
Proof.
  unfold connect. destruct (connects w) as [|[q|e] rest]; simpl; count_sends.
Qed.

Lemma sends_poll (w : world) : trace (snd (poll w)) = trace w.
Proof. reflexivity. Qed.

Lemma sends_sleep (ms : Z) (w : world) : sends (trace (sleep ms w)) = sends (trace w).
Proof. unfold sleep, log; simpl. count_sends. Qed.

Lemma sends_print (msg : string) (w : world) : sends (trace (print msg w)) = sends (trace w).
Proof. unfold print, log; simpl. count_sends. Qed.

Lemma sends_Popen (w : world) : sends (trace (snd (Popen w))) = sends (trace w).
Proof. unfold Popen, log; simpl. count_sends. Qed.

Lemma sends_terminate (pid : nat) (w : world) :
  sends (trace (terminate pid w)) = sends (trace w).
Proof. unfold terminate, log; simpl. count_sends. Qed.

Lemma sends_wait_for_kernel (n : nat) (w : world) :
  sends (trace (snd (wait_for_kernel n w))) = sends (trace w).
Proof.
  revert w. induction n as [|n IH]; intros w; cbn [wait_for_kernel].
  - apply sends_print.
  - pose proof (sends_connect (sleep 200 w)) as Hc.
    rewrite sends_sleep in Hc.
    destruct (connect (sleep 200 w)) as [[q|e] w1]; cbn [fst snd] in *.
    + rewrite sends_print. exact Hc.
    + pose proof (sends_poll w1) as Hp.
      destruct (poll w1) as [[rc|] w2]; cbn [fst snd] in *.
      * rewrite sends_print, Hp. exact Hc.
      * rewrite IH, Hp. exact Hc.
Qed.

Lemma sends_start_kernel (w : world) :
  sends (trace (snd (_start_kernel w))) = sends (trace w).
Proof.
  unfold _start_kernel. destruct (script_exists w); cbn [negb].
  - pose proof (sends_connect w) as Hc.
    destruct (connect w) as [[q|e] w1]; cbn [fst snd] in *.
    + rewrite sends_print. exact Hc.
    + set (w2 := match KERNEL_PROCESS w1 with
                 | Some p0 =>
                     match poll w1 with
                     | (None, w') => set_process None (terminate p0 w')
                     | (Some _, w') => set_process None w'
                     end
                 | None => w1
                 end).
      assert (H2 : sends (trace w2) = sends (trace w)).
      { subst w2. destruct (KERNEL_PROCESS w1); [|exact Hc].
        pose proof (sends_poll w1) as Hp.
        destruct (poll w1) as [[rc|] w']; cbn [fst snd] in *.
        - change (trace (set_process None w')) with (trace w').
          rewrite Hp. exact Hc.
        - change (trace (set_process None (terminate n w')))
            with (trace (terminate n w')).
          rewrite sends_terminate, Hp. exact Hc. }
      pose proof (sends_Popen w2) as Hs.
      destruct (Popen w2) as [[pid|e'] w3]; cbn [fst snd] in *.
      * rewrite sends_wait_for_kernel.
        change (trace (set_process (Some pid) w3)) with (trace w3).
        rewrite Hs. exact H2.
      * rewrite sends_print, Hs. exact H2.
  - apply sends_print.
Qed.

Lemma sends_start_attempts (n : nat) (w : world) :
  sends (trace (start_attempts n w)) = sends (trace w).
Proof.
  revert w. induction n as [|n IH]; intros w; cbn [start_attempts]; [reflexivity|].
  pose proof (sends_start_kernel w) as Hs.
  destruct (_start_kernel w) as [[|] w1]; cbn [fst snd] in *; [exact Hs|].
  rewrite IH, sends_sleep. exact Hs.
Qed.

Lemma sends_is_kernel_running (w : world) :
  sends (trace (snd (_is_kernel_running w))) = sends (trace w).
Proof.
  unfold _is_kernel_running. pose proof (sends_connect w) as Hc.
  destruct (connect w) as [[q|e] w1]; cbn [fst snd] in *; [exact Hc|].
  destruct (KERNEL_PROCESS w1); [|exact Hc].
  pose proof (sends_poll w1) as Hp.
  destruct (poll w1) as [[rc|] w2]; cbn [fst snd] in *.
  - change (trace (set_process None w2)) with (trace w2). rewrite Hp. exact Hc.
  - rewrite Hp. exact Hc.
Qed.

Lemma sends_ensure_running (w : world) :
  sends (trace (snd (ensure_running w))) = sends (trace w).
Proof.
  unfold ensure_running. pose proof (sends_is_kernel_running w) as H1.
  destruct (_is_kernel_running w) as [[|] w1]; cbn [fst snd] in *; [exact H1|].
  pose proof (sends_is_kernel_running (start_attempts 3 w1)) as H2.
  rewrite sends_start_attempts in H2.
  destruct (_is_kernel_running (start_attempts 3 w1)) as [[|] w2]; cbn [fst snd] in *;
    rewrite H2; exact H1.
Qed.

(** The receiving loop of the caller does nothing but let time pass. *)
Lemma recv_response_trace (timeout start_time : Z) (events : list (Z * recv_event))
      (response : string) (w : world) :
  trace (snd (recv_response timeout start_time response events w)) = trace w.
Proof.
  revert response w. induction events as [|[dt ev] rest IH]; intros response w; simpl.
  - destruct (_ <? _)%Z; reflexivity.
  - destruct (_ <? _)%Z; [reflexivity|].
    destruct ev as [chunk| |e].
    + destruct (nonempty chunk); simpl; [|reflexivity].
      destruct (loads_bytes _); [reflexivity|]. rewrite IH. reflexivity.
    + destruct (nonempty response).
      * destruct (loads_bytes _); [reflexivity|]. rewrite IH. reflexivity.
      * rewrite IH. reflexivity.
    + destruct (is_Exception e); reflexivity.
Qed.

(** An exchange puts one request on the wire. *)
Lemma empty_exchange_sends (code : string) (timeout : Z) (w w' : world) :
  empty_exchange code timeout w w' -> sends (trace w') = S (sends (trace w)).
Proof.
  intros (w1 & w2 & p & He & Hc & _ & Hr).
  pose proof (sends_ensure_running w) as H1. rewrite He in H1. simpl in H1.
  pose proof (sends_connect w1) as H2. rewrite Hc in H2. simpl in H2.
  cbv zeta in Hr.
  pose proof (recv_response_trace timeout
                (clock (log (Send (json_dumps false (JDict [("code", JStr code)])
                                   ++ END_MARK)) w2))
                (answers p) ""
                (log (Send (json_dumps false (JDict [("code", JStr code)]) ++ END_MARK)) w2))
    as H3.
  rewrite Hr in H3. simpl in H3. rewrite H3. simpl. rewrite <- H1, <- H2. count_sends.
Qed.

(** With [_retry = False] the body makes no call to itself. *)
Lemma body_without_retry
      (self self' : string -> Z -> bool -> world -> outcome string * world)
      (code : string) (timeout : Z) (w : world) :
  execute_in_kernel_body self code timeout false w
  = execute_in_kernel_body self' code timeout false w.
Proof. reflexivity. Qed.

Lemma body_empty_exchange
      (self : string -> Z -> bool -> world -> outcome string * world)
      (code : string) (timeout : Z) (_retry : bool) (w w' : world) :
  empty_exchange code timeout w w' ->
  execute_in_kernel_body self code timeout _retry w
  = if _retry then caught timeout (self code timeout false (sleep 3000 w'))
    else (Ok NO_RESPONSE, w').
Proof.
  intros (w1 & w2 & p & He & Hc & Hs & Hr).
  cbv zeta in Hr.
  unfold execute_in_kernel_body. rewrite He, Hc, Hs. cbv zeta. rewrite Hr. reflexivity.
Qed.

(** C9. When an exchange ends with the connection closed and no byte of
    response, [_execute_in_kernel] sleeps three seconds and runs the whole
    exchange once more, with the retry switched off: the call is worth that
    second run (an exception of which meets the [except] clauses of the
    first).  One request went on the wire in the first run.  If the second
    run ends the same way, the caller returns the no-response error at once:
    two requests have been sent in all, no third. *)
Theorem C9_one_retry_on_empty_response (code : string) (timeout : Z) (w w' : world) :
  empty_exchange code timeout w w' ->
  _execute_in_kernel code timeout true w
  = caught timeout (_execute_in_kernel code timeout false (sleep 3000 w'))
  /\ trace (sleep 3000 w') = (trace w' ++ [Sleep 3000])%list
  /\ sends (trace w') = 1 + sends (trace w)
  /\ (forall w'' : world,
        empty_exchange code timeout (sleep 3000 w') w'' ->
        _execute_in_kernel code timeout true w = (Ok NO_RESPONSE, w'')
        /\ sends (trace w'') = 2 + sends (trace w)).
Proof.
  intros H1.
  assert (Hfirst : _execute_in_kernel code timeout true w
                   = caught timeout (_execute_in_kernel code timeout false (sleep 3000 w'))).
  { unfold _execute_in_kernel at 1.
    rewrite (body_empty_exchange _ code timeout true w w' H1).
    rewrite (body_without_retry
               no_further_call (execute_in_kernel_body no_further_call)).
    reflexivity. }
  split; [exact Hfirst|]. split; [reflexivity|].
  split; [exact (empty_exchange_sends _ _ _ _ H1)|].
  intros w'' H2. split.
  - rewrite Hfirst. unfold _execute_in_kernel.
    rewrite (body_empty_exchange _ code timeout false _ w'' H2). reflexivity.
  - rewrite (empty_exchange_sends _ _ _ _ H2), sends_sleep,
            (empty_exchange_sends _ _ _ _ H1). reflexivity.
Qed.

(** C9 at work: the kernel accepts the connection and closes it without a
    byte, twice.  The caller sends the request twice, three seconds apart,
    and reports that the kernel does not respond. *)
Lemma C9_one_retry_on_empty_response_witness :
  let code := "print(1)" in
  let request := json_dumps false (JDict [("code", JStr code)]) ++ END_MARK in
  let closing := mkPeer None [(5%Z, Recv "")] in
  let reachable := Connected (mkPeer None []) in
  let w := mkWorld true [reachable; Connected closing; reachable; Connected closing]
                   [] [] 0 None [] in
  let first_exchange (w : world) :=
    let w2 := snd (connect (snd (ensure_running w))) in
    snd (recv_response 60 (clock w2) "" (answers closing) (log (Send request) w2)) in
  let w' := first_exchange w in
  let w'' := first_exchange (sleep 3000 w') in
  empty_exchange code 60 w w'
  /\ empty_exchange code 60 (sleep 3000 w') w''
  /\ _execute_in_kernel code 60 true w = (Ok NO_RESPONSE, w'')
  /\ trace w'' = [Connect true; Connect true; Send request; Sleep 3000;
                  Connect true; Connect true; Send request].
Proof.
  intros code request closing reachable w first_exchange w' w''.
  assert (H1 : empty_exchange code 60 w w').
  { exists (snd (ensure_running w)), (snd (connect (snd (ensure_running w)))), closing.
    repeat split. }
  assert (H2 : empty_exchange code 60 (sleep 3000 w') w'').
  { exists (snd (ensure_running (sleep 3000 w'))),
           (snd (connect (snd (ensure_running (sleep 3000 w'))))), closing.
    repeat split. }
  split; [exact H1|]. split; [exact H2|].
  split.
  - exact (proj1 (proj2 (proj2 (proj2 (C9_one_retry_on_empty_response code 60 w w' H1)))
                   w'' H2)).
  - reflexivity.
Defined.

(** * Further properties *)

(** ** Inspection and status *)







Section InspectQueries.

Variable python : interpreter.
Variable sys_getsizeof : value -> option Z.

Lemma count_visible (ns : namespace) :
  List.length (filter (fun name => negb (startswith name "_")) (map fst ns))
  = List.length (filter (shown python "") ns).
Proof.
  induction ns as [|[name v] ns IH]; simpl; [reflexivity|].
  unfold shown at 1; simpl. destruct (startswith name "_"); simpl; rewrite IH; reflexivity.
Qed.




Lemma inspect_items_falsy (p : json) (used todo : nat) (k : kernel) (acc : list json) :
  truthy p = false ->
  inspect_items python sys_getsizeof p used todo k acc
  = inspect_items python sys_getsizeof (JStr "") used todo k acc.
Proof.
  intros Hp. revert k acc. induction todo as [|todo IH]; intros k acc;
    cbn [inspect_items]; [reflexivity|].
  destruct (negb _); [reflexivity|].
  destruct (nth_error _ _) as [[name v]|]; [|reflexivity].
  destruct (startswith name "_"); [apply IH|].
  unfold filtered_out. rewrite Hp. cbn [truthy nonempty]. apply IH.
Qed.

(** X2. A pattern that is false in Python's sense ([None], [False], a zero,
    an empty string, list or dictionary) selects as the empty pattern does:
    the test [pattern and ...] stops at it. *)
Theorem X2_falsy_pattern_is_no_pattern (p : json) (k : kernel) :
  truthy p = false ->
  handle_inspect python sys_getsizeof p k = handle_inspect python sys_getsizeof (JStr "") k.
Proof.
  intros Hp. unfold handle_inspect. rewrite (inspect_items_falsy p _ _ _ _ Hp). reflexivity.
Qed.

Lemma inspect_items_not_str (p : json) (used todo : nat) (k : kernel) (acc : list json) :
  truthy p = true -> (forall s, p <> JStr s) ->
  List.length (global_namespace k) = used -> todo <= used ->
  inspect_items python sys_getsizeof p used todo k acc
  = if existsb (fun entry => visible (fst entry)) (skipn (used - todo) (global_namespace k))
    then (Raise (mkExc "AttributeError"
                   ("'" ++ json_type_name p ++ "' object has no attribute 'lower'")), k)
    else (Ok acc, k).
Proof.
  intros Hp Hs Hu. induction todo as [|todo IH]; intros Ht;
    cbn [inspect_items]; rewrite Hu, Nat.eqb_refl; cbn [negb].
  - rewrite Nat.sub_0_r, <- Hu, skipn_all. reflexivity.
  - destruct (nth_error (global_namespace k) (used - S todo)) as [[name v]|] eqn:En;
      [|apply nth_error_None in En; lia].
    rewrite (skipn_nth _ _ _ En).
    replace (S (used - S todo)) with (used - todo) by lia.
    cbn [existsb fst]. unfold visible at 1.
    destruct (startswith name "_"); cbn [negb orb]; [apply IH; lia|].
    unfold filtered_out. rewrite Hp.
    destruct p; try reflexivity. exfalso. exact (Hs s eq_refl).
Qed.

(** X3. A pattern that is true and is no string has no [lower]: the
    inspection raises [AttributeError] at the first name that does not start
    with an underscore, and returns an empty listing when there is no such
    name. *)
Theorem X3_pattern_that_is_no_string (p : json) (k : kernel) :
  truthy p = true -> (forall s, p <> JStr s) ->
  handle_inspect python sys_getsizeof p k
  = if existsb (fun entry => visible (fst entry)) (global_namespace k)
    then (Raise (mkExc "AttributeError"
                   ("'" ++ json_type_name p ++ "' object has no attribute 'lower'")), k)
    else (Ok (JDict [("success", JBool true); ("action", JStr "inspect");
                     ("count", JInt 0); ("variables", JList [])]), k).
Proof.
  intros Hp Hs. unfold handle_inspect.
  rewrite (inspect_items_not_str p _ _ k [] Hp Hs eq_refl (Nat.le_refl _)).
  rewrite Nat.sub_diag. cbn [skipn].
  destruct (existsb _ _); reflexivity.
Qed.

End InspectQueries.


(** ** What the fragment's statements leave alone *)

Lemma extends_refl (k : kernel) :
  allocated k (sys_stdout k) -> allocated k (sys_stderr k) -> extends k k.
Proof.
  intros Ho He. repeat split; try assumption.
  exists []. split; [rewrite app_nil_r; reflexivity | intros s t []].
Qed.

Lemma extends_trans (a b c : kernel) : extends a b -> extends b c -> extends a c.
Proof.
  intros (Hn & Ht & _ & _ & new & Hw & Hal) (Hn' & Ht' & Ho & He & new' & Hw' & Hal').
  repeat split; try congruence; try assumption.
  exists (new ++ new')%list. split.
  - rewrite Hw', Hw, app_assoc. reflexivity.
  - intros s t Hin. apply in_app_or in Hin as [Hin|Hin].
    + exact (Hal s t Hin).
    + specialize (Hal' s t Hin). destruct s; simpl in *; try exact I. lia.
Qed.

Lemma stream_of_allocated (k : kernel) (m attr : string) (s : stream) :
  allocated k (sys_stdout k) -> allocated k (sys_stderr k) ->
  stream_of k m attr = Some (Ok s) -> allocated k s.
Proof.
  intros Ho He. unfold stream_of.
  destruct (lookup _ m) as [v|]; [|discriminate].
  destruct v; simpl; try discriminate.
  destruct (String.eqb name "sys"); [|discriminate].
  destruct (String.eqb attr "stdout"); intros H; inversion H; subst; assumption.
Qed.

(** A change of the namespace, of the streams in use or of the closed
    buffers is within the footprint. *)
Lemma extends_same_log (k k' : kernel) :
  allocated k' (sys_stdout k') -> allocated k' (sys_stderr k') ->
  next_id k' = next_id k -> KERNEL_START_TIME k' = KERNEL_START_TIME k ->
  written k' = written k -> extends k k'.
Proof.
  intros Ho He Hn Ht Hw. repeat split; try assumption.
  exists []. split; [rewrite app_nil_r; exact Hw | intros s t []].
Qed.

Lemma call_print_extends (callee : value) (args : list value) (k k' : kernel)
      (r : option exc) :
  allocated k (sys_stdout k) -> allocated k (sys_stderr k) ->
  call_print callee args k = Some (k', r) -> extends k k'.
Proof.
  intros Ho He. unfold call_print.
  assert (Hrefl : extends k k) by (apply extends_refl; assumption).
  destruct callee; try discriminate; try (intros H; inversion H; subst; exact Hrefl).
  destruct (String.eqb name "print"); [|discriminate].
  destruct (match args with [] => Some "" | [v] => printed v | _ => None end) as [text|];
    [|discriminate].
  destruct (is_closed (sys_stdout k) k); intros H; inversion H; subst; [exact Hrefl|].
  repeat split; try assumption.
  exists [(sys_stdout k, (text ++ nl)%string)]. split; [reflexivity|].
  intros s0 t [Hin|[]]. inversion Hin; subst. exact Ho.
Qed.

Lemma exec_stmt_extends (s : stmt) (k k' : kernel) (r : option exc) :
  allocated k (sys_stdout k) -> allocated k (sys_stderr k) ->
  exec_stmt s k = Some (k', r) -> extends k k'.
Proof.
  intros Ho He.
  assert (Hrefl : extends k k) by (apply extends_refl; assumption).
  assert (Hns : forall ns, extends k (set_namespace ns k))
    by (intros ns; apply extends_same_log; assumption || reflexivity).
  destruct s as [|ex|x ex|x|arg|cls called| |m|m a m' a'|m a]; simpl; intros H.
  - inversion H; subst; exact Hrefl.
  - destruct (eval _ ex) as [[]|]; inversion H; subst; exact Hrefl.
  - destruct (eval _ ex) as [[]|]; inversion H; subst; [apply Hns | exact Hrefl].
  - destruct (dict_get _ x); inversion H; subst; [apply Hns | exact Hrefl].
  - destruct (lookup k "print") as [callee|]; [|inversion H; subst; exact Hrefl].
    destruct arg as [ex|]; [|exact (call_print_extends _ _ _ _ _ Ho He H)].
    destruct (eval _ ex) as [[v|]|]; [| |discriminate].
    + exact (call_print_extends _ _ _ _ _ Ho He H).
    + inversion H; subst; exact Hrefl.
  - destruct (lookup _ cls) as [[]|]; try discriminate;
      try (inversion H; subst; exact Hrefl).
    destruct called; [discriminate | inversion H; subst; exact Hrefl].
  - inversion H; subst; exact Hrefl.
  - destruct (dict_get _ "__import__") as [[]|]; try discriminate.
    destruct (String.eqb _ _); [|discriminate]. inversion H; subst; apply Hns.
  - destruct (stream_of k m' a') as [[s'|]|] eqn:Hs; [| |discriminate].
    + pose proof (stream_of_allocated k m' a' s' Ho He Hs) as Hal.
      destruct (lookup _ m) as [v|]; [|inversion H; subst; exact Hrefl].
      destruct v; simpl in H; try discriminate; try (inversion H; subst; exact Hrefl).
      destruct (String.eqb name "sys"); [|discriminate].
      inversion H; subst.
      destruct (String.eqb a "stdout"); apply extends_same_log; assumption || reflexivity.
    + inversion H; subst; exact Hrefl.
  - destruct (stream_of k m a) as [[[]|]|]; try discriminate; inversion H; subst.
    + apply extends_same_log; assumption || reflexivity.
    + exact Hrefl.
Qed.

Lemma run_extends (prog : list stmt) (k k' : kernel) (r : option exc) :
  allocated k (sys_stdout k) -> allocated k (sys_stderr k) ->
  run prog k = Some (k', r) -> extends k k'.
Proof.
  revert k. induction prog as [|s prog IH]; simpl; intros k Ho He H.
  - inversion H; subst. apply extends_refl; assumption.
  - destruct (exec_stmt s k) as [[k1 [e|]]|] eqn:Hs; [| |discriminate].
    + inversion H; subst. exact (exec_stmt_extends _ _ _ _ Ho He Hs).
    + pose proof (exec_stmt_extends _ _ _ _ Ho He Hs) as H1.
      apply (extends_trans k k1 k' H1).
      destruct H1 as (_ & _ & Ho1 & He1 & _).
      exact (IH k1 Ho1 He1 H).
Qed.

Lemma py_run_extends (src : string) (k k' : kernel) (r : option exc) :
  allocated k (sys_stdout k) -> allocated k (sys_stderr k) ->
  py_run src k = Some (k', r) -> extends k k'.
Proof.
  intros Ho He. unfold py_run.
  set (k0 := set_namespace (with_builtins (global_namespace k)) k).
  assert (H0 : extends k k0) by (apply extends_same_log; assumption || reflexivity).
  destruct (dict_get (global_namespace k0) "__builtins__") as [[]|]; try discriminate.
  destruct (py_compile src) as [prog|]; [|discriminate].
  intros H. apply (extends_trans k k0 k' H0).
  exact (run_extends prog k0 k' r Ho He H).
Qed.

Lemma py_exec_extends (code : json) (k k' : kernel) (r : option exc) :
  allocated k (sys_stdout k) -> allocated k (sys_stderr k) ->
  py_exec code k = (k', r) -> extends k k'.
Proof.
  intros Ho He. unfold py_exec.
  assert (Hrefl : extends k k) by (apply extends_refl; assumption).
  assert (H0 : extends k (set_namespace (with_builtins (global_namespace k)) k))
    by (apply extends_same_log; assumption || reflexivity).
  destruct code as [|b|z|t|src|l|d]; try (intros H; inversion H; subst; exact H0).
  destruct (py_run src k) as [[k1 r1]|] eqn:Hr.
  - intros H; inversion H; subst. exact (py_run_extends src k k' r Ho He Hr).
  - intros H; inversion H; subst. exact Hrefl.
Qed.

(** X5. Over the fragment's [exec], [execute_code] constructs exactly two
    buffers and reports in [stdout] and [stderr] what was written to them
    during the call, nothing of what was written before; what was written
    before stays, and no buffer yet to be constructed has been written
    to, so the next call starts as this one did. *)
Theorem X5_output_of_a_call_only (code : json) (k : kernel) :
  fresh_buffers k ->
  let r := execute_code py_exec code k in
  fresh_buffers (snd r)
  /\ next_id (snd r) = 2 + next_id k
  /\ exists new,
       written (snd r) = (written k ++ new)%list
       /\ forall doc, fst r = Ok doc ->
            subscript doc "stdout" = Ok (JStr (text_of (SafeStringIO (next_id k)) new))
            /\ subscript doc "stderr" = Ok (JStr (text_of (SafeStringIO (S (next_id k))) new)).
Proof.
  intros Hf r. subst r. rewrite execute_code_unfold.
  destruct (py_exec code (capturing k)) as [k4 raised] eqn:Hx.
  assert (Ho : allocated (capturing k) (sys_stdout (capturing k))) by (simpl; lia).
  assert (He : allocated (capturing k) (sys_stderr (capturing k))) by (simpl; lia).
  destruct (py_exec_extends code _ _ _ Ho He Hx) as (Hn & _ & _ & _ & new & Hw & Hal).
  simpl in Hn, Hw.
  assert (Hfresh : fresh_buffers (restore (sys_stdout k) (sys_stderr k) k4)).
  { intros i t Hin. simpl in Hin. rewrite Hw in Hin. simpl. rewrite Hn.
    apply in_app_or in Hin as [Hin|Hin].
    - specialize (Hf i t Hin). lia.
    - exact (Hal _ _ Hin). }
  assert (Hout : forall i, next_id k <= i ->
                 text_of (SafeStringIO i) (written k4) = text_of (SafeStringIO i) new).
  { intros i Hi. rewrite Hw, text_of_app, (written_fresh k i Hf Hi). reflexivity. }
  assert (Hcap : forall out err, captured k k4 = Ok (out, err) ->
                 out = text_of (SafeStringIO (next_id k)) new
                 /\ err = text_of (SafeStringIO (S (next_id k))) new).
  { intros out err. unfold captured, getvalue.
    destruct (is_closed (SafeStringIO (next_id k)) k4); [discriminate|].
    destruct (is_closed (SafeStringIO (S (next_id k))) k4); [discriminate|].
    intros H. inversion H. rewrite !Hout by lia. split; reflexivity. }
  split; [exact Hfresh|]. split; [simpl; rewrite Hn; reflexivity|].
  exists new. split; [exact Hw|]. intros doc Hdoc. cbn [fst] in Hdoc.
  destruct (captured k k4) as [[out err]|x] eqn:Hc.
  - destruct (Hcap out err eq_refl) as [H1 H2]. subst out err.
    destruct raised as [e|]; [destruct (is_Exception e)|];
      try discriminate; inversion Hdoc; subst doc; split; reflexivity.
  - destruct raised as [e|]; [destruct (is_Exception e)|]; discriminate.
Qed.

Lemma dict_get_del_other {V : Type} (d : list (string * V)) (k k' : string) :
  k' <> k -> dict_get (dict_del d k) k' = dict_get d k'.
Proof.
  intros Hk. induction d as [|[k0 v0] d IH]; simpl; [reflexivity|].
  destruct (String.eqb_spec k0 k); simpl.
  - subst. destruct (String.eqb_spec k k'); [congruence | reflexivity].
  - rewrite IH. reflexivity.
Qed.

Lemma call_print_keeps (callee : value) (args : list value) (k k' : kernel)
      (r : option exc) :
  call_print callee args k = Some (k', r) -> global_namespace k' = global_namespace k.
Proof.
  unfold call_print.
  destruct callee; try discriminate; try (intros H; inversion H; reflexivity).
  destruct (String.eqb name "print"); [|discriminate].
  destruct (match args with [] => Some "" | [v] => printed v | _ => None end);
    [|discriminate].
  destruct (is_closed (sys_stdout k) k); intros H; inversion H; reflexivity.
Qed.

Lemma exec_stmt_keeps (s : stmt) (k k' : kernel) (r : option exc) (x : string) :
  ~ In x (rebound s) ->
  exec_stmt s k = Some (k', r) ->
  dict_get (global_namespace k') x = dict_get (global_namespace k) x.
Proof.
  destruct s as [|ex|y ex|y|arg|cls called| |m|m a m' a'|m a]; simpl; intros Hx H.
  - inversion H; reflexivity.
  - destruct (eval _ ex) as [[]|]; inversion H; reflexivity.
  - destruct (eval _ ex) as [[]|]; inversion H; subst; [|reflexivity]. simpl.
    apply dict_get_set_other. intros ->. apply Hx. left. reflexivity.
  - destruct (dict_get _ y); inversion H; subst; [|reflexivity]. simpl.
    apply dict_get_del_other. intros ->. apply Hx. left. reflexivity.
  - destruct (lookup k "print") as [callee|]; [|inversion H; reflexivity].
    destruct arg as [ex|]; [|rewrite (call_print_keeps _ _ _ _ _ H); reflexivity].
    destruct (eval _ ex) as [[v|]|]; [| |discriminate].
    + rewrite (call_print_keeps _ _ _ _ _ H); reflexivity.
    + inversion H; reflexivity.
  - destruct (lookup _ cls) as [[]|]; try discriminate; try (inversion H; reflexivity).
    destruct called; [discriminate | inversion H; reflexivity].
  - inversion H; reflexivity.
  - destruct (dict_get _ "__import__") as [[]|]; try discriminate.
    destruct (String.eqb _ _); [|discriminate]. inversion H; subst. simpl.
    apply dict_get_set_other. intros ->. apply Hx. left. reflexivity.
  - destruct (stream_of k m' a') as [[s'|]|]; [| |discriminate].
    + destruct (lookup _ m) as [v|]; [|inversion H; reflexivity].
      destruct v; simpl in H; try discriminate; try (inversion H; reflexivity).
      destruct (String.eqb name "sys"); [|discriminate].
      inversion H; subst. destruct (String.eqb a "stdout"); reflexivity.
    + inversion H; reflexivity.
  - destruct (stream_of k m a) as [[[]|]|]; try discriminate; inversion H; reflexivity.
Qed.

Lemma run_keeps (prog : list stmt) (k k' : kernel) (r : option exc) (x : string) :
  ~ In x (flat_map rebound prog) ->
  run prog k = Some (k', r) ->
  dict_get (global_namespace k') x = dict_get (global_namespace k) x.
Proof.
  revert k. induction prog as [|s prog IH]; simpl; intros k Hx H.
  - inversion H; reflexivity.
  - assert (Hs : ~ In x (rebound s)) by (intros Hin; apply Hx, in_or_app; left; exact Hin).
    assert (Hp : ~ In x (flat_map rebound prog))
      by (intros Hin; apply Hx, in_or_app; right; exact Hin).
    destruct (exec_stmt s k) as [[k1 [e|]]|] eqn:Es; [| |discriminate].
    + inversion H; subst. exact (exec_stmt_keeps s k k' _ x Hs Es).
    + rewrite (IH k1 Hp H). exact (exec_stmt_keeps s k k1 _ x Hs Es).
Qed.

(** X6. For an interpreter that runs the fragment and a text of the
    fragment: a binding the text does not rebind (by an assignment, a [del]
    or an [import] of its name, or as its documentation) is still there,
    with its value, after [execute_code], whether the code succeeds or
    fails. *)
Theorem X6_bindings_persist (exec : json -> kernel -> kernel * option exc)
        (code x : string) (prog : list stmt) (v : value) (k : kernel) :
  runs_fragment exec ->
  py_compile code = Some prog ->
  py_run code (capturing k) <> None ->
  dict_get (global_namespace k) x = Some v ->
  rebinds prog x = false ->
  dict_get (global_namespace (snd (execute_code exec (JStr code) k))) x = Some v.
Proof.
  intros Hx Hc Hdef Hv Hr. rewrite execute_code_state.
  destruct (py_run code (capturing k)) as [[k' r]|] eqn:Hrun; [|congruence].
  destruct (Hx _ _ _ _ Hrun) as (r' & Hexec & _). rewrite Hexec. cbn [fst].
  rewrite restore_namespace.
  assert (Hb : dict_get (with_builtins (global_namespace k)) x = Some v).
  { unfold with_builtins. destruct (dict_get (global_namespace k) "__builtins__") eqn:E;
      [exact Hv|].
    rewrite dict_get_set_other; [exact Hv|]. intros ->. congruence. }
  unfold py_run in Hrun. change (global_namespace (capturing k)) with (global_namespace k) in Hrun.
  cbn [global_namespace set_namespace] in Hrun.
  destruct (dict_get (with_builtins (global_namespace k)) "__builtins__") as [[]|];
    try discriminate.
  rewrite Hc in Hrun.
  rewrite (run_keeps prog _ _ _ x) with (2 := Hrun); [exact Hb|].
  intros Hin. unfold rebinds in Hr.
  assert (Hex : existsb (String.eqb x) (flat_map rebound prog) = true).
  { apply existsb_exists. exists x. split; [exact Hin | apply String.eqb_refl]. }
  congruence.
Qed.


(** ** One connection, and the listener *)

Section ListenerProperties.

Variable python : interpreter.
Variable sys_getsizeof : value -> option Z.
Variable exec : json -> kernel -> kernel * option exc.

Lemma sendall_length (conn : connection) (payload : string) :
  List.length (sendall conn payload) <= 1.
Proof. unfold sendall. destruct (send_fails conn); simpl; lia. Qed.

Lemma on_exception_shape (conn : connection) (e : exc) (k : kernel) :
  let h := on_exception conn e k in
  List.length (reply h) <= 1
  /\ after h = k
  /\ (forall x, escaped h = Some x -> x = e /\ is_Exception e = false /\ reply h = []).
Proof.
  unfold on_exception. destruct (is_Exception e) eqn:He; simpl.
  - split; [apply sendall_length|]. split; [reflexivity|]. intros x H; discriminate.
  - split; [lia|]. split; [reflexivity|]. intros x H. inversion H; subst. auto.
Qed.

(** What the loop of [handle_inspect] raises is an [Exception]: the pattern
    has no [lower], or the dictionary changed size. *)
Lemma inspect_items_raise (pattern : json) (used todo : nat) (k k' : kernel)
      (acc : list json) (e : exc) :
  inspect_items python sys_getsizeof pattern used todo k acc = (Raise e, k') ->
  is_Exception e = true.
Proof.
  revert k acc. induction todo as [|todo IH]; intros k acc; cbn [inspect_items];
    (destruct (negb _); [intros H; inversion H; reflexivity|]); [discriminate|].
  destruct (nth_error _ _) as [[name v]|]; [|discriminate].
  destruct (startswith name "_"); [apply IH|].
  unfold filtered_out. destruct (truthy pattern).
  - destruct pattern; simpl; try (intros Hx; inversion Hx; reflexivity).
    destruct (negb _); apply IH.
  - apply IH.
Qed.

Lemma handle_inspect_raise (pattern : json) (k k' : kernel) (e : exc) :
  handle_inspect python sys_getsizeof pattern k = (Raise e, k') -> is_Exception e = true.
Proof.
  unfold handle_inspect.
  destruct (inspect_items _ _ _ _ _ _ _) as [[l|x] k1] eqn:Hi; [discriminate|].
  intros Hx. inversion Hx; subst. exact (inspect_items_raise _ _ _ _ _ _ _ Hi).
Qed.

Lemma route_raise (env : probe) (request : json) (k k' : kernel) (e : exc) :
  route python sys_getsizeof exec env request k = (Raise e, k') ->
  is_Exception e = true \/ exists code, execute_code exec code k = (Raise e, k').
Proof.
  unfold route. destruct request as [|b|z|t|s|l|d];
    try (intros H; inversion H; left; reflexivity).
  destruct (equals_str _ "inspect").
  - intros H. left. exact (handle_inspect_raise _ _ _ _ H).
  - destruct (equals_str _ "reset"); [discriminate|].
    destruct (equals_str _ "status"); [discriminate|].
    intros H. right. eexists. exact H.
Qed.

Lemma handle_client_shape (conn : connection) (env : probe) (k : kernel) :
  let h := handle_client python sys_getsizeof exec conn env k in
  List.length (reply h) <= 1
  /\ (forall e, escaped h = Some e -> is_Exception e = false /\ reply h = []).
Proof.
  cbv zeta. unfold handle_client.
  destruct (receive "" (incoming conn)) as [data|e0].
  - destruct (nonempty data); simpl; [|split; [lia | intros e H; discriminate]].
    destruct (loads_bytes data) as [request|e1].
    + destruct (route python sys_getsizeof exec env request k) as [[result|e2] k'] eqn:Hr.
      * cbn [reply escaped]. split; [apply sendall_length | intros e H; discriminate].
      * destruct (on_exception_shape conn e2 k') as (Hl & _ & He).
        split; [exact Hl|]. intros e H. destruct (He e H) as (-> & Hn & Hrep). auto.
    + destruct (on_exception_shape conn e1 k) as (Hl & _ & He).
      split; [exact Hl|]. intros e H. destruct (He e H) as (-> & Hn & Hrep). auto.
  - destruct (on_exception_shape conn e0 k) as (Hl & _ & He).
    split; [exact Hl|]. intros e H. destruct (He e H) as (-> & Hn & Hrep). auto.
Qed.

(** X8. [handle_client] sends one payload at most.  An exception leaves it
    only if it is not an [Exception], and then nothing was sent. *)
Theorem X8_one_answer_at_most (conn : connection) (env : probe) (k : kernel) :
  let h := handle_client python sys_getsizeof exec conn env k in
  List.length (reply h) <= 1
  /\ (forall e, escaped h = Some e -> is_Exception e = false /\ reply h = []).
Proof. exact (handle_client_shape conn env k). Qed.

(** X9. The listener never gives more answers than it accepted
    connections, one payload at most for each.  When the events are used up
    it is still listening, having answered every one of them, or it has
    left with status 1 on an [Exception] that [accept] raised, or it has
    died of an exception that is not an [Exception]. *)
Theorem X9_what_ends_the_listener (events : list accept_event) (k : kernel) :
  let s := accept_loop python sys_getsizeof exec events k in
  List.length (replies s) <= accepts events
  /\ Forall (fun r => List.length r <= 1) (replies s)
  /\ match ended s with
     | Listening => List.length (replies s) = List.length events
     | Exited status =>
         status = 1%Z
         /\ exists e, is_Exception e = true /\ In (AcceptRaise e) events
     | Died e => is_Exception e = false
     end.
Proof.
  revert k. induction events as [|[conn env|e] rest IH]; intros k; simpl.
  - split; [lia|]. split; [constructor | reflexivity].
  - destruct (handle_client_shape conn env k) as [Hl He].
    destruct (escaped (handle_client python sys_getsizeof exec conn env k)) as [x|] eqn:Hx; simpl.
    + split; [unfold accepts; simpl; lia|]. split; [constructor; [exact Hl | constructor]|].
      exact (proj1 (He x eq_refl)).
    + destruct (IH (after (handle_client python sys_getsizeof exec conn env k)))
        as (H1 & H2 & H3).
      split; [unfold accepts in *; simpl; lia|]. split; [constructor; assumption|].
      destruct (ended _) as [|status|d].
      * simpl. lia.
      * destruct H3 as [Hs [e [He1 He2]]]. split; [exact Hs|]. exists e. auto.
      * exact H3.
  - destruct (is_Exception e) eqn:He; simpl.
    + split; [lia|]. split; [constructor|]. split; [reflexivity|]. exists e. auto.
    + split; [lia|]. split; [constructor|]. exact He.
Qed.

End ListenerProperties.

(** X10. After a reset, code that prints a name which is neither a constant
    nor in the builtins fails with [NameError], for an interpreter that runs
    the fragment: the binding of the name is gone. *)
Theorem X10_reset_forgets (exec : json -> kernel -> kernel * option exc)
        (code x : string) (k : kernel) :
  runs_fragment exec ->
  py_compile code = Some [SPrint (Some (EName x))] ->
  dict_get (builtins k) "print" = Some (VBuiltinFn "print") ->
  dict_get (builtins k) x = None ->
  mem x constant_keywords = false ->
  x <> "__name__" -> x <> "__builtins__" ->
  exists (e : exc) (out err : string),
    exc_class e = "NameError"
    /\ fst (execute_code exec (JStr code) (snd (handle_reset k)))
       = Ok (execute_result false out err (JStr (format_exc e))).
Proof.
  intros Hx Hc Hp Hb Hk H1 H2.
  set (k' := snd (handle_reset k)).
  set (ns0 := [("__name__", VStr "__main__"); ("__builtins__", VBuiltins)]).
  set (k0 := set_namespace ns0 (capturing k')).
  assert (Hn : dict_get ns0 x = None).
  { subst ns0. cbn [dict_get].
    destruct (String.eqb_spec "__name__" x); [congruence|].
    destruct (String.eqb_spec "__builtins__" x); [congruence|]. reflexivity. }
  assert (Hrun : py_run code (capturing k') = Some (k0, Some (NameError x))).
  { unfold py_run. change (global_namespace (capturing k')) with initial_namespace.
    change (with_builtins initial_namespace) with ns0.
    cbn [global_namespace set_namespace]. fold k0.
    change (dict_get ns0 "__builtins__") with (Some VBuiltins). cbv iota.
    rewrite Hc. cbn [run exec_stmt eval]. unfold lookup.
    assert (Hm : mem "print" constant_keywords = false) by reflexivity.
    rewrite Hm, Hk. change (global_namespace k0) with ns0.
    change (dict_get ns0 "print") with (@None value). cbv iota.
    change (builtins k0) with (builtins k). rewrite Hp, Hn, Hb. reflexivity. }
  destruct (runs_fragment_fault exec _ _ _ _ Hx Hrun) as (e' & Hexec & Hcl & Hi).
  destruct (capturing_open k') as [Ho1 Ho2].
  exists e'. eexists. eexists. split; [exact Hcl|].
  rewrite (execute_code_fault exec _ _ _ e' _ _ Hexec Hi (captured_open k' k0 Ho1 Ho2)).
  reflexivity.
Qed.


(** ** The codec *)

Lemma app_string_assoc (a b c : string) : (a ++ b) ++ c = a ++ (b ++ c).
Proof. induction a; simpl; congruence. Qed.

Lemma app_empty (s : string) : s ++ "" = s.
Proof. induction s; simpl; congruence. Qed.

Lemma string_length_app (a b : string) :
  String.length (a ++ b) = String.length a + String.length b.
Proof. induction a; simpl; congruence. Qed.

Lemma scan_dumps_char (c : ascii) (X : string) :
  scan_string None (dumps_char c ++ X) = prepend (String c "") (scan_string None X).
Proof.
  destruct c as [[] [] [] [] [] [] [] []]; reflexivity.
Qed.

Lemma dumps_chars_cons (c : ascii) (s : string) :
  dumps_chars false 0 0 (String c s) = dumps_char c ++ dumps_chars false 0 0 s.
Proof. reflexivity. Qed.

Lemma scan_dumps_chars (s rest : string) :
  scan_string None (dumps_chars false 0 0 s ++ String dquote rest) = Some (s, rest).
Proof.
  induction s as [|c s IH].
  - reflexivity.
  - rewrite dumps_chars_cons, app_string_assoc, scan_dumps_char, IH. reflexivity.
Qed.

Lemma scan_value_str (f : nat) (v T : string) :
  scan_value (S f) (dumps_str false v ++ T) = Some (JStr v, T).
Proof.
  unfold dumps_str.
  change (String dquote (dumps_chars false 0 0 v ++ String dquote "") ++ T)
    with (String dquote ((dumps_chars false 0 0 v ++ String dquote "") ++ T)).
  rewrite app_string_assoc.
  change (String dquote "" ++ T) with (String dquote T).
  cbn [scan_value]. change (Ascii.eqb dquote dquote) with true. cbv iota.
  rewrite scan_dumps_chars. reflexivity.
Qed.

(** *** Whole numbers *)

Lemma span_digits_stop (ds T : string) :
  digits ds = true ->
  match T with EmptyString => true | String c _ => negb (is_digit c) end = true ->
  span_digits (ds ++ T) = (ds, T).
Proof.
  intros Hd HT. induction ds as [|c r IH]; simpl in *.
  - destruct T as [|t T']; [reflexivity|]. simpl in *.
    destruct (is_digit t); [discriminate | reflexivity].
  - apply andb_prop in Hd as [Hc Hr]. rewrite Hc, (IH Hr). reflexivity.
Qed.

Lemma span_digits_app (ds T : string) :
  digits ds = true -> ends_number T = true -> span_digits (ds ++ T) = (ds, T).
Proof.
  intros Hd HT. apply span_digits_stop; [exact Hd|].
  destruct T as [|t T']; [reflexivity|]. cbn [ends_number] in HT. unfold number_char in HT.
  destruct (is_digit t); [discriminate HT | reflexivity].
Qed.

Ltac split_bits :=
  repeat match goal with
         | |- context [match ?b with true => _ | false => _ end] => is_var b; destruct b
         end.

(** What [scan_number] does once the digits of a whole number are read. *)
Ltac number_tail HT :=
  match type of HT with
  | ends_number ?T = true =>
      let t := fresh "t" in
      let T' := fresh "T" in
      let Hdig := fresh "Hdig" in
      let Hdot := fresh "Hdot" in
      let He := fresh "He" in
      let HE := fresh "HE" in
      destruct T as [|t T']; [reflexivity|];
      cbn [ends_number] in HT; unfold number_char in HT;
      destruct (is_digit t) eqn:Hdig; [simpl in HT; discriminate HT|];
      destruct (Ascii.eqb t ".") eqn:Hdot; [simpl in HT; discriminate HT|];
      destruct (Ascii.eqb t "e") eqn:He; [simpl in HT; discriminate HT|];
      destruct (Ascii.eqb t "E") eqn:HE; [simpl in HT; discriminate HT|];
      destruct t as [? ? ? ? ? ? ? ?];
      split_bits; try discriminate Hdot;
      cbv beta iota; rewrite ?He, ?HE; reflexivity
  end.

Lemma scan_number_zero (T : string) :
  ends_number T = true -> scan_number (String "0" T) = Some (JInt 0, T).
Proof.
  intros HT. unfold scan_number. cbv beta iota. number_tail HT.
Qed.

Lemma scan_number_unsigned (c : ascii) (ds T : string) :
  is_digit c = true -> c <> "0"%char -> digits ds = true -> ends_number T = true ->
  scan_number (String c ds ++ T) = Some (JInt (Z_of_digits 0 (String c ds)), T).
Proof.
  intros Hc Hz Hd HT. unfold scan_number.
  destruct c as [[] [] [] [] [] [] [] []]; try discriminate Hc; try congruence;
    cbn [String.append]; cbv iota beta;
    (cbn [span_digits];
     match goal with |- context [is_digit ?c] => change (is_digit c) with true end;
     cbv iota; rewrite (span_digits_app ds T Hd HT); number_tail HT).
Qed.

Lemma scan_number_negative (c : ascii) (ds T : string) :
  is_digit c = true -> c <> "0"%char -> digits ds = true -> ends_number T = true ->
  scan_number (String "-" (String c ds) ++ T)
  = Some (JInt (- Z_of_digits 0 (String c ds)), T).
Proof.
  intros Hc Hz Hd HT. unfold scan_number.
  destruct c as [[] [] [] [] [] [] [] []]; try discriminate Hc; try congruence;
    cbn [String.append]; cbv iota beta;
    (cbn [span_digits];
     match goal with |- context [is_digit ?c] => change (is_digit c) with true end;
     cbv iota; rewrite (span_digits_app ds T Hd HT); number_tail HT).
Qed.

Lemma scan_value_digit (f : nat) (c : ascii) (r : string) :
  is_digit c = true -> scan_value (S f) (String c r) = scan_number (String c r).
Proof.
  intros Hc.
  destruct c as [[] [] [] [] [] [] [] []]; try discriminate Hc; reflexivity.
Qed.

Lemma scan_value_minus (f : nat) (c : ascii) (r : string) :
  is_digit c = true ->
  scan_value (S f) (String "-" (String c r)) = scan_number (String "-" (String c r)).
Proof.
  intros Hc.
  destruct c as [[] [] [] [] [] [] [] []]; try discriminate Hc; reflexivity.
Qed.

Lemma digits_uint (d : Decimal.uint) : digits (NilEmpty.string_of_uint d) = true.
Proof. induction d; simpl; auto. Qed.

Lemma Z_of_digits_acc (d : Decimal.uint) (acc : positive) :
  Z_of_digits (Zpos acc) (NilEmpty.string_of_uint d) = Zpos (Pos.of_uint_acc d acc).
Proof.
  revert acc. induction d; intros acc; cbn [NilEmpty.string_of_uint Z_of_digits Pos.of_uint_acc];
    [reflexivity | ..];
    rewrite <- IHd; f_equal; unfold code; simpl N_of_ascii; lia.
Qed.

Lemma Z_of_digits_uint (d : Decimal.uint) :
  Z_of_digits 0 (NilEmpty.string_of_uint d) = Z.of_N (Pos.of_uint d).
Proof.
  induction d; cbn [NilEmpty.string_of_uint Z_of_digits Pos.of_uint];
    [reflexivity | exact IHd | ..];
    cbn [Z.of_N]; rewrite <- Z_of_digits_acc; f_equal.
Qed.

Lemma nzhead_no_zero (d : Decimal.uint) :
  match Decimal.nzhead d with Decimal.D0 _ => False | _ => True end.
Proof. induction d; simpl; auto. Qed.

Lemma to_uint_head (p : positive) :
  match Pos.to_uint p with Decimal.Nil | Decimal.D0 _ => False | _ => True end.
Proof.
  assert (Hn : Decimal.unorm (Pos.to_uint p) = Pos.to_uint p).
  { rewrite <- (DecimalPos.Unsigned.to_of (Pos.to_uint p)).
    rewrite DecimalPos.Unsigned.of_to. reflexivity. }
  pose proof (DecimalPos.Unsigned.to_uint_nonzero p) as Hz.
  pose proof (nzhead_no_zero (Pos.to_uint p)) as Hh.
  unfold Decimal.unorm in Hn. destruct (Decimal.nzhead (Pos.to_uint p)) eqn:E;
    try (rewrite <- Hn; exact I).
  - symmetry in Hn. contradiction.
  - contradiction.
Qed.

(** The decimal text of a positive number: digits, the first of them not a
    zero. *)
Lemma str_of_Z_pos (p : positive) :
  exists c ds,
    str_of_Z (Zpos p) = String c ds /\ is_digit c = true /\ c <> "0"%char
    /\ digits ds = true /\ Z_of_digits 0 (String c ds) = Zpos p.
Proof.
  unfold str_of_Z. cbn [Z.to_int NilZero.string_of_int].
  pose proof (to_uint_head p) as Hh.
  pose proof (Z_of_digits_uint (Pos.to_uint p)) as Hv.
  rewrite DecimalPos.Unsigned.of_to in Hv.
  pose proof (digits_uint (Pos.to_uint p)) as Hd.
  destruct (Pos.to_uint p) as [|d|d|d|d|d|d|d|d|d|d]; try contradiction;
    (eexists; eexists; split; [reflexivity|];
     split; [reflexivity|]; split; [discriminate|]; split; [exact Hd | exact Hv]).
Qed.

Lemma str_of_Z_neg (p : positive) : str_of_Z (Zneg p) = String "-" (str_of_Z (Zpos p)).
Proof.
  unfold str_of_Z. cbn [Z.to_int NilZero.string_of_int]. reflexivity.
Qed.

Lemma scan_value_int (f : nat) (z : Z) (T : string) :
  ends_number T = true -> scan_value (S f) (str_of_Z z ++ T) = Some (JInt z, T).
Proof.
  intros HT. destruct z as [|p|p].
  - change (str_of_Z 0 ++ T) with (String "0" T).
    rewrite scan_value_digit by reflexivity. apply scan_number_zero, HT.
  - destruct (str_of_Z_pos p) as (c & ds & -> & Hc & Hz & Hd & Hv).
    change (String c ds ++ T) with (String c (ds ++ T)).
    rewrite scan_value_digit by exact Hc.
    change (String c (ds ++ T)) with (String c ds ++ T).
    rewrite scan_number_unsigned by assumption. rewrite Hv. reflexivity.
  - rewrite str_of_Z_neg.
    destruct (str_of_Z_pos p) as (c & ds & -> & Hc & Hz & Hd & Hv).
    change (String "-" (String c ds) ++ T) with (String "-" (String c (ds ++ T))).
    rewrite scan_value_minus by exact Hc.
    change (String "-" (String c (ds ++ T))) with (String "-" (String c ds) ++ T).
    rewrite scan_number_negative by assumption. rewrite Hv. reflexivity.
Qed.

Lemma digit_opens (c : ascii) (r : string) :
  is_digit c = true -> opens_value (String c r) = true.
Proof.
  intros Hc. destruct c as [[] [] [] [] [] [] [] []]; try discriminate Hc; reflexivity.
Qed.


(** *** Floats in positional notation *)

(** What [scan_number] does from the dot of a float on. *)
Ltac float_tail Hfd Hne HT :=
  match type of HT with
  | ends_number ?T = true =>
      let t := fresh "t" in
      let T' := fresh "T" in
      let Hdig := fresh "Hdig" in
      let Hdot := fresh "Hdot" in
      let He := fresh "He" in
      let HE := fresh "HE" in
      rewrite (span_digits_app _ T Hfd HT); cbv beta iota; rewrite Hne; cbv beta iota;
      destruct T as [|t T'];
      [ cbv beta iota; cbn [nonempty orb]; rewrite ?app_empty; reflexivity |];
      cbn [ends_number] in HT; unfold number_char in HT;
      destruct (is_digit t) eqn:Hdig; [simpl in HT; discriminate HT|];
      destruct (Ascii.eqb t ".") eqn:Hdot; [simpl in HT; discriminate HT|];
      destruct (Ascii.eqb t "e") eqn:He; [simpl in HT; discriminate HT|];
      destruct (Ascii.eqb t "E") eqn:HE; [simpl in HT; discriminate HT|];
      cbv beta iota; cbn [orb nonempty]; rewrite ?app_empty; reflexivity
  end.

Lemma scan_float_zero (fd T : string) :
  digits fd = true -> nonempty fd = true -> ends_number T = true ->
  scan_number (String "0" (String "." fd) ++ T)
  = Some (JFloat (String "0" (String "." fd)), T).
Proof.
  intros Hfd Hne HT. unfold scan_number. cbn [String.append]. cbv beta iota.
  float_tail Hfd Hne HT.
Qed.

Lemma scan_float_negative_zero (fd T : string) :
  digits fd = true -> nonempty fd = true -> ends_number T = true ->
  scan_number (String "-" (String "0" (String "." fd)) ++ T)
  = Some (JFloat (String "-" (String "0" (String "." fd))), T).
Proof.
  intros Hfd Hne HT. unfold scan_number. cbn [String.append]. cbv beta iota.
  float_tail Hfd Hne HT.
Qed.

Lemma scan_float_unsigned (c : ascii) (ds fd T : string) :
  is_digit c = true -> c <> "0"%char -> digits ds = true ->
  digits fd = true -> nonempty fd = true -> ends_number T = true ->
  scan_number ((String c ds ++ String "." fd) ++ T)
  = Some (JFloat (String c ds ++ String "." fd), T).
Proof.
  intros Hc Hz Hd Hfd Hne HT. unfold scan_number. rewrite app_string_assoc.
  assert (Hs : span_digits (ds ++ String "." fd ++ T) = (ds, String "." fd ++ T))
    by (apply span_digits_stop; [exact Hd | reflexivity]).
  destruct c as [[] [] [] [] [] [] [] []]; try discriminate Hc; try congruence;
    cbn [String.append] in *; cbv iota beta;
    (cbn [span_digits];
     match goal with |- context [is_digit ?c] => change (is_digit c) with true end;
     cbv iota; rewrite Hs; cbv beta iota; float_tail Hfd Hne HT).
Qed.

Lemma scan_float_negative (c : ascii) (ds fd T : string) :
  is_digit c = true -> c <> "0"%char -> digits ds = true ->
  digits fd = true -> nonempty fd = true -> ends_number T = true ->
  scan_number (String "-" (String c ds ++ String "." fd) ++ T)
  = Some (JFloat (String "-" (String c ds ++ String "." fd)), T).
Proof.
  intros Hc Hz Hd Hfd Hne HT. unfold scan_number.
  change (String "-" (String c ds ++ String "." fd) ++ T)
    with (String "-" ((String c ds ++ String "." fd) ++ T)).
  rewrite app_string_assoc.
  assert (Hs : span_digits (ds ++ String "." fd ++ T) = (ds, String "." fd ++ T))
    by (apply span_digits_stop; [exact Hd | reflexivity]).
  destruct c as [[] [] [] [] [] [] [] []]; try discriminate Hc; try congruence;
    cbn [String.append] in *; cbv iota beta;
    (cbn [span_digits];
     match goal with |- context [is_digit ?c] => change (is_digit c) with true end;
     cbv iota; rewrite Hs; cbv beta iota; float_tail Hfd Hne HT).
Qed.

Lemma split_at_dot (u fd : string) :
  after_dot u = Some fd -> u = before_dot u ++ String "." fd.
Proof.
  induction u as [|c r IH]; cbn [after_dot before_dot]; [discriminate|].
  destruct (Ascii.eqb_spec c ".") as [->|_].
  - intros H. inversion H. reflexivity.
  - intros H. cbn [String.append]. rewrite <- (IH H). reflexivity.
Qed.

(** The parts of the text of a float without its sign. *)
Lemma unsigned_positional_parts (u : string) :
  unsigned_positional u = true ->
  exists c ds fd,
    u = String c ds ++ String "." fd
    /\ is_digit c = true /\ digits ds = true
    /\ (c <> "0"%char \/ (c = "0"%char /\ ds = EmptyString))
    /\ digits fd = true /\ nonempty fd = true.
Proof.
  unfold unsigned_positional. intros H. apply andb_prop in H as [Hw Hf].
  destruct (after_dot u) as [fd|] eqn:Ha; [|discriminate Hf].
  apply andb_prop in Hf as [Hne Hfd].
  pose proof (split_at_dot u fd Ha) as Hu.
  destruct (before_dot u) as [|c ds]; [discriminate Hw|].
  cbn [whole] in Hw. apply andb_prop in Hw as [Hw Hz]. apply andb_prop in Hw as [Hc Hd].
  exists c, ds, fd. repeat split; try assumption.
  destruct (Ascii.eqb_spec c "0") as [->|Hn]; [|left; exact Hn].
  right. split; [reflexivity|]. cbn [negb orb] in Hz.
  destruct ds; [reflexivity | discriminate Hz].
Qed.

Lemma positional_cases (t : string) :
  positional t = true ->
  (unsigned_positional t = true
   \/ exists u, t = String "-" u /\ unsigned_positional u = true).
Proof.
  destruct t as [|c r]; [discriminate|]. cbn [positional].
  destruct (Ascii.eqb_spec c "-") as [->|_]; [|left; assumption].
  intros H. right. exists r. split; [reflexivity | exact H].
Qed.

Lemma scan_value_float (f : nat) (t T : string) :
  positional t = true -> ends_number T = true ->
  scan_value (S f) (t ++ T) = Some (JFloat t, T).
Proof.
  intros Ht HT. destruct (positional_cases t Ht) as [Hu|[u [-> Hu]]];
    destruct (unsigned_positional_parts _ Hu)
      as (c & ds & fd & -> & Hc & Hd & Hz & Hfd & Hne).
  - change ((String c ds ++ String "." fd) ++ T)
      with (String c ((ds ++ String "." fd) ++ T)).
    rewrite scan_value_digit by exact Hc.
    change (String c ((ds ++ String "." fd) ++ T))
      with ((String c ds ++ String "." fd) ++ T).
    destruct Hz as [Hz|[-> ->]].
    + apply scan_float_unsigned; assumption.
    + apply scan_float_zero; assumption.
  - change (String "-" (String c ds ++ String "." fd) ++ T)
      with (String "-" (String c ((ds ++ String "." fd) ++ T))).
    rewrite scan_value_minus by exact Hc.
    change (String "-" (String c ((ds ++ String "." fd) ++ T)))
      with (String "-" (String c ds ++ String "." fd) ++ T).
    destruct Hz as [Hz|[-> ->]].
    + apply scan_float_negative; assumption.
    + apply scan_float_negative_zero; assumption.
Qed.

Lemma positional_opens (t T : string) :
  positional t = true -> opens_value (t ++ T) = true.
Proof.
  intros Ht. destruct (positional_cases t Ht) as [Hu|[u [-> Hu]]];
    destruct (unsigned_positional_parts _ Hu) as (c & ds & fd & -> & Hc & _).
  - apply (digit_opens c _ Hc).
  - reflexivity.
Qed.

(** *** Lists and objects *)

Lemma json_dumps_list (l : list json) :
  json_dumps false (JList l) = "[" ++ join ", " (map (json_dumps false) l) ++ "]".
Proof.
  cbn [json_dumps]. f_equal. f_equal.
  induction l as [|x r IH]; [reflexivity|].
  destruct r as [|y r']; [reflexivity|].
  cbn [map join] in *. rewrite IH. reflexivity.
Qed.

Lemma json_dumps_dict (d : list (string * json)) :
  json_dumps false (JDict d) = "{" ++ join ", " (map member_text d) ++ "}".
Proof.
  cbn [json_dumps]. f_equal. f_equal.
  induction d as [|[k v] r IH]; [reflexivity|].
  destruct r as [|y r'].
  - cbn [map join member_text fst snd]. reflexivity.
  - cbn [map join] in *. rewrite IH.
    change (member_text (k, v)) with (dumps_str false k ++ ": " ++ json_dumps false v).
    rewrite !app_string_assoc. reflexivity.
Qed.

Lemma dumps_opens (j : json) (T : string) :
  document j = true -> opens_value (json_dumps false j ++ T) = true.
Proof.
  destruct j as [|b|z|t|s|l|d]; intros Hj; try reflexivity.
  - destruct b; reflexivity.
  - cbn [json_dumps]. destruct z as [|p|p].
    + reflexivity.
    + destruct (str_of_Z_pos p) as (c & ds & -> & Hc & _).
      apply (digit_opens c (ds ++ T) Hc).
    + rewrite str_of_Z_neg. reflexivity.
  - apply positional_opens, Hj.
Qed.

Lemma skip_ws_opens (s : string) : opens_value s = true -> skip_ws s = s.
Proof.
  destruct s as [|c r]; [reflexivity|]. cbn [opens_value skip_ws].
  destruct (is_ws c); [discriminate | reflexivity].
Qed.

Lemma skip_ws_space (s : string) : skip_ws (String " " s) = skip_ws s.
Proof. reflexivity. Qed.

Lemma join_opens (j : json) (rest : list string) (T : string) :
  document j = true -> opens_value (join ", " (json_dumps false j :: rest) ++ T) = true.
Proof.
  intros Hj. destruct rest as [|y r]; cbn [join].
  - apply dumps_opens, Hj.
  - rewrite app_string_assoc. apply dumps_opens, Hj.
Qed.

Lemma scan_value_list (f : nat) (s : string) :
  opens_value s = true -> scan_value (S f) (String "[" s) = scan_elements f [] s.
Proof.
  intros H. destruct s as [|c r]; [discriminate H|].
  destruct c as [[] [] [] [] [] [] [] []]; try discriminate H; reflexivity.
Qed.

Lemma scan_value_dict (f : nat) (s : string) :
  opens_value s = true -> scan_value (S f) (String "{" s) = scan_members f [] s.
Proof.
  intros H. destruct s as [|c r]; [discriminate H|].
  destruct c as [[] [] [] [] [] [] [] []]; try discriminate H; reflexivity.
Qed.

Lemma scan_elements_step (f : nat) (acc : list json) (s : string) :
  scan_elements (S f) acc s
  = match scan_value f s with
    | Some (v, r1) =>
        match skip_ws r1 with
        | String "]" r2 => Some (JList (acc ++ [v]), r2)
        | String "," r2 => scan_elements f (acc ++ [v]) (skip_ws r2)
        | _ => None
        end
    | None => None
    end.
Proof. reflexivity. Qed.

Lemma scan_members_key (f : nat) (acc : list (string * json)) (X : string) :
  scan_members (S f) acc (String dquote X)
  = match scan_string None X with
    | Some (key, r1) =>
        match skip_ws r1 with
        | String ":" r2 =>
            match scan_value f (skip_ws r2) with
            | Some (v, r3) =>
                match skip_ws r3 with
                | String "}" r4 => Some (JDict (dict_set acc key v), r4)
                | String "," r4 => scan_members f (dict_set acc key v) (skip_ws r4)
                | _ => None
                end
            | None => None
            end
        | _ => None
        end
    | None => None
    end.
Proof. reflexivity. Qed.

Lemma scan_elements_dumps (l : list json) :
  Forall reads_back l -> forallb document l = true ->
  forall (acc : list json) (f : nat) (T : string),
    l <> [] ->
    String.length (join ", " (map (json_dumps false) l)) + 2 <= f ->
    scan_elements f acc (join ", " (map (json_dumps false) l) ++ String "]" T)
    = Some (JList (acc ++ l), T).
Proof.
  induction 1 as [|x r Hx Hr IH]; intros Hdoc acc f T Hne Hf; [congruence|].
  cbn [forallb] in Hdoc. apply andb_prop in Hdoc as [Hdx Hdr].
  destruct r as [|y r'].
  - cbn [map join] in *.
    destruct f as [|[|f]]; try lia.
    rewrite scan_elements_step, (Hx f) by (reflexivity || lia).
    reflexivity.
  - change (join ", " (map (json_dumps false) (x :: y :: r')))
      with (json_dumps false x ++ ", " ++ join ", " (map (json_dumps false) (y :: r'))) in *.
    rewrite !string_length_app in Hf. cbn [String.length] in Hf.
    destruct f as [|[|f]]; try lia.
    rewrite !app_string_assoc.
    rewrite scan_elements_step, (Hx f) by (reflexivity || lia).
    change (skip_ws (", " ++ ?X)) with (String "," (String " " X)). cbv iota.
    rewrite skip_ws_space, skip_ws_opens
      by (cbn [map]; apply join_opens; cbn [forallb] in Hdr;
          apply andb_prop in Hdr as [Hy _]; exact Hy).
    rewrite IH; [| exact Hdr | discriminate | lia].
    rewrite <- app_assoc. reflexivity.
Qed.

Lemma dict_set_fresh (acc : list (string * json)) (k : string) (v : json) :
  mem k (map fst acc) = false -> dict_set acc k v = (acc ++ [(k, v)])%list.
Proof.
  induction acc as [|[k0 v0] r IH]; [reflexivity|].
  cbn [map fst mem existsb dict_set app]. unfold mem in *. cbn [existsb].
  rewrite String.eqb_sym. destruct (String.eqb k0 k); [discriminate|].
  cbn [orb]. intros H. rewrite (IH H). reflexivity.
Qed.

Lemma distinct_app_fresh (ks : list string) (k : string) (r : list string) :
  distinct (ks ++ k :: r) = true -> mem k ks = false.
Proof.
  induction ks as [|k0 ks IH]; [reflexivity|].
  cbn [app distinct]. intros H. apply andb_prop in H as [H0 H1].
  unfold mem in *. cbn [existsb].
  rewrite (IH H1), orb_false_r.
  destruct (String.eqb_spec k k0) as [->|]; [|reflexivity].
  rewrite existsb_app in H0. cbn [existsb] in H0.
  rewrite String.eqb_refl, orb_true_r in H0. discriminate.
Qed.

Lemma scan_member (k : string) (v : json) (acc : list (string * json)) (f : nat)
      (R : string) :
  document v = true -> reads_back v ->
  String.length (json_dumps false v) <= f -> ends_number R = true ->
  scan_members (S (S f)) acc (member_text (k, v) ++ R)
  = match skip_ws R with
    | String "}" r4 => Some (JDict (dict_set acc k v), r4)
    | String "," r4 => scan_members (S f) (dict_set acc k v) (skip_ws r4)
    | _ => None
    end.
Proof.
  intros Hd Hv Hf HR. unfold member_text, dumps_str. cbn [fst snd].
  change (String dquote (dumps_chars false 0 0 k ++ String dquote "")
          ++ ": " ++ json_dumps false v)
    with (String dquote ((dumps_chars false 0 0 k ++ String dquote "")
          ++ ": " ++ json_dumps false v)).
  change (String dquote ?X ++ R) with (String dquote (X ++ R)).
  rewrite !app_string_assoc.
  change (String dquote "" ++ ?X) with (String dquote X).
  rewrite scan_members_key, scan_dumps_chars.
  change (skip_ws (": " ++ ?X)) with (String ":" (String " " X)). cbv iota.
  rewrite skip_ws_space, skip_ws_opens by (apply dumps_opens, Hd).
  rewrite (Hv f) by assumption. reflexivity.
Qed.

Lemma member_opens (kv : string * json) (rest : list string) (T : string) :
  opens_value (join ", " (member_text kv :: rest) ++ T) = true.
Proof. destruct rest; reflexivity. Qed.

Lemma scan_members_dumps (d : list (string * json)) :
  Forall (fun kv => reads_back (snd kv)) d ->
  forallb (fun kv => document (snd kv)) d = true ->
  forall (acc : list (string * json)) (f : nat) (T : string),
    d <> [] ->
    distinct (map fst (acc ++ d)) = true ->
    String.length (join ", " (map member_text d)) + 2 <= f ->
    scan_members f acc (join ", " (map member_text d) ++ String "}" T)
    = Some (JDict (acc ++ d), T).
Proof.
  induction 1 as [|[k v] r Hx Hr IH]; intros Hdoc acc f T Hne Hk Hf; [congruence|].
  cbn [forallb snd] in Hdoc, Hx. apply andb_prop in Hdoc as [Hdx Hdr].
  assert (Hfresh : dict_set acc k v = (acc ++ [(k, v)])%list).
  { apply dict_set_fresh. rewrite map_app in Hk. cbn [map fst] in Hk.
    exact (distinct_app_fresh _ _ _ Hk). }
  assert (Hlen : String.length (json_dumps false v) + 2 <= String.length (member_text (k, v))).
  { unfold member_text. cbn [fst snd]. rewrite !string_length_app. cbn [String.length]. lia. }
  destruct r as [|y r'].
  - cbn [map join] in *.
    destruct f as [|[|f]]; try lia.
    rewrite scan_member by (assumption || reflexivity || lia).
    cbn [skip_ws]. change (is_ws "}") with false. cbv iota.
    rewrite Hfresh. reflexivity.
  - change (join ", " (map member_text ((k, v) :: y :: r')))
      with (member_text (k, v) ++ ", " ++ join ", " (map member_text (y :: r'))) in *.
    rewrite !string_length_app in Hf. cbn [String.length] in Hf.
    destruct f as [|[|f]]; try lia.
    rewrite !app_string_assoc.
    rewrite scan_member by (assumption || reflexivity || lia).
    change (skip_ws (", " ++ ?X)) with (String "," (String " " X)). cbv iota.
    rewrite skip_ws_space, skip_ws_opens by (cbn [map]; apply member_opens).
    rewrite Hfresh.
    rewrite IH; [| exact Hdr | discriminate | | lia].
    + rewrite <- app_assoc. reflexivity.
    + rewrite <- app_assoc. exact Hk.
Qed.

Lemma literal_app (word : string) (v : json) (T : string) :
  literal word v (word ++ T) = Some (v, T).
Proof.
  unfold literal.
  assert (Hp : String.prefix word (word ++ T) = true).
  { induction word as [|c w IH]; cbn [String.append String.prefix].
    - destruct T; reflexivity.
    - destruct (ascii_dec c c); [exact IH | congruence]. }
  assert (Hd : drop (String.length word) (word ++ T) = T).
  { clear Hp. induction word as [|c w IH]; [reflexivity | exact IH]. }
  rewrite Hp, Hd. reflexivity.
Qed.

Lemma json_induction (P : json -> Prop) :
  P JNull -> (forall b, P (JBool b)) -> (forall z, P (JInt z)) ->
  (forall t, P (JFloat t)) -> (forall s, P (JStr s)) ->
  (forall l, Forall P l -> P (JList l)) ->
  (forall d, Forall (fun kv => P (snd kv)) d -> P (JDict d)) ->
  forall j, P j.
Proof.
  intros HN HB HI HF HS HL HD. fix IH 1.
  intros [|b|z|t|s|l|d]; [exact HN | apply HB | apply HI | apply HF | apply HS | | ].
  - apply HL. induction l as [|x r IHl]; constructor; [apply IH | exact IHl].
  - apply HD. induction d as [|[k v] r IHd]; constructor; [apply IH | exact IHd].
Qed.

Lemma document_reads_back (j : json) : document j = true -> reads_back j.
Proof.
  induction j as [|b|z|t|s|l IHl|d IHd] using json_induction; intros Hj f T Hf HT.
  - exact (literal_app "null" JNull T).
  - destruct b.
    + exact (literal_app "true" (JBool true) T).
    + exact (literal_app "false" (JBool false) T).
  - apply scan_value_int, HT.
  - apply scan_value_float; assumption.
  - apply scan_value_str.
  - rewrite json_dumps_list in *. cbn [document] in Hj.
    destruct l as [|x r]; [reflexivity|].
    change ("[" ++ ?X ++ "]") with (String "[" (X ++ "]")) in *.
    cbn [String.length] in Hf. rewrite string_length_app in Hf. cbn [String.length] in Hf.
    change (String "[" ?X ++ T) with (String "[" (X ++ T)).
    rewrite app_string_assoc. change ("]" ++ T) with (String "]" T).
    rewrite scan_value_list.
    + destruct f as [|f]; [lia|].
      apply (scan_elements_dumps (x :: r)); try assumption; try discriminate.
      * clear -IHl Hj. induction IHl as [|y l Hy Hl IH]; constructor.
        -- cbn [forallb] in Hj. apply andb_prop in Hj as [Hd _]. exact (Hy Hd).
        -- cbn [forallb] in Hj. apply andb_prop in Hj as [_ Hd]. exact (IH Hd).
      * lia.
    + cbn [forallb] in Hj. apply andb_prop in Hj as [Hx _].
      cbn [map]. apply join_opens, Hx.
  - rewrite json_dumps_dict in *. cbn [document] in Hj.
    apply andb_prop in Hj as [Hk Hj].
    destruct d as [|x r]; [reflexivity|].
    change ("{" ++ ?X ++ "}") with (String "{" (X ++ "}")) in *.
    cbn [String.length] in Hf. rewrite string_length_app in Hf. cbn [String.length] in Hf.
    change (String "{" ?X ++ T) with (String "{" (X ++ T)).
    rewrite app_string_assoc. change ("}" ++ T) with (String "}" T).
    rewrite scan_value_dict by (cbn [map]; apply member_opens).
    destruct f as [|f]; [lia|].
    apply (scan_members_dumps (x :: r)); try assumption; try discriminate.
    + clear -IHd Hj. induction IHd as [|y l Hy Hl IH]; constructor.
      * cbn [forallb] in Hj. apply andb_prop in Hj as [Hd _]. exact (Hy Hd).
      * cbn [forallb] in Hj. apply andb_prop in Hj as [_ Hd]. exact (IH Hd).
    + lia.
Qed.

Lemma document_round_trip (j : json) :
  document j = true -> json_loads (json_dumps false j) = Ok j.
Proof.
  intros Hj. unfold json_loads.
  pose proof (dumps_opens j "" Hj) as Ho. rewrite app_empty in Ho.
  rewrite (skip_ws_opens _ Ho).
  pose proof (document_reads_back j Hj (2 * String.length (json_dumps false j)) "") as Hr.
  rewrite app_empty in Hr. rewrite Hr; [reflexivity | lia | reflexivity].
Qed.

(** X11. [json.loads] reads back what [json.dumps] writes with
    [ensure_ascii=False]: for a document whose dictionaries have distinct
    keys and whose floats are in positional notation, decoding the text
    gives the document again, strings, whole numbers of any size and
    nesting included (the model sets no limit to the depth or to the number
    of digits). *)
Theorem X11_document_round_trip (j : json) :
  document j = true -> json_loads (json_dumps false j) = Ok j.
Proof. exact (document_round_trip j). Qed.

(** *** The bytes of a document *)

Lemma utf8_ok_start (lo hi : N) (s : string) : utf8_ok 0 lo hi s = utf8_ok 0 128 191 s.
Proof. destruct s; reflexivity. Qed.

Lemma utf8_ascii_app (a T : string) :
  ascii_only a = true -> utf8_ok 0 128 191 (a ++ T) = utf8_ok 0 128 191 T.
Proof.
  induction a as [|c a IH]; [reflexivity|]. cbn [ascii_only]. intros H.
  apply andb_prop in H as [Hc Ha].
  cbn [String.append utf8_ok]. rewrite Hc. exact (IH Ha).
Qed.

Lemma utf8_app (a T : string) :
  utf8_ok 0 128 191 T = true ->
  forall (p : nat) (lo hi : N),
    utf8_ok p lo hi a = true -> utf8_ok p lo hi (a ++ T) = true.
Proof.
  intros HT. induction a as [|c a IH]; intros p lo hi H.
  - cbn [utf8_ok] in H. apply Nat.eqb_eq in H. subst p.
    cbn [String.append]. rewrite utf8_ok_start. exact HT.
  - cbn [String.append utf8_ok] in *. destruct p.
    + repeat match goal with
             | |- context [if ?b then _ else _] => destruct b
             end; try discriminate H; apply IH; exact H.
    + apply andb_prop in H as [H1 H2]. rewrite H1. cbn [andb]. apply IH, H2.
Qed.

Lemma dumps_char_low (c : ascii) :
  N.ltb (code c) 128 = true -> ascii_only (dumps_char c) = true.
Proof.
  destruct c as [[] [] [] [] [] [] [] []]; intros H; try discriminate H; reflexivity.
Qed.

Lemma dumps_char_high (c : ascii) :
  N.ltb (code c) 128 = false -> dumps_char c = String c "".
Proof.
  destruct c as [[] [] [] [] [] [] [] []]; intros H; try discriminate H; reflexivity.
Qed.

Lemma in_range_high (lo hi n : N) :
  (128 <= lo)%N -> in_range lo hi n = true -> N.ltb n 128 = false.
Proof.
  unfold in_range. intros Hlo H. apply andb_prop in H as [H _].
  apply N.leb_le in H. apply N.ltb_ge. lia.
Qed.

Lemma utf8_dumps_chars (T : string) :
  utf8_ok 0 128 191 T = true ->
  forall (s : string) (p : nat) (lo hi : N),
    (p = 0%nat \/ (128 <= lo)%N) ->
    utf8_ok p lo hi s = true ->
    utf8_ok p lo hi (dumps_chars false 0 0 s ++ T) = true.
Proof.
  intros HT. induction s as [|c s IH]; intros p lo hi Hp H.
  - cbn [utf8_ok] in H. apply Nat.eqb_eq in H. subst p.
    cbn [dumps_chars String.append]. rewrite utf8_ok_start. exact HT.
  - rewrite dumps_chars_cons, app_string_assoc.
    destruct (N.ltb (code c) 128) eqn:Hc.
    + destruct p.
      * cbn [utf8_ok] in H. rewrite Hc in H.
        rewrite utf8_ok_start, utf8_ascii_app by (apply dumps_char_low, Hc).
        apply IH; [left; reflexivity | exact H].
      * cbn [utf8_ok] in H. apply andb_prop in H as [H1 _].
        destruct Hp as [Hp|Hp]; [discriminate Hp|].
        rewrite (in_range_high _ _ _ Hp H1) in Hc. discriminate Hc.
    + rewrite (dumps_char_high c Hc). cbn [String.append utf8_ok] in *.
      rewrite Hc in *. destruct p.
      * repeat match goal with
               | |- context [if ?b then _ else _] => destruct b
               end; try discriminate H; (apply IH; [right; lia | exact H]).
      * apply andb_prop in H as [H1 H2]. rewrite H1. cbn [andb].
        apply IH; [right; lia | exact H2].
Qed.

Lemma utf8_dumps_str (s T : string) :
  is_text s = true -> utf8_ok 0 128 191 T = true ->
  utf8_ok 0 128 191 (dumps_str false s ++ T) = true.
Proof.
  intros Hs HT. unfold dumps_str.
  change (String dquote ?X ++ T) with (String dquote (X ++ T)).
  rewrite app_string_assoc.
  change (utf8_ok 0 128 191 (String dquote ?X)) with (utf8_ok 0 128 191 X).
  apply utf8_dumps_chars; [exact HT | left; reflexivity | exact Hs].
Qed.

Lemma digit_low (c : ascii) : is_digit c = true -> N.ltb (code c) 128 = true.
Proof.
  unfold is_digit, in_range. intros H. apply andb_prop in H as [_ H].
  apply N.leb_le in H. apply N.ltb_lt. lia.
Qed.

Lemma digits_ascii (ds : string) : digits ds = true -> ascii_only ds = true.
Proof.
  induction ds as [|c r IH]; [reflexivity|]. cbn [digits ascii_only]. intros H.
  apply andb_prop in H as [Hc Hr]. rewrite (digit_low c Hc), (IH Hr). reflexivity.
Qed.

Lemma str_of_Z_ascii (z : Z) : ascii_only (str_of_Z z) = true.
Proof.
  destruct z as [|p|p].
  - reflexivity.
  - destruct (str_of_Z_pos p) as (c & ds & -> & Hc & _ & Hd & _).
    cbn [ascii_only]. rewrite (digit_low c Hc), (digits_ascii ds Hd). reflexivity.
  - rewrite str_of_Z_neg.
    destruct (str_of_Z_pos p) as (c & ds & -> & Hc & _ & Hd & _).
    cbn [ascii_only]. rewrite (digit_low c Hc), (digits_ascii ds Hd). reflexivity.
Qed.

Lemma utf8_join (texts : list string) (T : string) :
  utf8_ok 0 128 191 T = true ->
  Forall (fun t => forall T', utf8_ok 0 128 191 T' = true ->
                              utf8_ok 0 128 191 (t ++ T') = true) texts ->
  utf8_ok 0 128 191 (join ", " texts ++ T) = true.
Proof.
  intros HT. induction 1 as [|t r Ht Hr IH]; [exact HT|].
  destruct r as [|y r'].
  - cbn [join]. apply Ht, HT.
  - change (join ", " (t :: y :: r')) with (t ++ ", " ++ join ", " (y :: r')).
    rewrite !app_string_assoc. apply Ht.
    change (", " ++ ?X) with (String "," (String " " X)).
    exact IH.
Qed.

Lemma utf8_dumps (j : json) :
  unicode j = true ->
  forall T, utf8_ok 0 128 191 T = true -> utf8_ok 0 128 191 (json_dumps false j ++ T) = true.
Proof.
  induction j as [|b|z|t|s|l IHl|d IHd] using json_induction; intros Hj T HT.
  - exact HT.
  - destruct b; exact HT.
  - cbn [json_dumps]. rewrite utf8_ascii_app by apply str_of_Z_ascii. exact HT.
  - cbn [json_dumps]. apply utf8_app; [exact HT | exact Hj].
  - apply utf8_dumps_str; [exact Hj | exact HT].
  - rewrite json_dumps_list.
    change ("[" ++ ?X ++ "]") with (String "[" (X ++ "]")).
    change (String "[" ?X ++ T) with (String "[" (X ++ T)).
    rewrite app_string_assoc.
    change (utf8_ok 0 128 191 (String "[" ?X)) with (utf8_ok 0 128 191 X).
    apply utf8_join; [exact HT|].
    cbn [unicode] in Hj. clear -IHl Hj.
    induction IHl as [|y l Hy Hl IH]; cbn [map]; constructor;
      cbn [forallb] in Hj; apply andb_prop in Hj as [H1 H2].
    + exact (Hy H1).
    + exact (IH H2).
  - rewrite json_dumps_dict.
    change ("{" ++ ?X ++ "}") with (String "{" (X ++ "}")).
    change (String "{" ?X ++ T) with (String "{" (X ++ T)).
    rewrite app_string_assoc.
    change (utf8_ok 0 128 191 (String "{" ?X)) with (utf8_ok 0 128 191 X).
    apply utf8_join; [exact HT|].
    cbn [unicode] in Hj. clear -IHd Hj.
    induction IHd as [|[k v] l Hy Hl IH]; cbn [map]; constructor;
      cbn [forallb fst snd] in Hj; apply andb_prop in Hj as [H1 H2].
    + intros T' HT'. unfold member_text. cbn [fst snd] in *.
      apply andb_prop in H1 as [Hk Hv].
      rewrite !app_string_assoc. apply utf8_dumps_str; [exact Hk|].
      change (": " ++ ?X) with (String ":" (String " " X)).
      exact (Hy Hv T' HT').
    + exact (IH H2).
Qed.

Lemma decode_dumps (j : json) :
  unicode j = true -> decode_utf8 (json_dumps false j) = Ok (json_dumps false j).
Proof.
  intros Hj. unfold decode_utf8.
  pose proof (utf8_dumps j Hj "" eq_refl) as H. rewrite app_empty in H.
  rewrite H. reflexivity.
Qed.

(** *** One line *)

Lemma one_line_app (a b : string) : one_line (a ++ b) = (one_line a && one_line b)%bool.
Proof.
  induction a as [|c a IH]; [reflexivity|]. cbn [String.append one_line].
  rewrite IH, andb_assoc. reflexivity.
Qed.

Lemma one_line_dumps_char (c : ascii) : one_line (dumps_char c) = true.
Proof. destruct c as [[] [] [] [] [] [] [] []]; reflexivity. Qed.

Lemma one_line_dumps_str (s : string) : one_line (dumps_str false s) = true.
Proof.
  unfold dumps_str. cbn [one_line]. change (Ascii.eqb dquote newline) with false.
  cbn [negb andb]. rewrite one_line_app.
  replace (one_line (String dquote "")) with true by reflexivity.
  rewrite andb_true_r.
  induction s as [|c s IH]; [reflexivity|].
  rewrite dumps_chars_cons, one_line_app, one_line_dumps_char, IH. reflexivity.
Qed.

Lemma one_line_ascii_digits (ds : string) : digits ds = true -> one_line ds = true.
Proof.
  induction ds as [|c r IH]; [reflexivity|]. cbn [digits one_line]. intros H.
  apply andb_prop in H as [Hc Hr]. rewrite (IH Hr), andb_true_r.
  destruct c as [[] [] [] [] [] [] [] []]; try discriminate Hc; reflexivity.
Qed.

Lemma one_line_str_of_Z (z : Z) : one_line (str_of_Z z) = true.
Proof.
  assert (Hpos : forall p, one_line (str_of_Z (Zpos p)) = true).
  { intros p. destruct (str_of_Z_pos p) as (c & ds & E & Hc & _ & Hd & _).
    rewrite E. apply (one_line_ascii_digits (String c ds)).
    cbn [digits]. rewrite Hc, Hd. reflexivity. }
  destruct z as [|p|p]; [reflexivity | apply Hpos |].
  rewrite str_of_Z_neg. cbn [one_line]. rewrite Hpos. reflexivity.
Qed.

Lemma one_line_positional (t : string) : positional t = true -> one_line t = true.
Proof.
  assert (Hu : forall u, unsigned_positional u = true -> one_line u = true).
  { intros u H.
    destruct (unsigned_positional_parts u H) as (c & ds & fd & -> & Hc & Hd & _ & Hfd & _).
    rewrite one_line_app. cbn [one_line]. change (Ascii.eqb "." newline) with false.
    cbn [negb andb]. rewrite (one_line_ascii_digits fd Hfd), andb_true_r.
    apply (one_line_ascii_digits (String c ds)). cbn [digits]. rewrite Hc, Hd. reflexivity. }
  intros Ht. destruct (positional_cases t Ht) as [H|[u [-> H]]]; [exact (Hu t H)|].
  cbn [one_line]. rewrite (Hu u H). reflexivity.
Qed.

Lemma one_line_join (texts : list string) :
  Forall (fun t => one_line t = true) texts -> one_line (join ", " texts) = true.
Proof.
  induction 1 as [|t r Ht Hr IH]; [reflexivity|].
  destruct r as [|y r']; [exact Ht|].
  change (join ", " (t :: y :: r')) with (t ++ ", " ++ join ", " (y :: r')).
  rewrite !one_line_app, Ht, IH. reflexivity.
Qed.

Lemma one_line_dumps (j : json) : document j = true -> one_line (json_dumps false j) = true.
Proof.
  induction j as [|b|z|t|s|l IHl|d IHd] using json_induction; intros Hj.
  - reflexivity.
  - destruct b; reflexivity.
  - apply one_line_str_of_Z.
  - apply one_line_positional, Hj.
  - apply one_line_dumps_str.
  - rewrite json_dumps_list, !one_line_app, one_line_join; [reflexivity|].
    cbn [document] in Hj. clear -IHl Hj.
    induction IHl as [|y l Hy Hl IH]; cbn [map]; constructor;
      cbn [forallb] in Hj; apply andb_prop in Hj as [H1 H2]; auto.
  - rewrite json_dumps_dict, !one_line_app, one_line_join; [reflexivity|].
    cbn [document] in Hj. apply andb_prop in Hj as [_ Hj]. clear -IHd Hj.
    induction IHd as [|[k v] l Hy Hl IH]; cbn [map]; constructor;
      cbn [forallb fst snd] in Hj; apply andb_prop in Hj as [H1 H2]; auto.
    unfold member_text. cbn [fst snd] in *.
    rewrite !one_line_app, one_line_dumps_str, (Hy H1). reflexivity.
Qed.

(** *** The sentinel *)

Lemma prefix_refl (s T : string) : String.prefix s (s ++ T) = true.
Proof.
  induction s as [|c s IH]; cbn [String.append String.prefix].
  - destruct T; reflexivity.
  - destruct (ascii_dec c c); [exact IH | congruence].
Qed.

Lemma contains_app_right (m s : string) : contains m (s ++ m) = true.
Proof.
  induction s as [|c s IH].
  - cbn [String.append]. destruct m as [|c m]; [reflexivity|].
    cbn [contains]. pose proof (prefix_refl (String c m) "") as H.
    rewrite app_empty in H. rewrite H. reflexivity.
  - cbn [String.append contains]. rewrite IH. apply orb_true_r.
Qed.

Lemma prefix_END_MARK (c : ascii) (r : string) :
  Ascii.eqb c newline = false -> String.prefix END_MARK (String c r) = false.
Proof.
  intros H. unfold END_MARK, nl. cbn [String.append String.prefix].
  destruct (ascii_dec newline c) as [E|E]; [|reflexivity].
  subst c. discriminate H.
Qed.

Lemma contains_one_line (s : string) : one_line s = true -> contains END_MARK s = false.
Proof.
  induction s as [|c s IH]; [reflexivity|]. cbn [one_line contains]. intros H.
  apply andb_prop in H as [Hc Hs]. apply negb_true_iff in Hc.
  rewrite (prefix_END_MARK c s Hc), (IH Hs). reflexivity.
Qed.

Lemma replace_END_MARK (s : string) :
  one_line s = true -> replace END_MARK "" (s ++ END_MARK) = s.
Proof.
  unfold replace. induction s as [|c s IH]; intros H.
  - vm_compute. reflexivity.
  - cbn [one_line] in H. apply andb_prop in H as [Hc Hs]. apply negb_true_iff in Hc.
    cbn [String.append replace_from].
    rewrite (prefix_END_MARK c (s ++ END_MARK) Hc), andb_false_r, (IH Hs). reflexivity.
Qed.

Lemma dumps_nonempty (j : json) : document j = true -> nonempty (json_dumps false j) = true.
Proof.
  intros Hj. pose proof (dumps_opens j "" Hj) as H. rewrite app_empty in H.
  destruct (json_dumps false j); [discriminate H | reflexivity].
Qed.

Lemma loads_dumps (j : json) :
  document j = true -> unicode j = true -> loads_bytes (json_dumps false j) = Ok j.
Proof.
  intros Hd Hu. unfold loads_bytes. rewrite (decode_dumps j Hu). apply document_round_trip, Hd.
Qed.

Lemma receive_request (request : json) (tail : list recv_event) :
  document request = true -> unicode request = true ->
  receive "" (Recv (json_dumps false request ++ END_MARK) :: tail)
  = Ok (json_dumps false request)
  /\ receive "" (Recv (json_dumps false request) :: tail) = Ok (json_dumps false request).
Proof.
  intros Hd Hu. pose proof (dumps_nonempty request Hd) as Hn. split.
  - cbn [receive String.append].
    assert (Hne : nonempty (json_dumps false request ++ END_MARK) = true).
    { destruct (json_dumps false request); [discriminate Hn | reflexivity]. }
    rewrite Hne. cbn [negb]. rewrite contains_app_right.
    rewrite replace_END_MARK by (apply one_line_dumps, Hd). reflexivity.
  - cbn [receive String.append]. rewrite Hn. cbn [negb].
    rewrite contains_one_line by (apply one_line_dumps, Hd).
    rewrite (loads_dumps request Hd Hu). reflexivity.
Qed.

(** X12. The text of a document holds no line feed, hence never the
    sentinel: the sentinel found in the bytes of a request is the one the
    caller put after the document, and taking it out leaves the document.
    The bytes of the document are well-formed UTF-8 when its strings are. *)
Theorem X12_sentinel_not_in_a_document (j : json) :
  document j = true ->
  one_line (json_dumps false j) = true
  /\ contains END_MARK (json_dumps false j) = false
  /\ contains END_MARK (json_dumps false j ++ END_MARK) = true
  /\ replace END_MARK "" (json_dumps false j ++ END_MARK) = json_dumps false j
  /\ (unicode j = true -> loads_bytes (json_dumps false j) = Ok j).
Proof.
  intros Hj. pose proof (one_line_dumps j Hj) as Hl.
  split; [exact Hl|]. split; [exact (contains_one_line _ Hl)|].
  split; [apply contains_app_right|]. split; [exact (replace_END_MARK _ Hl)|].
  intros Hu. exact (loads_dumps j Hj Hu).
Qed.

(** ** What the supervisor does to the world *)

Lemma reached_app (t u : list effect) :
  reached_count (t ++ u) = reached_count t + reached_count u.
Proof. unfold reached_count. rewrite filter_app, length_app. reflexivity. Qed.

Lemma spawn_app (t u : list effect) :
  spawn_count (t ++ u) = spawn_count t + spawn_count u.
Proof. unfold spawn_count. rewrite filter_app, length_app. reflexivity. Qed.



Lemma adds_refl (w : world) : adds w w 0 0.
Proof. split; lia. Qed.

Lemma adds_trans (a b c : world) (r1 s1 r2 s2 : nat) :
  adds a b r1 s1 -> adds b c r2 s2 -> adds a c (r1 + r2) (s1 + s2).
Proof. intros [H1 H2] [H3 H4]. split; lia. Qed.

Lemma adds_log (e : effect) (w : world) :
  adds w (log e w)
       (match e with Connect true => 1 | _ => 0 end)
       (match e with Spawn _ => 1 | _ => 0 end).
Proof.
  unfold adds, log. cbn [trace]. rewrite reached_app, spawn_app.
  destruct e as [[]| | | | |]; split; reflexivity.
Qed.

Lemma adds_sleep (ms : Z) (w : world) : adds w (sleep ms w) 0 0.
Proof. unfold sleep. exact (adds_log (Sleep ms) (tick ms w)). Qed.

Lemma adds_print (msg : string) (w : world) : adds w (print msg w) 0 0.
Proof. exact (adds_log (Printed msg) w). Qed.

Lemma adds_terminate (pid : nat) (w : world) : adds w (terminate pid w) 0 0.
Proof. exact (adds_log (Terminate pid) w). Qed.

Lemma adds_connect (w : world) :
  adds w (snd (connect w))
       (match fst (connect w) with Connected _ => 1 | ConnectRaise _ => 0 end) 0.
Proof.
  unfold connect. destruct (connects w) as [|[q|e] rest]; cbn [fst snd].
  - exact (adds_log (Connect false) w).
  - exact (adds_log (Connect true) _).
  - exact (adds_log (Connect false) _).
Qed.

Lemma adds_poll (w : world) : adds w (snd (poll w)) 0 0.
Proof. unfold adds. rewrite (sends_poll w). lia. Qed.

Lemma adds_Popen (w : world) : adds w (snd (Popen w)) 0 1.
Proof. unfold Popen. cbn [snd]. exact (adds_log (Spawn _) _). Qed.

Lemma adds_set_process (p : option nat) (w w' : world) (r s : nat) :
  adds w w' r s -> adds w (set_process p w') r s.
Proof. intros H. exact H. Qed.

Lemma adds_wait_for_kernel (n : nat) (w : world) :
  adds w (snd (wait_for_kernel n w))
       (if fst (wait_for_kernel n w) then 1 else 0) 0.
Proof.
  revert w. induction n as [|n IH]; intros w; cbn [wait_for_kernel].
  - cbn [fst snd]. apply adds_print.
  - pose proof (adds_connect (sleep 200 w)) as Hc.
    pose proof (adds_trans _ _ _ _ _ _ _ (adds_sleep 200 w) Hc) as Hc'. clear Hc.
    destruct (connect (sleep 200 w)) as [[q|e] w1]; cbn [fst snd] in *.
    + exact (adds_trans _ _ _ _ _ _ _ Hc' (adds_print _ w1)).
    + pose proof (adds_poll w1) as Hp.
      destruct (poll w1) as [[rc|] w2]; cbn [fst snd] in *.
      * exact (adds_trans _ _ _ _ _ _ _ (adds_trans _ _ _ _ _ _ _ Hc' Hp) (adds_print _ w2)).
      * exact (adds_trans _ _ _ _ _ _ _ (adds_trans _ _ _ _ _ _ _ Hc' Hp) (IH w2)).
Qed.

Lemma start_kernel_adds (w : world) :
  exists spawned,
    spawned <= 1
    /\ adds w (snd (_start_kernel w)) (if fst (_start_kernel w) then 1 else 0) spawned
    /\ (script_exists w = false -> fst (_start_kernel w) = false /\ spawned = 0)
    /\ (forall p rest, script_exists w = true -> connects w = Connected p :: rest ->
          spawned = 0).
Proof.
  unfold _start_kernel. destruct (script_exists w); cbn [negb].
  - pose proof (adds_connect w) as Hc.
    destruct (connect w) as [[q|e] w1] eqn:Hcn; cbn [fst snd] in *.
    + exists 0. split; [lia|]. split.
      * exact (adds_trans _ _ _ _ _ _ _ Hc (adds_print _ w1)).
      * split; [discriminate | reflexivity].
    + set (w2 := match KERNEL_PROCESS w1 with
                 | Some p0 =>
                     match poll w1 with
                     | (None, w') => set_process None (terminate p0 w')
                     | (Some _, w') => set_process None w'
                     end
                 | None => w1
                 end).
      assert (H2 : adds w w2 0 0).
      { subst w2. destruct (KERNEL_PROCESS w1); [|exact Hc].
        pose proof (adds_poll w1) as Hp.
        destruct (poll w1) as [[rc|] w']; cbn [fst snd] in *.
        - exact (adds_trans _ _ _ _ _ _ _ Hc Hp).
        - exact (adds_trans _ _ _ _ _ _ _ (adds_trans _ _ _ _ _ _ _ Hc Hp)
                   (adds_terminate n w')). }
      pose proof (adds_Popen w2) as Hs.
      exists 1. split; [lia|]. split; [|split].
      * destruct (Popen w2) as [[pid|e'] w3]; cbn [fst snd] in *.
        -- pose proof (adds_wait_for_kernel 50 (set_process (Some pid) w3)) as Hw.
           exact (adds_trans _ _ _ _ _ _ _ (adds_trans _ _ _ _ _ _ _ H2 Hs) Hw).
        -- exact (adds_trans _ _ _ _ _ _ _ (adds_trans _ _ _ _ _ _ _ H2 Hs)
                    (adds_print _ w3)).
      * discriminate.
      * intros p rest _ Hk. unfold connect in Hcn. rewrite Hk in Hcn. discriminate Hcn.
  - cbn [fst snd]. exists 0. split; [lia|]. split; [apply adds_print|].
    split; [auto | discriminate].
Qed.

(** X17. [_start_kernel] reports success exactly when one probe of the
    endpoint connected during the call, and then it stops probing; it
    starts one process at most, and none when the script is missing or
    the first probe connects. *)
Theorem X17_start_kernel_outcome (w : world) :
  let r := _start_kernel w in
  reached_count (trace (snd r)) = reached_count (trace w) + (if fst r then 1 else 0)
  /\ spawn_count (trace (snd r)) <= spawn_count (trace w) + 1
  /\ (script_exists w = false ->
        fst r = false /\ spawn_count (trace (snd r)) = spawn_count (trace w)).
Proof.
  cbv zeta. destruct (start_kernel_adds w) as (s & Hs & [Hr Hsp] & Hmiss & _).
  split; [exact Hr|]. split; [lia|].
  intros Hx. destruct (Hmiss Hx) as [Hf ->]. split; [exact Hf | lia].
Qed.

Lemma is_kernel_running_adds (w : world) :
  let r := _is_kernel_running w in
  exists reached,
    adds w (snd r) reached 0
    /\ (fst r = false -> reached = 0 /\ KERNEL_PROCESS (snd r) = None)
    /\ (fst r = true -> reached = 1 \/ exists pid, KERNEL_PROCESS (snd r) = Some pid).
Proof.
  cbv zeta. unfold _is_kernel_running. pose proof (adds_connect w) as Hc.
  destruct (connect w) as [[q|e] w1]; cbn [fst snd] in *.
  - exists 1. split; [exact Hc|]. split; [discriminate | auto].
  - destruct (KERNEL_PROCESS w1) as [pid|] eqn:Hp.
    + pose proof (adds_poll w1) as Hpl.
      assert (Hkp : KERNEL_PROCESS (snd (poll w1)) = Some pid) by exact Hp.
      destruct (poll w1) as [[rc|] w2]; cbn [fst snd] in *.
      * exists 0. split; [exact (adds_trans _ _ _ _ _ _ _ Hc Hpl)|].
        split; [auto | discriminate].
      * exists 0. split; [exact (adds_trans _ _ _ _ _ _ _ Hc Hpl)|].
        split; [discriminate|]. intros _. right. exists pid. exact Hkp.
    + exists 0. split; [exact Hc|]. split; [auto | discriminate].
Qed.

(** X18. [_is_kernel_running] starts nothing and sends nothing.  When it
    answers no, no probe connected and no process is left on record; when
    it answers yes, the probe connected or a process is on record. *)
Theorem X18_running_check (w : world) :
  let r := _is_kernel_running w in
  spawn_count (trace (snd r)) = spawn_count (trace w)
  /\ sends (trace (snd r)) = sends (trace w)
  /\ (fst r = false ->
        reached_count (trace (snd r)) = reached_count (trace w)
        /\ KERNEL_PROCESS (snd r) = None)
  /\ (fst r = true ->
        reached_count (trace (snd r)) = S (reached_count (trace w))
        \/ exists pid, KERNEL_PROCESS (snd r) = Some pid).
Proof.
  cbv zeta. destruct (is_kernel_running_adds w) as (n & [Hr Hs] & Hno & Hyes).
  split; [lia|]. split; [apply sends_is_kernel_running|]. split.
  - intros Hf. destruct (Hno Hf) as [-> Hp]. split; [lia | exact Hp].
  - intros Ht. destruct (Hyes Ht) as [->|Hp]; [left; lia | right; exact Hp].
Qed.

(** ** What the caller lets out *)

Lemma ensure_running_raise (w w' : world) (e : exc) :
  ensure_running w = (Raise e, w') -> e = START_FAILED /\ KERNEL_PROCESS w' = None.
Proof.
  unfold ensure_running.
  destruct (_is_kernel_running w) as [[|] w1]; [discriminate|].
  destruct (is_kernel_running_adds (start_attempts 3 w1)) as (n & _ & Hno & _).
  cbv zeta in Hno.
  destruct (_is_kernel_running (start_attempts 3 w1)) as [[|] w2]; [discriminate|].
  intros H. inversion H; subst. split; [reflexivity|]. exact (proj2 (Hno eq_refl)).
Qed.

Lemma on_failure_raise (timeout : Z) (e e' : exc) :
  on_failure timeout e = Raise e' -> is_Exception e' = false.
Proof.
  unfold on_failure.
  destruct (String.eqb _ "TimeoutError"); [discriminate|].
  destruct (String.eqb _ "ConnectionRefusedError"); [discriminate|].
  destruct (is_Exception e) eqn:He; [discriminate|].
  intros H. inversion H; subst. exact He.
Qed.

Lemma caught_raise (timeout : Z) (r : outcome string * world) (e : exc) :
  fst (caught timeout r) = Raise e -> is_Exception e = false.
Proof.
  destruct r as [[text|e0] w]; cbn [caught fst]; [discriminate|].
  apply on_failure_raise.
Qed.

Lemma caught_world (timeout : Z) (r : outcome string * world) :
  snd (caught timeout r) = snd r.
Proof. destruct r as [[text|e0] w]; reflexivity. Qed.

(** One run of the body: what it sends beyond the call it makes to itself,
    and what it lets out. *)
Lemma body_bounds (self : string -> Z -> bool -> world -> outcome string * world)
      (n : nat) (code : string) (timeout : Z) (_retry : bool) (w : world) :
  (forall c t r w0, sends (trace (snd (self c t r w0))) <= sends (trace w0) + n) ->
  let r := execute_in_kernel_body self code timeout _retry w in
  sends (trace (snd r)) <= sends (trace w) + (if _retry then S n else 1)
  /\ (forall e, fst r = Raise e -> e = START_FAILED \/ is_Exception e = false).
Proof.
  intros Hself. cbv zeta. unfold execute_in_kernel_body.
  pose proof (sends_ensure_running w) as H1.
  destruct (ensure_running w) as [[[]|e] w1] eqn:He; cbn [fst snd] in H1.
  2:{ cbn [fst snd]. split; [destruct _retry; lia|].
      intros e' H. inversion H; subst. left.
      exact (proj1 (ensure_running_raise _ _ _ He)). }
  pose proof (sends_connect w1) as H2.
  destruct (connect w1) as [[p|e] w2]; cbn [fst snd] in H2.
  2:{ cbn [fst snd]. split; [destruct _retry; lia|].
      intros e' H. right. exact (on_failure_raise _ _ _ H). }
  destruct (send_error p) as [e|].
  { cbn [fst snd]. split; [destruct _retry; lia|].
    intros e' H. right. exact (on_failure_raise _ _ _ H). }
  cbv zeta.
  set (w3 := log (Send (json_dumps false (JDict [("code", JStr code)]) ++ END_MARK)) w2).
  assert (H3 : sends (trace w3) = S (sends (trace w))).
  { subst w3. unfold log. cbn [trace]. rewrite sends_app, H2, H1. cbn. lia. }
  pose proof (recv_response_trace timeout (clock w3) (answers p) "" w3) as H4.
  destruct (recv_response timeout (clock w3) "" (answers p) w3) as [[response| |e] w4];
    cbn [fst snd] in H4.
  - destruct (nonempty response); cbn [negb].
    + destruct (loads_bytes response) as [result|e].
      * destruct (format_result result) as [text|e]; cbn [fst snd];
          (split; [rewrite H4, H3; destruct _retry; lia|]);
          [discriminate | intros e' H; right; exact (on_failure_raise _ _ _ H)].
      * cbn [fst snd]. split; [rewrite H4, H3; destruct _retry; lia|].
        intros e' H. right. exact (on_failure_raise _ _ _ H).
    + destruct _retry.
      * rewrite caught_world. split.
        -- specialize (Hself code timeout false (sleep 3000 w4)).
           rewrite sends_sleep, H4, H3 in Hself. lia.
        -- intros e' H. right. exact (caught_raise _ _ _ H).
      * cbn [fst snd]. split; [rewrite H4, H3; lia | discriminate].
  - cbn [fst snd]. split; [rewrite H4, H3; destruct _retry; lia | discriminate].
  - cbn [fst snd]. split; [rewrite H4, H3; destruct _retry; lia|].
    intros e' H. right. exact (on_failure_raise _ _ _ H).
Qed.

(** X16. Whatever the world does, [_execute_in_kernel] puts two requests on
    the wire at most, one when the retry is off, and the only [Exception]
    it lets out is the one that says the kernel could not be started. *)
Theorem X16_caller_is_bounded (code : string) (timeout : Z) (_retry : bool) (w : world) :
  let r := _execute_in_kernel code timeout _retry w in
  sends (trace (snd r)) <= sends (trace w) + (if _retry then 2 else 1)
  /\ (forall e, fst r = Raise e -> e = START_FAILED \/ is_Exception e = false).
Proof.
  cbv zeta. unfold _execute_in_kernel.
  apply (body_bounds (execute_in_kernel_body no_further_call) 1).
  intros c t r w0.
  destruct (body_bounds no_further_call 0 c t r w0) as [H _].
  - intros c' t' r' w'. cbn. lia.
  - cbv zeta in H. destruct r; lia.
Qed.

(** ** The command caller *)

Lemma recv_all_trace (events : list (Z * recv_event)) (response : string) (w : world) :
  trace (snd (recv_all response events w)) = trace w.
Proof.
  revert response w. induction events as [|[dt ev] rest IH]; intros response w;
    cbn [recv_all]; [reflexivity|].
  destruct ev as [chunk| |e]; try reflexivity.
  destruct (nonempty chunk); cbn [negb]; [rewrite IH|]; reflexivity.
Qed.

Lemma on_command_failure_raise (last : bool) (e e' : exc) :
  on_command_failure last e = Return (Raise e') -> is_Exception e' = false.
Proof.
  unfold on_command_failure.
  destruct (String.eqb _ "ConnectionRefusedError"); [destruct last; discriminate|].
  destruct (String.eqb _ "ConnectionResetError"); [destruct last; discriminate|].
  destruct (is_Exception e) eqn:He; [discriminate|].
  intros H. inversion H; subst. exact He.
Qed.

(** An attempt sends one request at most, and lets no [Exception] out. *)
Lemma command_attempts_bounds (request : string) (n : nat) :
  forall w : world,
    sends (trace (snd (command_attempts n request w))) <= sends (trace w) + n
    /\ (forall e, fst (command_attempts n request w) = Raise e -> is_Exception e = false).
Proof.
  induction n as [|m IH]; intros w; cbn [command_attempts].
  - cbn [fst snd]. split; [lia | discriminate].
  - assert (Hfail : forall e w',
               sends (trace w') <= sends (trace w) + 1 ->
               let r := match on_command_failure (Nat.eqb m 0) e with
                        | Retry ms => command_attempts m request (sleep ms w')
                        | Return r => (r, w')
                        end in
               sends (trace (snd r)) <= sends (trace w) + S m
               /\ (forall e', fst r = Raise e' -> is_Exception e' = false)).
    { intros e w' Hw'. cbv zeta.
      destruct (on_command_failure (Nat.eqb m 0) e) as [ms|r] eqn:Hv.
      - destruct (IH (sleep ms w')) as [H1 H2]. rewrite sends_sleep in H1.
        split; [lia | exact H2].
      - cbn [fst snd]. split; [lia|]. intros e' ->.
        exact (on_command_failure_raise _ _ _ Hv). }
    pose proof (sends_connect w) as Hc.
    destruct (connect w) as [[p|e] w1]; cbn [fst snd] in Hc.
    + destruct (send_error p) as [e|].
      * apply Hfail. lia.
      * cbv zeta.
        pose proof (recv_all_trace (answers p) ""
                      (log (Send (request ++ END_MARK)) w1)) as Hr.
        assert (Hs : sends (trace (log (Send (request ++ END_MARK)) w1))
                     = sends (trace w) + 1).
        { unfold log. cbn [trace]. rewrite sends_app, Hc. reflexivity. }
        destruct (recv_all "" (answers p) (log (Send (request ++ END_MARK)) w1))
          as [[response|e] w3]; cbn [fst snd] in Hr.
        -- destruct (nonempty response); cbn [negb].
           ++ destruct (loads_bytes response) as [result|e].
              ** cbn [fst snd]. rewrite Hr, Hs. split; [lia | discriminate].
              ** apply Hfail. rewrite Hr, Hs. lia.
           ++ destruct (Nat.eqb m 0).
              ** cbn [fst snd]. rewrite Hr, Hs. split; [lia | discriminate].
              ** destruct (IH (sleep 1000 w3)) as [H1 H2]. rewrite sends_sleep in H1.
                 rewrite Hr, Hs in H1. split; [lia | exact H2].
        -- apply Hfail. rewrite Hr, Hs. lia.
    + apply Hfail. lia.
Qed.

(** X19. [_send_kernel_command] puts three requests on the wire at most, and
    no [Exception] leaves it: what goes wrong comes back as a document. *)
Theorem X19_command_is_bounded (action : string) (kwargs : list (string * json)) (w : world) :
  let r := _send_kernel_command action kwargs w in
  sends (trace (snd r)) <= sends (trace w) + 3
  /\ (forall e, fst r = Raise e -> is_Exception e = false).
Proof.
  cbv zeta. unfold _send_kernel_command.
  destruct (KERNEL_PROCESS w).
  - apply command_attempts_bounds.
  - pose proof (sends_start_kernel w) as Hs.
    destruct (_start_kernel w) as [[|] w1]; cbn [fst snd] in Hs.
    + rewrite <- Hs. apply command_attempts_bounds.
    + cbn [fst snd]. split; [lia | discriminate].
Qed.

Lemma attempt_refused (n : nat) (request : string) (w : world) :
  connects w = [] ->
  command_attempts (S n) request w
  = if Nat.eqb n 0
    then (Ok (command_error "Kernel 未啟動或連線被拒絕"), log (Connect false) w)
    else command_attempts n request (sleep 1000 (log (Connect false) w)).
Proof.
  intros Hc. cbn [command_attempts]. unfold connect. rewrite Hc.
  unfold on_command_failure, refused. cbn [exc_class]. rewrite String.eqb_refl.
  destruct (Nat.eqb n 0); reflexivity.
Qed.

Lemma trace_log (e : effect) (w : world) : trace (log e w) = (trace w ++ [e])%list.
Proof. reflexivity. Qed.

Lemma trace_sleep (ms : Z) (w : world) : trace (sleep ms w) = (trace w ++ [Sleep ms])%list.
Proof. reflexivity. Qed.

Lemma clock_log (e : effect) (w : world) : clock (log e w) = clock w.
Proof. reflexivity. Qed.

Lemma clock_sleep (ms : Z) (w : world) : clock (sleep ms w) = (clock w + ms)%Z.
Proof. reflexivity. Qed.

Lemma refused_thrice (request : string) (w : world) :
  connects w = [] ->
  command_attempts 3 request w
  = (Ok (command_error "Kernel 未啟動或連線被拒絕"),
     log (Connect false) (sleep 1000 (log (Connect false)
                                          (sleep 1000 (log (Connect false) w))))).
Proof.
  intros Hc.
  rewrite attempt_refused by exact Hc. cbn [Nat.eqb].
  rewrite attempt_refused by exact Hc. cbn [Nat.eqb].
  rewrite attempt_refused by exact Hc. reflexivity.
Qed.

(** X20. When nothing listens at the endpoint, and a process is on record,
    [_send_kernel_command] tries to connect three times, one second apart,
    and reports the refusal; nothing is sent. *)
Theorem X20_command_refused (action : string) (kwargs : list (string * json)) (w : world)
        (pid : nat) :
  KERNEL_PROCESS w = Some pid -> connects w = [] ->
  let r := _send_kernel_command action kwargs w in
  fst r = Ok (command_error "Kernel 未啟動或連線被拒絕")
  /\ trace (snd r)
     = (trace w ++ [Connect false; Sleep 1000; Connect false; Sleep 1000; Connect false])%list
  /\ clock (snd r) = (clock w + 2000)%Z.
Proof.
  intros Hp Hc. cbv zeta. unfold _send_kernel_command. rewrite Hp.
  rewrite (refused_thrice _ w Hc). cbn [fst snd].
  split; [reflexivity|]. split.
  - repeat (rewrite trace_log || rewrite trace_sleep). rewrite <- !app_assoc. reflexivity.
  - repeat (rewrite clock_log || rewrite clock_sleep). lia.
Qed.

(** ** The wire between the caller and the kernel *)

Section Wire.

Variable python : interpreter.
Variable sys_getsizeof : value -> option Z.
Variable exec : json -> kernel -> kernel * option exc.

(** The dispatcher, given the bytes of a document and the sentinel in one
    read, routes that document. *)
Lemma handle_client_routes (request : json) (tail : list recv_event) (fails : bool)
      (env : probe) (k : kernel) :
  document request = true -> unicode request = true ->
  let conn := mkConnection (Recv (json_dumps false request ++ END_MARK) :: tail) fails in
  handle_client python sys_getsizeof exec conn env k
  = match route python sys_getsizeof exec env request k with
    | (Ok result, k') => mkHandled (sendall conn (json_dumps false result)) None k'
    | (Raise e, k') => on_exception conn e k'
    end.
Proof.
  intros Hd Hu conn. unfold handle_client. subst conn. cbn [incoming].
  rewrite (proj1 (receive_request request tail Hd Hu)).
  rewrite (dumps_nonempty request Hd). cbn [negb].
  rewrite (loads_dumps request Hd Hu). reflexivity.
Qed.

Lemma code_request_document (code : string) :
  document (JDict [("code", JStr code)]) = true.
Proof. reflexivity. Qed.

Lemma code_request_unicode (code : string) :
  is_text code = true -> unicode (JDict [("code", JStr code)]) = true.
Proof. intros H. cbn [unicode forallb fst snd]. rewrite H. reflexivity. Qed.

Lemma route_code (env : probe) (code : string) (k : kernel) :
  route python sys_getsizeof exec env (JDict [("code", JStr code)]) k
  = execute_code exec (JStr code) k.
Proof. reflexivity. Qed.

(** X13. The request [_execute_in_kernel] writes for a piece of code, read by
    the dispatcher in one piece, makes it run that code: the answer is the
    document [execute_code] returns, and an exception that leaves
    [execute_code] goes the way of any other. *)
Theorem X13_code_request_is_executed (code : string) (tail : list recv_event) (fails : bool)
        (env : probe) (k : kernel) :
  is_text code = true ->
  let conn := mkConnection
                (Recv (json_dumps false (JDict [("code", JStr code)]) ++ END_MARK) :: tail)
                fails in
  handle_client python sys_getsizeof exec conn env k
  = match execute_code exec (JStr code) k with
    | (Ok result, k') => mkHandled (sendall conn (json_dumps false result)) None k'
    | (Raise e, k') => on_exception conn e k'
    end.
Proof.
  intros Hc conn. subst conn. rewrite <- route_code with (env := env).
  apply handle_client_routes; [apply code_request_document | apply code_request_unicode, Hc].
Qed.

(** The receiving loop of the caller stops at a read that brings a whole
    document. *)
Lemma recv_response_document (timeout : Z) (result : json) (dt : Z)
      (rest : list (Z * recv_event)) (w : world) :
  (0 <= timeout)%Z -> document result = true -> unicode result = true ->
  recv_response timeout (clock w) "" ((dt, Recv (json_dumps false result)) :: rest) w
  = (Broke (json_dumps false result), tick dt w).
Proof.
  intros Ht Hd Hu. cbn [recv_response].
  replace (timeout * 1000 <? clock w - clock w)%Z with false
    by (symmetry; apply Z.ltb_ge; lia).
  rewrite (dumps_nonempty result Hd). cbn [negb String.append].
  rewrite (loads_dumps result Hd Hu). reflexivity.
Qed.

Lemma body_reads_document
      (self : string -> Z -> bool -> world -> outcome string * world)
      (code : string) (timeout : Z) (_retry : bool) (w w1 w2 : world) (p : peer)
      (result : json) (dt : Z) (rest : list (Z * recv_event)) :
  ensure_running w = (Ok tt, w1) -> connect w1 = (Connected p, w2) ->
  send_error p = None -> (0 <= timeout)%Z ->
  document result = true -> unicode result = true ->
  answers p = (dt, Recv (json_dumps false result)) :: rest ->
  execute_in_kernel_body self code timeout _retry w
  = (match format_result result with
     | Ok text => Ok text
     | Raise e => on_failure timeout e
     end,
     tick dt (log (Send (json_dumps false (JDict [("code", JStr code)]) ++ END_MARK)) w2)).
Proof.
  intros He Hc Hs Ht Hd Hu Ha. unfold execute_in_kernel_body.
  rewrite He, Hc, Hs, Ha. cbv zeta.
  rewrite (recv_response_document timeout result dt rest _ Ht Hd Hu).
  rewrite (dumps_nonempty result Hd). cbn [negb].
  rewrite (loads_dumps result Hd Hu).
  destruct (format_result result); reflexivity.
Qed.

(** X14. When the kernel answers a request with one document, in one piece,
    [_execute_in_kernel] returns the text [format_result] makes of that
    document, whatever its retry flag; a failure of the formatting meets
    the [except] clauses.  One request went on the wire. *)
Theorem X14_caller_shows_the_answer
        (code : string) (timeout : Z) (_retry : bool) (w w1 w2 : world) (p : peer)
        (result : json) (dt : Z) (rest : list (Z * recv_event)) :
  ensure_running w = (Ok tt, w1) -> connect w1 = (Connected p, w2) ->
  send_error p = None -> (0 <= timeout)%Z ->
  document result = true -> unicode result = true ->
  answers p = (dt, Recv (json_dumps false result)) :: rest ->
  let w' := tick dt (log (Send (json_dumps false (JDict [("code", JStr code)]) ++ END_MARK))
                         w2) in
  _execute_in_kernel code timeout _retry w
  = (match format_result result with
     | Ok text => Ok text
     | Raise e => on_failure timeout e
     end, w')
  /\ sends (trace w') = S (sends (trace w)).
Proof.
  intros He Hc Hs Ht Hd Hu Ha w'. split.
  - unfold _execute_in_kernel. subst w'.
    apply (body_reads_document _ code timeout _retry w w1 w2 p result dt rest);
      assumption.
  - subst w'. change (trace (tick dt ?x)) with (trace x).
    rewrite trace_log, sends_app.
    pose proof (sends_ensure_running w) as H1. rewrite He in H1. cbn [snd] in H1.
    pose proof (sends_connect w1) as H2. rewrite Hc in H2. cbn [snd] in H2.
    rewrite H2, H1. unfold sends at 2. cbn. lia.
Qed.

(** The document [execute_code] returns. *)
Lemma execute_code_document (code : json) (k k' : kernel) (result : json) :
  execute_code exec code k = (Ok result, k') ->
  exists (success : bool) (out err : string) (error : json),
    result = execute_result success out err error
    /\ (error = JNull \/ exists m, error = JStr m).
Proof.
  rewrite execute_code_unfold.
  destruct (exec code (capturing k)) as [k4 [e|]];
    destruct (captured k k4) as [[out err]|x].
  - destruct (is_Exception e); [|discriminate].
    intros H. inversion H; subst. do 4 eexists. split; [reflexivity|].
    right. eexists. reflexivity.
  - destruct (is_Exception e); discriminate.
  - intros H. inversion H; subst. do 4 eexists. split; [reflexivity|].
    left. reflexivity.
  - discriminate.
Qed.

Lemma execute_result_document (success : bool) (out err : string) (error : json) :
  (error = JNull \/ exists m, error = JStr m) ->
  document (execute_result success out err error) = true.
Proof. intros [->|[m ->]]; reflexivity. Qed.

(** What [format_result] makes of a document of [execute_code]. *)
Lemma format_execute_result (success : bool) (out err : string) (error : json) :
  (error = JNull \/ exists m, error = JStr m) ->
  exists text, format_result (execute_result success out err error) = Ok text.
Proof.
  intros He. unfold format_result, execute_result, with_part, subscript.
  cbn [dict_get String.eqb Ascii.eqb Bool.eqb truthy].
  destruct success; cbn; eexists; reflexivity.
Qed.

(** X15. A call of [_execute_in_kernel] served by the kernel: the request it
    writes is read by [handle_client], which runs the code and answers with
    the document of [execute_code]; the caller reads that document back and
    returns the text [format_result] makes of it, which never fails on such
    a document.  The kernel is left in the state [execute_code] left. *)
Theorem X15_call_served_by_the_kernel
        (code : string) (timeout : Z) (_retry : bool) (w w1 w2 : world) (p : peer)
        (dt : Z) (env : probe) (k k' : kernel) (result : json) :
  is_text code = true -> (0 <= timeout)%Z ->
  ensure_running w = (Ok tt, w1) -> connect w1 = (Connected p, w2) ->
  send_error p = None ->
  execute_code exec (JStr code) k = (Ok result, k') -> unicode result = true ->
  let request := json_dumps false (JDict [("code", JStr code)]) ++ END_MARK in
  let h := handle_client python sys_getsizeof exec (mkConnection [Recv request] false) env k in
  answers p = map (fun payload => (dt, Recv payload)) (reply h) ->
  reply h = [json_dumps false result] /\ escaped h = None /\ after h = k'
  /\ exists text,
       format_result result = Ok text
       /\ fst (_execute_in_kernel code timeout _retry w) = Ok text.
Proof.
  intros Hc Ht He Hcn Hs Hx Hu request h Ha.
  assert (Hh : h = mkHandled [json_dumps false result] None k').
  { subst h request.
    rewrite (handle_client_routes (JDict [("code", JStr code)]) [] false env k
               (code_request_document code) (code_request_unicode code Hc)).
    rewrite route_code, Hx. reflexivity. }
  rewrite Hh in *. cbn [reply escaped after map] in *.
  split; [reflexivity|]. split; [reflexivity|]. split; [reflexivity|].
  destruct (execute_code_document _ _ _ _ Hx) as (b & out & err & error & -> & Herr).
  destruct (format_execute_result b out err error Herr) as [text Hf].
  exists text. split; [exact Hf|].
  unfold _execute_in_kernel.
  rewrite (body_reads_document _ code timeout _retry w w1 w2 p _ dt [] He Hcn Hs Ht
             (execute_result_document b out err error Herr) Hu Ha).
  rewrite Hf. reflexivity.
Qed.

Lemma recv_all_document (result : json) (dt : Z) (w : world) :
  document result = true ->
  recv_all "" [(dt, Recv (json_dumps false result))] w
  = (Ok (json_dumps false result), tick dt w).
Proof.
  intros Hd. cbn [recv_all]. rewrite (dumps_nonempty result Hd). reflexivity.
Qed.

Lemma command_attempts_answer (n : nat) (request : string) (w w1 : world) (p : peer)
      (result : json) (dt : Z) :
  connect w = (Connected p, w1) -> send_error p = None ->
  document result = true -> unicode result = true ->
  answers p = [(dt, Recv (json_dumps false result))] ->
  command_attempts (S n) request w
  = (Ok result, tick dt (log (Send (request ++ END_MARK)) w1)).
Proof.
  intros Hc Hs Hd Hu Ha. cbn [command_attempts]. rewrite Hc, Hs, Ha. cbv zeta.
  rewrite (recv_all_document result dt _ Hd).
  rewrite (dumps_nonempty result Hd). cbn [negb].
  rewrite (loads_dumps result Hd Hu). reflexivity.
Qed.

Lemma command_served (action : string) (kwargs : list (string * json))
      (w w1 : world) (pid : nat) (p : peer) (dt : Z) (env : probe) (k k' : kernel)
      (result : json) :
  KERNEL_PROCESS w = Some pid -> connect w = (Connected p, w1) -> send_error p = None ->
  document (command_request action kwargs) = true ->
  unicode (command_request action kwargs) = true ->
  route python sys_getsizeof exec env (command_request action kwargs) k = (Ok result, k') ->
  document result = true -> unicode result = true ->
  let request := json_dumps false (command_request action kwargs) ++ END_MARK in
  let h := handle_client python sys_getsizeof exec (mkConnection [Recv request] false) env k in
  answers p = map (fun payload => (dt, Recv payload)) (reply h) ->
  _send_kernel_command action kwargs w = (Ok result, tick dt (log (Send request) w1))
  /\ h = mkHandled [json_dumps false result] None k'.
Proof.
  intros Hp Hc Hs Hqd Hqu Hr Hd Hu request h Ha.
  assert (Hh : h = mkHandled [json_dumps false result] None k').
  { subst h request.
    rewrite (handle_client_routes (command_request action kwargs) [] false env k Hqd Hqu).
    rewrite Hr. reflexivity. }
  split; [|exact Hh].
  rewrite Hh in Ha. cbn [reply map] in Ha.
  unfold _send_kernel_command. rewrite Hp.
  apply (command_attempts_answer 2 _ w w1 p result dt Hc Hs Hd Hu Ha).
Qed.

(** X21. A command served by the kernel: [_send_kernel_command] returns the
    very document the handler of the command returned, and the kernel is
    left in the state the handler left. *)
Theorem X21_command_served_by_the_kernel
        (action : string) (kwargs : list (string * json))
        (w w1 : world) (pid : nat) (p : peer) (dt : Z) (env : probe) (k k' : kernel)
        (result : json) :
  KERNEL_PROCESS w = Some pid -> connect w = (Connected p, w1) -> send_error p = None ->
  document (command_request action kwargs) = true ->
  unicode (command_request action kwargs) = true ->
  route python sys_getsizeof exec env (command_request action kwargs) k = (Ok result, k') ->
  document result = true -> unicode result = true ->
  let request := json_dumps false (command_request action kwargs) ++ END_MARK in
  let h := handle_client python sys_getsizeof exec (mkConnection [Recv request] false) env k in
  answers p = map (fun payload => (dt, Recv payload)) (reply h) ->
  fst (_send_kernel_command action kwargs w) = Ok result
  /\ trace (snd (_send_kernel_command action kwargs w))
     = (trace w1 ++ [Send request])%list
  /\ after h = k'.
Proof.
  intros Hp Hc Hs Hqd Hqu Hr Hd Hu request h Ha.
  destruct (command_served action kwargs w w1 pid p dt env k k' result
              Hp Hc Hs Hqd Hqu Hr Hd Hu Ha) as [H1 H2].
  subst request h. rewrite H1, H2. repeat split.
Qed.

End Wire.

(** ** The kernel tools *)

Lemma is_text_app (a b : string) : is_text a = true -> is_text b = true -> is_text (a ++ b) = true.
Proof. intros Ha Hb. exact (utf8_app a b Hb 0 128 191 Ha). Qed.

Lemma is_text_ascii (a : string) : ascii_only a = true -> is_text a = true.
Proof.
  intros Ha. unfold is_text. rewrite <- (app_empty a), utf8_ascii_app by exact Ha.
  reflexivity.
Qed.

Lemma is_text_str_of_Z (z : Z) : is_text (str_of_Z z) = true.
Proof. apply is_text_ascii, str_of_Z_ascii. Qed.

Lemma whole_str_of_Z (z : Z) : (0 <= z)%Z -> whole (str_of_Z z) = true.
Proof.
  intros Hz. destruct z as [|p|p]; [reflexivity | | lia].
  destruct (str_of_Z_pos p) as (c & ds & -> & Hc & Hn & Hd & _).
  cbn [whole]. rewrite Hc, Hd. cbn [andb].
  destruct (Ascii.eqb_spec c "0"); [contradiction | reflexivity].
Qed.

Lemma digit_not_dot (c : ascii) : is_digit c = true -> Ascii.eqb c "." = false.
Proof.
  intros Hc. destruct c as [[] [] [] [] [] [] [] []]; try discriminate Hc; reflexivity.
Qed.

Lemma before_dot_digits (ds r : string) :
  digits ds = true -> before_dot (ds ++ String "." r) = ds.
Proof.
  induction ds as [|c ds IH]; [reflexivity|]. cbn [digits]. intros H.
  apply andb_prop in H as [Hc Hd]. cbn [String.append before_dot].
  rewrite (digit_not_dot c Hc), (IH Hd). reflexivity.
Qed.

Lemma after_dot_digits (ds r : string) :
  digits ds = true -> after_dot (ds ++ String "." r) = Some r.
Proof.
  induction ds as [|c ds IH]; [reflexivity|]. cbn [digits]. intros H.
  apply andb_prop in H as [Hc Hd]. cbn [String.append after_dot].
  rewrite (digit_not_dot c Hc). exact (IH Hd).
Qed.

Lemma whole_digits (ip : string) : whole ip = true -> digits ip = true.
Proof.
  destruct ip as [|c r]; [discriminate|]. cbn [whole digits]. intros H.
  apply andb_prop in H as [H _]. exact H.
Qed.

Lemma digits_str_of_Z (z : Z) : (0 <= z)%Z -> digits (str_of_Z z) = true.
Proof. intros Hz. apply whole_digits, whole_str_of_Z, Hz. Qed.

Lemma nonempty_str_of_Z (z : Z) : (0 <= z)%Z -> nonempty (str_of_Z z) = true.
Proof.
  intros Hz. pose proof (whole_str_of_Z z Hz) as H.
  destruct (str_of_Z z); [discriminate H | reflexivity].
Qed.

Lemma unsigned_positional_make (ip fd : string) :
  whole ip = true -> digits fd = true -> nonempty fd = true ->
  unsigned_positional (ip ++ String "." fd) = true.
Proof.
  intros Hw Hd Hn. unfold unsigned_positional.
  rewrite (before_dot_digits ip fd (whole_digits ip Hw)).
  rewrite (after_dot_digits ip fd (whole_digits ip Hw)).
  rewrite Hw, Hd, Hn. reflexivity.
Qed.

(** The text [format_1f] writes is one of a float in positional notation. *)
Lemma format_1f_positional (n d : Z) : positional (format_1f n d) = true.
Proof.
  unfold format_1f. set (t := round_half_even (10 * n) d).
  assert (Hm : (0 <= t mod 10)%Z) by (apply Z.mod_pos_bound; lia).
  change (str_of_Z (t / 10) ++ "." ++ str_of_Z (t mod 10))
    with (str_of_Z (t / 10) ++ String "." (str_of_Z (t mod 10))).
  destruct (t / 10)%Z as [|p|p] eqn:Hq.
  - apply (unsigned_positional_make "0");
      [reflexivity | apply digits_str_of_Z, Hm | apply nonempty_str_of_Z, Hm].
  - pose proof (whole_str_of_Z (Zpos p) ltac:(lia)) as Hw.
    pose proof (unsigned_positional_make _ _ Hw (digits_str_of_Z _ Hm)
                  (nonempty_str_of_Z _ Hm)) as Hu.
    destruct (str_of_Z_pos p) as (c & ds & E & Hc & _).
    rewrite E in *. cbn [String.append positional].
    replace (Ascii.eqb c "-") with false; [exact Hu|].
    destruct c as [[] [] [] [] [] [] [] []]; try discriminate Hc; reflexivity.
  - rewrite str_of_Z_neg. cbn [String.append positional]. rewrite Ascii.eqb_refl.
    apply unsigned_positional_make;
      [apply whole_str_of_Z; lia | apply digits_str_of_Z, Hm | apply nonempty_str_of_Z, Hm].
Qed.

Lemma is_text_format_1f (n d : Z) : is_text (format_1f n d) = true.
Proof.
  unfold format_1f. apply is_text_app; [apply is_text_str_of_Z|].
  apply is_text_app; [reflexivity | apply is_text_str_of_Z].
Qed.

Section Tools.

Variable python : interpreter.
Variable sys_getsizeof : value -> option Z.
Variable exec : json -> kernel -> kernel * option exc.

Lemma kernel_tool_served (idle action : string) (kwargs : list (string * json))
      (show : json -> outcome string) (w w0 w' : world) (result : json) :
  _is_kernel_running w = (true, w0) ->
  _send_kernel_command action kwargs w0 = (Ok result, w') ->
  kernel_tool idle action kwargs show w = (show result, w').
Proof. intros H1 H2. unfold kernel_tool. rewrite H1, H2. reflexivity. Qed.

(** The document of [handle_status] goes over the wire. *)
Lemma status_document (env : probe) (k : kernel) :
  document (fst (handle_status env k)) = true
  /\ unicode (fst (handle_status env k)) = true.
Proof.
  unfold handle_status. cbn [fst]. split.
  - cbn [document map fst snd forallb]. rewrite format_1f_positional. reflexivity.
  - cbn [unicode forallb fst snd].
    rewrite is_text_format_1f.
    assert (H1 : is_text (str_of_Z ((time_now env - KERNEL_START_TIME k) / 60000) ++ " 分 "
                          ++ str_of_Z (((time_now env - KERNEL_START_TIME k) mod 60000)
                                       / 1000) ++ " 秒") = true).
    { apply is_text_app; [apply is_text_str_of_Z|].
      apply is_text_app; [vm_compute; reflexivity|].
      apply is_text_app; [apply is_text_str_of_Z | vm_compute; reflexivity]. }
    rewrite H1.
    assert (H2 : is_text match memory_rss env with
                         | Some rss => format_1f rss (1024 * 1024) ++ " MB"
                         | None => "無法取得（需安裝 psutil）"
                         end = true).
    { destruct (memory_rss env).
      - apply is_text_app; [apply is_text_format_1f | reflexivity].
      - vm_compute. reflexivity. }
    rewrite H2. vm_compute. reflexivity.
Qed.

(** X22. [kernel_status] served by the kernel: the text it returns shows the
    up time, the number of variables and the memory [handle_status]
    reported, and the kernel is left as it was. *)
Theorem X22_status_served_by_the_kernel
        (w w0 w1 : world) (pid : nat) (p : peer) (dt : Z) (env : probe) (k : kernel) :
  _is_kernel_running w = (true, w0) ->
  KERNEL_PROCESS w0 = Some pid -> connect w0 = (Connected p, w1) -> send_error p = None ->
  let request := json_dumps false (command_request "status" []) ++ END_MARK in
  let h := handle_client python sys_getsizeof exec (mkConnection [Recv request] false) env k in
  answers p = map (fun payload => (dt, Recv payload)) (reply h) ->
  let uptime := (time_now env - KERNEL_START_TIME k)%Z in
  fst (kernel_status w)
  = Ok ("🟢 KERNEL 狀態" ++ nl
        ++ "├─ 運行時間: " ++ str_of_Z (uptime / 60000) ++ " 分 "
        ++ str_of_Z ((uptime mod 60000) / 1000) ++ " 秒" ++ nl
        ++ "├─ 變數數量: "
        ++ str_of_Z (Z.of_nat (List.length (filter (shown python "") (global_namespace k))))
        ++ " 個" ++ nl
        ++ "└─ 記憶體使用: "
        ++ match memory_rss env with
           | Some rss => format_1f rss (1024 * 1024) ++ " MB"
           | None => "無法取得（需安裝 psutil）"
           end)
  /\ after h = k.
Proof.
  intros Hr Hp Hc Hs request h Ha uptime.
  destruct (status_document env k) as [Hd Hu].
  destruct (command_served python sys_getsizeof exec "status" [] w0 w1 pid p dt env k k
              (fst (handle_status env k)) Hp Hc Hs eq_refl eq_refl eq_refl Hd Hu Ha)
    as [H1 H2].
  fold request in H2. fold h in H2. rewrite H2. split; [|reflexivity].
  unfold kernel_status. rewrite (kernel_tool_served _ _ _ _ _ _ _ _ Hr H1).
  cbn [fst]. unfold status_text, handle_status, get_method, subscript.
  cbn [fst dict_get_default dict_get String.eqb Ascii.eqb Bool.eqb truthy negb json_str
       json_repr].
  rewrite <- count_visible. subst uptime.
  rewrite !app_string_assoc. reflexivity.
Qed.

(** X23. [reset_kernel] served by the kernel: the tool reports the reset, and
    the namespace of the kernel is the one a kernel starts with. *)
Theorem X23_reset_served_by_the_kernel
        (w w0 w1 : world) (pid : nat) (p : peer) (dt : Z) (env : probe) (k : kernel) :
  _is_kernel_running w = (true, w0) ->
  KERNEL_PROCESS w0 = Some pid -> connect w0 = (Connected p, w1) -> send_error p = None ->
  let request := json_dumps false (command_request "reset" []) ++ END_MARK in
  let h := handle_client python sys_getsizeof exec (mkConnection [Recv request] false) env k in
  answers p = map (fun payload => (dt, Recv payload)) (reply h) ->
  fst (reset_kernel w)
  = Ok ("🔄 RESET Kernel 已重置，所有變數和 import 已清空" ++ nl
        ++ "（下次執行需重新 import 套件）")
  /\ global_namespace (after h) = initial_namespace
  /\ KERNEL_START_TIME (after h) = KERNEL_START_TIME k.
Proof.
  intros Hr Hp Hc Hs request h Ha.
  assert (Hd : document (fst (handle_reset k)) = true) by reflexivity.
  assert (Hu : unicode (fst (handle_reset k)) = true) by (vm_compute; reflexivity).
  destruct (command_served python sys_getsizeof exec "reset" [] w0 w1 pid p dt env k
              (snd (handle_reset k)) (fst (handle_reset k))
              Hp Hc Hs eq_refl eq_refl eq_refl Hd Hu Ha) as [H1 H2].
  fold request in H2. fold h in H2. rewrite H2.
  split; [|split; reflexivity].
  unfold reset_kernel. rewrite (kernel_tool_served _ _ _ _ _ _ _ _ Hr H1). reflexivity.
Qed.




End Tools.

(** ** The header of a saved script *)

Lemma split_char_zero (sep : ascii) (cur s : string) :
  split_char sep 0 cur s = [cur ++ s].
Proof. destruct s; [rewrite app_empty|]; reflexivity. Qed.

(** X25. [run_file] takes off exactly the header [save_and_run] puts before
    the code: whatever the code, the kernel is sent the code as it was
    given. *)
Theorem X25_header_is_taken_off (code : string) :
  kernel_code (subprocess_header ++ code) = code.
Proof.
  unfold kernel_code.
  assert (Hs : startswith (subprocess_header ++ code) "# -*- coding: utf-8 -*-" = true).
  { unfold startswith, subprocess_header. rewrite !app_string_assoc. apply prefix_refl. }
  rewrite Hs.
  change (split_char newline 2 "" (subprocess_header ++ code))
    with ("# -*- coding: utf-8 -*-"
          :: "import sys; sys.stdout.reconfigure(encoding='utf-8'); sys.stderr.reconfigure(encoding='utf-8')"
          :: split_char newline 0 "" code).
  rewrite split_char_zero. cbn [List.length Nat.leb nth andb String.append].
  replace (contains "reconfigure"
             "import sys; sys.stdout.reconfigure(encoding='utf-8'); sys.stderr.reconfigure(encoding='utf-8')")
    with true by (vm_compute; reflexivity).
  reflexivity.
Qed.

(** ** Requests and answers in pieces *)

(** *** Strings *)

Lemma skip_ws_app (r T : string) (c : ascii) (r' : string) :
  skip_ws r = String c r' -> skip_ws (r ++ T) = String c (r' ++ T).
Proof.
  induction r as [|a r IH]; cbn [skip_ws String.append]; [discriminate|].
  destruct (is_ws a); [exact IH|]. intros H. inversion H; subst. reflexivity.
Qed.

(** The equation of [scan_string] with tests in place of patterns. *)
Lemma scan_string_eq (hi : option N) (c : ascii) (r : string) :
  scan_string hi (String c r)
  = if Ascii.eqb c backslash then
      match r with
      | EmptyString => None
      | String e r1 =>
          if Ascii.eqb e "u" then
            match r1 with
            | String a (String b (String c' (String d r'))) =>
                match hex4 a b c' d with
                | None => None
                | Some u =>
                    match hi with
                    | Some h =>
                        if in_range 56320 57343 u
                        then prepend (utf8_of (65536 + (h - 55296) * 1024 + (u - 56320)))
                                     (scan_string None r')
                        else prepend (utf8_of h)
                               (if in_range 55296 56319 u then scan_string (Some u) r'
                                else prepend (utf8_of u) (scan_string None r'))
                    | None =>
                        if in_range 55296 56319 u then scan_string (Some u) r'
                        else prepend (utf8_of u) (scan_string None r')
                    end
                end
            | _ => None
            end
          else
            match simple_escape e with
            | Some ch => prepend (flush hi ++ String ch "") (scan_string None r1)
            | None => None
            end
      end
    else if Ascii.eqb c dquote then Some (flush hi, r)
    else if N.ltb (code c) 32 then None
    else prepend (flush hi ++ String c "") (scan_string None r).
Proof.
  cbn [scan_string]. destruct (Ascii.eqb c backslash); [|reflexivity].
  destruct r as [|e r1]; [reflexivity|].
  destruct e as [[] [] [] [] [] [] [] []]; reflexivity.
Qed.

Lemma prepend_some (p : string) (x : option (string * string)) (body r : string) :
  prepend p x = Some (body, r) ->
  exists body', x = Some (body', r) /\ body = p ++ body'.
Proof.
  destruct x as [[b r0]|]; cbn [prepend]; [|discriminate].
  intros H. inversion H; subst. exists b. split; reflexivity.
Qed.

(** A string that is read is read the same way whatever follows it. *)
Lemma scan_string_stable (T : string) (n : nat) :
  forall (s : string) (hi : option N) (body r : string),
    String.length s <= n ->
    scan_string hi s = Some (body, r) ->
    scan_string hi (s ++ T) = Some (body, r ++ T).
Proof.
  induction n as [|n IH]; intros s hi body r Hn H.
  - destruct s; [discriminate H | cbn in Hn; lia].
  - destruct s as [|c s]; [discriminate H|].
    cbn [String.length] in Hn. cbn [String.append].
    rewrite scan_string_eq in *.
    assert (Hrec : forall p hi' s', String.length s' <= n ->
               prepend p (scan_string hi' s') = Some (body, r) ->
               prepend p (scan_string hi' (s' ++ T)) = Some (body, r ++ T)).
    { intros p hi' s' Hl Hp. destruct (prepend_some _ _ _ _ Hp) as (b' & Hs & ->).
      rewrite (IH s' hi' b' r Hl Hs). reflexivity. }
    destruct (Ascii.eqb c backslash).
    + destruct s as [|e r1]; [discriminate H|]. cbn [String.append].
      destruct (Ascii.eqb e "u").
      * destruct r1 as [|a [|b [|c' [|d r']]]]; try discriminate H.
        cbn [String.append]. cbn [String.length] in Hn.
        destruct (hex4 a b c' d) as [u|]; [|discriminate H].
        destruct hi as [h|].
        -- destruct (in_range 56320 57343 u).
           ++ apply Hrec; [lia | exact H].
           ++ destruct (in_range 55296 56319 u).
              ** apply Hrec; [lia | exact H].
              ** destruct (prepend_some _ _ _ _ H) as (b1 & H1 & ->).
                 destruct (prepend_some _ _ _ _ H1) as (b2 & H2 & ->).
                 rewrite (IH r' None b2 r ltac:(lia) H2). reflexivity.
        -- destruct (in_range 55296 56319 u).
           ++ apply (IH r' (Some u) body r); [lia | exact H].
           ++ apply Hrec; [lia | exact H].
      * destruct (simple_escape e); [|discriminate H].
        apply Hrec; [cbn [String.length] in Hn; lia | exact H].
    + destruct (Ascii.eqb c dquote).
      * inversion H; subst. reflexivity.
      * destruct (N.ltb (code c) 32); [discriminate H|].
        apply Hrec; [lia | exact H].
Qed.


(** *** Numbers *)

Lemma number_frac_eq (r1 : string) :
  match r1 with
  | String "." r =>
      let (fd, r') := span_digits r in
      if nonempty fd then ("." ++ fd, r') else (EmptyString, r1)
  | _ => (EmptyString, r1)
  end = number_frac r1.
Proof.
  destruct r1 as [|c r]; [reflexivity|].
  destruct c as [[] [] [] [] [] [] [] []]; reflexivity.
Qed.

Lemma exponent_sign_eq (r : string) :
  match r with
  | String "+" t => ("+", t)
  | String "-" t => ("-", t)
  | _ => (EmptyString, r)
  end = exponent_sign r.
Proof.
  destruct r as [|c t]; [reflexivity|].
  destruct c as [[] [] [] [] [] [] [] []]; reflexivity.
Qed.

Lemma number_tail_eq (sign ds r1 : string) :
  number_rest sign ds r1
  = let (frac, r2) := number_frac r1 in
    let (expo, r3) := number_expo r2 in
    if (nonempty frac || nonempty expo)%bool
    then Some (JFloat (sign ++ ds ++ frac ++ expo), r3)
    else Some (JInt (if nonempty sign then (- Z_of_digits 0 ds)%Z else Z_of_digits 0 ds), r3).
Proof.
  unfold number_rest. rewrite number_frac_eq.
  destruct (number_frac r1) as [frac r2].
  unfold number_expo. destruct r2 as [|e r]; [reflexivity|].
  rewrite exponent_sign_eq. reflexivity.
Qed.

Lemma scan_number_eq (s : string) :
  scan_number s
  = match s with
    | EmptyString => None
    | String c r =>
        let (sign, s1) := if Ascii.eqb c "-" then ("-", r) else (EmptyString, s) in
        match number_whole s1 with
        | None => None
        | Some (ds, r1) => number_rest sign ds r1
        end
    end.
Proof.
  destruct s as [|c r]; [reflexivity|].
  destruct c as [[] [] [] [] [] [] [] []];
    try reflexivity.
  destruct r as [|c r]; [reflexivity|].
  destruct c as [[] [] [] [] [] [] [] []]; reflexivity.
Qed.

Lemma span_digits_stable (T : string) (s ds r : string) :
  span_digits s = (ds, r) -> nonempty r = true -> span_digits (s ++ T) = (ds, r ++ T).
Proof.
  revert ds r. induction s as [|c s IH]; intros ds r H Hr; cbn [span_digits] in H.
  - inversion H; subst. discriminate Hr.
  - cbn [String.append span_digits]. destruct (is_digit c).
    + destruct (span_digits s) as [ds' r'] eqn:E. inversion H; subst.
      rewrite (IH ds' r eq_refl Hr). reflexivity.
    + inversion H; subst. reflexivity.
Qed.

Lemma span_digits_rest (s ds r : string) :
  span_digits s = (ds, r) -> nonempty ds = true -> nonempty s = true.
Proof. destruct s; [cbn; intros H; inversion H; subst; discriminate | reflexivity]. Qed.

Lemma ends_here_nonempty (r : string) : ends_here r = true -> nonempty r = true.
Proof. destruct r; [discriminate | reflexivity]. Qed.

Lemma number_frac_stable (T r1 frac r2 : string) :
  number_frac r1 = (frac, r2) ->
  nonempty r2 = true ->
  match r2 with String c _ => Ascii.eqb c "." = false | EmptyString => True end ->
  number_frac (r1 ++ T) = (frac, r2 ++ T).
Proof.
  intros H Hn Hd. destruct r1 as [|c r]; cbn [number_frac] in H.
  - inversion H; subst. discriminate Hn.
  - cbn [String.append number_frac]. destruct (Ascii.eqb c ".") eqn:Ec.
    + destruct (span_digits r) as [fd r'] eqn:E. destruct (nonempty fd) eqn:Ef.
      * inversion H; subst. rewrite (span_digits_stable T r fd r2 E Hn), Ef. reflexivity.
      * inversion H; subst. congruence.
    + inversion H; subst. reflexivity.
Qed.

Lemma exponent_sign_stable (T r sg r' : string) :
  exponent_sign r = (sg, r') -> nonempty r = true ->
  exponent_sign (r ++ T) = (sg, r' ++ T).
Proof.
  intros H Hn. destruct r as [|c t]; [discriminate Hn|].
  cbn [String.append exponent_sign] in *.
  destruct (Ascii.eqb c "+"); [inversion H; subst; reflexivity|].
  destruct (Ascii.eqb c "-"); inversion H; subst; reflexivity.
Qed.

Lemma exponent_sign_rest (r sg r' : string) :
  exponent_sign r = (sg, r') -> nonempty r' = true -> nonempty r = true.
Proof. destruct r; [cbn; intros H; inversion H; subst; discriminate | reflexivity]. Qed.

Lemma number_expo_stable (T r2 expo r3 : string) :
  number_expo r2 = (expo, r3) ->
  ends_here r3 = true ->
  number_expo (r2 ++ T) = (expo, r3 ++ T).
Proof.
  intros H He. destruct r2 as [|e r]; cbn [number_expo] in H.
  - inversion H; subst. discriminate He.
  - cbn [String.append number_expo].
    destruct (Ascii.eqb e "e" || Ascii.eqb e "E")%bool eqn:Ee.
    + destruct (exponent_sign r) as [sg r'] eqn:Es.
      destruct (span_digits r') as [ed r''] eqn:Ed.
      destruct (nonempty ed) eqn:En.
      * inversion H; subst.
        pose proof (span_digits_rest _ _ _ Ed En) as Hr'.
        rewrite (exponent_sign_stable T r sg r' Es (exponent_sign_rest _ _ _ Es Hr')).
        rewrite (span_digits_stable T r' ed r3 Ed (ends_here_nonempty _ He)), En.
        reflexivity.
      * inversion H; subst. cbn [ends_here] in He. unfold number_char in He.
        apply negb_true_iff in He. rewrite <- orb_assoc, Ee, orb_true_r in He.
        discriminate He.
    + inversion H; subst. reflexivity.
Qed.

(** What [number_expo] leaves either is its argument or comes after an
    exponent mark. *)
Lemma number_expo_rest (r2 expo r3 : string) :
  number_expo r2 = (expo, r3) -> ends_here r3 = true ->
  nonempty r2 = true
  /\ match r2 with String c _ => Ascii.eqb c "." = false | EmptyString => True end.
Proof.
  intros H He. destruct r2 as [|e r]; cbn [number_expo] in H.
  - inversion H; subst. discriminate He.
  - split; [reflexivity|].
    destruct (Ascii.eqb e "e" || Ascii.eqb e "E")%bool eqn:Ee.
    + destruct (Ascii.eqb_spec e "."); [subst e; discriminate Ee | reflexivity].
    + destruct (exponent_sign r) as [sg r']. destruct (span_digits r') as [ed r''].
      inversion H; subst. cbn [ends_here] in He. unfold number_char in He.
      apply negb_true_iff in He. destruct (Ascii.eqb e "."); [|reflexivity].
      rewrite orb_true_r in He. discriminate He.
Qed.

Lemma number_frac_rest (r1 frac r2 : string) :
  number_frac r1 = (frac, r2) -> nonempty r2 = true -> nonempty r1 = true.
Proof. destruct r1; [cbn; intros H; inversion H; subst; discriminate | reflexivity]. Qed.

Lemma number_tail_stable (T sign ds r1 : string) (v : json) (r : string) :
  number_rest sign ds r1 = Some (v, r) -> ends_here r = true ->
  number_rest sign ds (r1 ++ T) = Some (v, r ++ T) /\ nonempty r1 = true.
Proof.
  rewrite !number_tail_eq. intros H He.
  destruct (number_frac r1) as [frac r2] eqn:Ef.
  destruct (number_expo r2) as [expo r3] eqn:Ee.
  assert (r3 = r) by (destruct (nonempty frac || nonempty expo)%bool; inversion H; reflexivity).
  subst r3.
  destruct (number_expo_rest _ _ _ Ee He) as [Hn Hd].
  rewrite (number_frac_stable T r1 frac r2 Ef Hn Hd).
  rewrite (number_expo_stable T r2 expo r Ee He).
  split; [|exact (number_frac_rest _ _ _ Ef Hn)].
  destruct (nonempty frac || nonempty expo)%bool; inversion H; reflexivity.
Qed.

Lemma number_whole_stable (T s1 ds r1 : string) :
  number_whole s1 = Some (ds, r1) -> nonempty r1 = true ->
  number_whole (s1 ++ T) = Some (ds, r1 ++ T).
Proof.
  intros H Hn. destruct s1 as [|c r]; [discriminate H|].
  cbn [number_whole] in H. cbn [String.append number_whole].
  destruct (Ascii.eqb c "0"); [inversion H; subst; reflexivity|].
  destruct (is_digit c); [|discriminate H].
  inversion H as [E].
  change (String c (r ++ T)) with (String c r ++ T).
  rewrite (span_digits_stable T (String c r) ds r1 E Hn). reflexivity.
Qed.

(** A number that is read, and after which the text goes on, is read the
    same way whatever is appended. *)
Lemma scan_number_stable (T s : string) (v : json) (r : string) :
  scan_number s = Some (v, r) -> ends_here r = true ->
  scan_number (s ++ T) = Some (v, r ++ T).
Proof.
  rewrite !scan_number_eq. intros H He.
  destruct s as [|c s]; [discriminate H|]. cbn [String.append].
  destruct (Ascii.eqb c "-").
  - destruct (number_whole s) as [[ds r1]|] eqn:Ew; [|discriminate H].
    destruct (number_tail_stable T _ _ _ _ _ H He) as [Ht Hn].
    rewrite (number_whole_stable T s ds r1 Ew Hn). exact Ht.
  - destruct (number_whole (String c s)) as [[ds r1]|] eqn:Ew; [|discriminate H].
    destruct (number_tail_stable T _ _ _ _ _ H He) as [Ht Hn].
    change (String c (s ++ T)) with (String c s ++ T).
    rewrite (number_whole_stable T _ ds r1 Ew Hn). exact Ht.
Qed.

Lemma scan_number_opens (s : string) (v : json) (r : string) :
  scan_number s = Some (v, r) ->
  opens_number s = true /\ forall T, String.prefix "-Infinity" (s ++ T) = false.
Proof.
  rewrite scan_number_eq. intros H.
  destruct s as [|c s]; [discriminate H|]. cbn [opens_number String.append].
  destruct (Ascii.eqb_spec c "-").
  - subst c. split; [apply orb_true_r|]. intros T.
    destruct (number_whole s) as [[ds r1]|] eqn:Ew; [|discriminate H].
    destruct s as [|c s]; [discriminate Ew|]. cbn [number_whole] in Ew.
    cbn [String.append String.prefix].
    destruct (ascii_dec "-" "-"); [|congruence].
    destruct (ascii_dec "I" c) as [E|E]; [|reflexivity].
    subst c. discriminate Ew.
  - destruct (number_whole (String c s)) as [[ds r1]|] eqn:Ew; [|discriminate H].
    cbn [number_whole] in Ew. split.
    + destruct (Ascii.eqb_spec c "0"); [subst; reflexivity|].
      destruct (is_digit c); [reflexivity | discriminate Ew].
    + intros T. cbn [String.prefix]. destruct (ascii_dec "-" c); [congruence | reflexivity].
Qed.

(** *** Values *)

Lemma prefix_stable (T word s : string) :
  String.prefix word s = true -> String.prefix word (s ++ T) = true.
Proof.
  revert s. induction word as [|a word IH]; intros s H.
  - destruct (s ++ T); reflexivity.
  - destruct s as [|c s]; [discriminate H|]. cbn [String.append String.prefix] in *.
    destruct (ascii_dec a c); [exact (IH s H) | discriminate H].
Qed.

Lemma drop_stable (T word s : string) :
  String.prefix word s = true ->
  drop (String.length word) (s ++ T) = drop (String.length word) s ++ T.
Proof.
  revert s. induction word as [|a word IH]; intros s H; [reflexivity|].
  destruct s as [|c s]; [discriminate H|]. cbn [String.append String.prefix] in *.
  cbn [String.length drop]. destruct (ascii_dec a c); [exact (IH s H) | discriminate H].
Qed.

Lemma literal_stable (T word : string) (w : json) (s : string) (v : json) (r : string) :
  literal word w s = Some (v, r) -> literal word w (s ++ T) = Some (v, r ++ T).
Proof.
  unfold literal. destruct (String.prefix word s) eqn:E; [|discriminate].
  intros H. inversion H; subst. rewrite (prefix_stable T word s E), (drop_stable T word s E).
  reflexivity.
Qed.

Lemma ws_not_number (a : ascii) : is_ws a = true -> number_char a = false.
Proof. destruct a as [[] [] [] [] [] [] [] []]; vm_compute; congruence. Qed.

Lemma skip_ws_ends_here (r : string) (c : ascii) (r' : string) :
  skip_ws r = String c r' -> number_char c = false -> ends_here r = true.
Proof.
  destruct r as [|a r0]; [discriminate|]. cbn [skip_ws ends_here].
  destruct (is_ws a) eqn:E.
  - intros _ _. rewrite (ws_not_number a E). reflexivity.
  - intros H Hc. inversion H; subst. rewrite Hc. reflexivity.
Qed.

Lemma skip_ws_append (r T : string) :
  nonempty (skip_ws r) = true -> skip_ws (r ++ T) = skip_ws r ++ T.
Proof.
  destruct (skip_ws r) as [|c r'] eqn:E; [discriminate|]. intros _.
  exact (skip_ws_app r T c r' E).
Qed.

(** The equations of the three scanners with tests in place of patterns. *)
Lemma scan_value_eq (f : nat) (c : ascii) (r : string) :
  scan_value (S f) (String c r)
  = if Ascii.eqb c dquote then
      match scan_string None r with
      | Some (body, rest) => Some (JStr body, rest)
      | None => None
      end
    else if Ascii.eqb c "{" then
      match skip_ws r with
      | EmptyString => scan_members f [] EmptyString
      | String c2 r2 =>
          if Ascii.eqb c2 "}" then Some (JDict [], r2)
          else scan_members f [] (String c2 r2)
      end
    else if Ascii.eqb c "[" then
      match skip_ws r with
      | EmptyString => scan_elements f [] EmptyString
      | String c2 r2 =>
          if Ascii.eqb c2 "]" then Some (JList [], r2)
          else scan_elements f [] (String c2 r2)
      end
    else if Ascii.eqb c "n" then literal "null" JNull (String c r)
    else if Ascii.eqb c "t" then literal "true" (JBool true) (String c r)
    else if Ascii.eqb c "f" then literal "false" (JBool false) (String c r)
    else if Ascii.eqb c "N" then literal "NaN" (JFloat "NaN") (String c r)
    else if Ascii.eqb c "I" then literal "Infinity" (JFloat "Infinity") (String c r)
    else if String.prefix "-Infinity" (String c r)
         then literal "-Infinity" (JFloat "-Infinity") (String c r)
    else scan_number (String c r).
Proof.
  cbn [scan_value].
  destruct (Ascii.eqb c dquote); [reflexivity|].
  destruct (Ascii.eqb c "{").
  - destruct (skip_ws r) as [|c2 r2]; [reflexivity|].
    destruct c2 as [[] [] [] [] [] [] [] []]; reflexivity.
  - destruct (Ascii.eqb c "["); [|reflexivity].
    destruct (skip_ws r) as [|c2 r2]; [reflexivity|].
    destruct c2 as [[] [] [] [] [] [] [] []]; reflexivity.
Qed.

Lemma scan_members_eq (f : nat) (acc : list (string * json)) (s : string) :
  scan_members (S f) acc s
  = match s with
    | EmptyString => None
    | String q r =>
        if Ascii.eqb q dquote then
          match scan_string None r with
          | Some (key, r1) =>
              match skip_ws r1 with
              | EmptyString => None
              | String c r2 =>
                  if Ascii.eqb c ":" then
                    match scan_value f (skip_ws r2) with
                    | Some (v, r3) =>
                        match skip_ws r3 with
                        | EmptyString => None
                        | String c4 r4 =>
                            if Ascii.eqb c4 "}" then Some (JDict (dict_set acc key v), r4)
                            else if Ascii.eqb c4 ","
                            then scan_members f (dict_set acc key v) (skip_ws r4)
                            else None
                        end
                    | None => None
                    end
                  else None
              end
          | None => None
          end
        else None
    end.
Proof.
  destruct s as [|q r]; [reflexivity|]. cbn [scan_members].
  destruct (Ascii.eqb q dquote); [|reflexivity].
  destruct (scan_string None r) as [[key r1]|]; [|reflexivity].
  destruct (skip_ws r1) as [|c r2]; [reflexivity|].
  destruct c as [[] [] [] [] [] [] [] []]; try reflexivity.
  cbn [Ascii.eqb Bool.eqb andb].
  destruct (scan_value f (skip_ws r2)) as [[v r3]|]; [|reflexivity].
  destruct (skip_ws r3) as [|c4 r4]; [reflexivity|].
  destruct c4 as [[] [] [] [] [] [] [] []]; reflexivity.
Qed.

Lemma scan_elements_eq (f : nat) (acc : list json) (s : string) :
  scan_elements (S f) acc s
  = match scan_value f s with
    | Some (v, r1) =>
        match skip_ws r1 with
        | EmptyString => None
        | String c r2 =>
            if Ascii.eqb c "]" then Some (JList (acc ++ [v]), r2)
            else if Ascii.eqb c "," then scan_elements f (acc ++ [v]) (skip_ws r2)
            else None
        end
    | None => None
    end.
Proof.
  rewrite scan_elements_step.
  destruct (scan_value f s) as [[v r1]|]; [|reflexivity].
  destruct (skip_ws r1) as [|c r2]; [reflexivity|].
  destruct c as [[] [] [] [] [] [] [] []]; reflexivity.
Qed.

Lemma scan_value_empty (f : nat) : scan_value f "" = None.
Proof. destruct f; reflexivity. Qed.

Lemma scan_members_empty (f : nat) (acc : list (string * json)) :
  scan_members f acc "" = None.
Proof. destruct f; reflexivity. Qed.

Lemma scan_elements_empty (f : nat) (acc : list json) : scan_elements f acc "" = None.
Proof. destruct f as [|f]; [reflexivity|]. rewrite scan_elements_eq, scan_value_empty. reflexivity. Qed.

(** What is read from a text is read the same way, with more fuel or not,
    when more text is appended: for a number, provided the text went on
    after it. *)
Lemma scan_stable (T : string) (f : nat) :
  (forall s v r f', f <= f' ->
     scan_value f s = Some (v, r) ->
     ends_here r = true \/ opens_number s = false ->
     scan_value f' (s ++ T) = Some (v, r ++ T))
  /\ (forall acc s v r f', f <= f' ->
        scan_members f acc s = Some (v, r) ->
        scan_members f' acc (s ++ T) = Some (v, r ++ T))
  /\ (forall acc s v r f', f <= f' ->
        scan_elements f acc s = Some (v, r) ->
        scan_elements f' acc (s ++ T) = Some (v, r ++ T)).
Proof.
  induction f as [|f (IHv & IHm & IHe)].
  - repeat split; intros; discriminate.
  - repeat split.
    + intros s v r [|f'] Hf H Hc; [lia|]. apply le_S_n in Hf.
      destruct s as [|c s]; [discriminate H|].
      cbn [String.append]. rewrite scan_value_eq in *.
      destruct (Ascii.eqb c dquote).
      { destruct (scan_string None s) as [[body rest]|] eqn:E; [|discriminate H].
        inversion H; subst.
        rewrite (scan_string_stable T (String.length s) s None body r (le_n _) E).
        reflexivity. }
      destruct (Ascii.eqb c "{").
      { destruct (skip_ws s) as [|c2 r2] eqn:E.
        - rewrite scan_members_empty in H. discriminate H.
        - rewrite (skip_ws_app s T c2 r2 E).
          destruct (Ascii.eqb c2 "}"); [inversion H; subst; reflexivity|].
          exact (IHm [] (String c2 r2) v r f' Hf H). }
      destruct (Ascii.eqb c "[").
      { destruct (skip_ws s) as [|c2 r2] eqn:E.
        - rewrite scan_elements_empty in H. discriminate H.
        - rewrite (skip_ws_app s T c2 r2 E).
          destruct (Ascii.eqb c2 "]"); [inversion H; subst; reflexivity|].
          exact (IHe [] (String c2 r2) v r f' Hf H). }
      change (String c (s ++ T)) with (String c s ++ T).
      destruct (Ascii.eqb c "n"); [exact (literal_stable T _ _ _ _ _ H)|].
      destruct (Ascii.eqb c "t"); [exact (literal_stable T _ _ _ _ _ H)|].
      destruct (Ascii.eqb c "f"); [exact (literal_stable T _ _ _ _ _ H)|].
      destruct (Ascii.eqb c "N"); [exact (literal_stable T _ _ _ _ _ H)|].
      destruct (Ascii.eqb c "I"); [exact (literal_stable T _ _ _ _ _ H)|].
      destruct (String.prefix "-Infinity" (String c s)) eqn:Ep.
      { rewrite (prefix_stable T _ _ Ep). exact (literal_stable T _ _ _ _ _ H). }
      destruct (scan_number_opens _ _ _ H) as [Ho Hp]. rewrite (Hp T).
      destruct Hc as [Hc|Hc]; [|congruence].
      exact (scan_number_stable T _ _ _ H Hc).
    + intros acc s v r [|f'] Hf H; [lia|]. apply le_S_n in Hf.
      rewrite scan_members_eq in *.
      destruct s as [|q s]; [discriminate H|]. cbn [String.append].
      destruct (Ascii.eqb q dquote); [|discriminate H].
      destruct (scan_string None s) as [[key r1]|] eqn:Ek; [|discriminate H].
      rewrite (scan_string_stable T (String.length s) s None key r1 (le_n _) Ek).
      destruct (skip_ws r1) as [|c r2] eqn:E1; [discriminate H|].
      rewrite (skip_ws_app r1 T c r2 E1).
      destruct (Ascii.eqb c ":"); [|discriminate H].
      destruct (scan_value f (skip_ws r2)) as [[x r3]|] eqn:Ev; [|discriminate H].
      destruct (skip_ws r3) as [|c4 r4] eqn:E3; [discriminate H|].
      assert (Hn2 : nonempty (skip_ws r2) = true).
      { destruct (skip_ws r2); [rewrite scan_value_empty in Ev; discriminate Ev | reflexivity]. }
      rewrite (skip_ws_append r2 T Hn2).
      assert (He3 : ends_here r3 = true).
      { apply (skip_ws_ends_here r3 c4 r4 E3).
        destruct (Ascii.eqb_spec c4 "}"); [subst; reflexivity|].
        destruct (Ascii.eqb_spec c4 ","); [subst; reflexivity | discriminate H]. }
      rewrite (IHv (skip_ws r2) x r3 f' Hf Ev (or_introl He3)).
      rewrite (skip_ws_app r3 T c4 r4 E3).
      destruct (Ascii.eqb c4 "}"); [inversion H; subst; reflexivity|].
      destruct (Ascii.eqb c4 ","); [|discriminate H].
      assert (Hn4 : nonempty (skip_ws r4) = true).
      { destruct (skip_ws r4); [rewrite scan_members_empty in H; discriminate H | reflexivity]. }
      rewrite (skip_ws_append r4 T Hn4).
      exact (IHm _ _ v r f' Hf H).
    + intros acc s v r [|f'] Hf H; [lia|]. apply le_S_n in Hf.
      rewrite scan_elements_eq in *.
      destruct (scan_value f s) as [[x r1]|] eqn:Ev; [|discriminate H].
      destruct (skip_ws r1) as [|c r2] eqn:E1; [discriminate H|].
      assert (He1 : ends_here r1 = true).
      { apply (skip_ws_ends_here r1 c r2 E1).
        destruct (Ascii.eqb_spec c "]"); [subst; reflexivity|].
        destruct (Ascii.eqb_spec c ","); [subst; reflexivity | discriminate H]. }
      rewrite (IHv s x r1 f' Hf Ev (or_introl He1)).
      rewrite (skip_ws_app r1 T c r2 E1).
      destruct (Ascii.eqb c "]"); [inversion H; subst; reflexivity|].
      destruct (Ascii.eqb c ","); [|discriminate H].
      assert (Hn2 : nonempty (skip_ws r2) = true).
      { destruct (skip_ws r2); [rewrite scan_elements_empty in H; discriminate H | reflexivity]. }
      rewrite (skip_ws_append r2 T Hn2).
      exact (IHe _ _ v r f' Hf H).
Qed.

(** *** A request that comes in pieces *)

Lemma string_app_split (p T a b : string) :
  p ++ T = a ++ b ->
  (exists x, a = p ++ x /\ T = x ++ b) \/ (exists y, p = a ++ y /\ b = y ++ T).
Proof.
  revert a. induction p as [|c p IH]; intros a H.
  - left. exists a. split; [reflexivity | exact H].
  - destruct a as [|c' a].
    + right. exists (String c p). split; [reflexivity | symmetry; exact H].
    + cbn [String.append] in H. inversion H; subst c'.
      destruct (IH a H2) as [(x & -> & ->)|(y & -> & ->)].
      * left. exists x. split; reflexivity.
      * right. exists y. split; reflexivity.
Qed.

Lemma head_of_prefix (p x : string) :
  nonempty p = true ->
  opens_value (p ++ x) = opens_value p /\ opens_number (p ++ x) = opens_number p.
Proof. destruct p; [discriminate | split; reflexivity]. Qed.

(** No proper prefix of the text of a document is a document, unless the
    text opens a number. *)
Lemma loads_prefix_fails (request : json) (p x : string) (v : json) :
  document request = true ->
  opens_number (json_dumps false request) = false ->
  json_dumps false request = p ++ x -> nonempty x = true ->
  json_loads p <> Ok v.
Proof.
  intros Hd Hn Hp Hx. unfold json_loads.
  destruct (nonempty p) eqn:Ep.
  - destruct (head_of_prefix p x Ep) as [Ho Hnum].
    pose proof (dumps_opens request "" Hd) as Hov. rewrite app_empty, Hp, Ho in Hov.
    rewrite Hp, Hnum in Hn.
    rewrite (skip_ws_opens p Hov).
    destruct (scan_value (S (2 * String.length p)) p) as [[w r]|] eqn:E; [|discriminate].
    destruct (scan_stable x (S (2 * String.length p))) as [Hv _].
    set (F := 2 * String.length p + String.length (json_dumps false request)).
    assert (HF : String.length (json_dumps false request) <= F) by lia.
    assert (HF' : S (2 * String.length p) <= S F) by lia.
    clearbody F.
    pose proof (Hv p w r (S F) HF' E (or_intror Hn)) as Hs.
    pose proof (document_reads_back request Hd F "" HF eq_refl) as Hr.
    rewrite app_empty, Hp, Hs in Hr. inversion Hr as [[Hw Hrx]].
    destruct r; [|discriminate Hrx]. cbn [String.append] in Hrx. subst x. discriminate Hx.
  - destruct p; [|discriminate Ep]. cbn. discriminate.
Qed.

(** What is read from the text of a document and some more is the document. *)
Lemma loads_with_more (request : json) (y : string) (v : json) :
  document request = true -> ends_number y = true ->
  json_loads (json_dumps false request ++ y) = Ok v -> v = request.
Proof.
  intros Hd Hy. unfold json_loads.
  rewrite (skip_ws_opens _ (dumps_opens request y Hd)).
  rewrite (document_reads_back request Hd _ y); [| rewrite string_length_app; lia | exact Hy].
  destruct (skip_ws y); [|discriminate]. intros H. inversion H. reflexivity.
Qed.

Lemma prefix_short (m s : string) :
  String.length s < String.length m -> String.prefix m s = false.
Proof.
  revert s. induction m as [|a m IH]; intros s H; [cbn in H; lia|].
  destruct s as [|c s]; [reflexivity|]. cbn [String.length] in H. cbn [String.prefix].
  destruct (ascii_dec a c); [apply IH; lia | reflexivity].
Qed.

Lemma contains_short (m s : string) :
  String.length s < String.length m -> contains m s = false.
Proof.
  induction s as [|c s IH]; intros H; cbn [contains]; rewrite (prefix_short m _ H).
  - reflexivity.
  - cbn [String.length] in H. apply IH. lia.
Qed.

Lemma contains_part_of_mark (req y T : string) :
  one_line req = true -> END_MARK = y ++ T -> nonempty T = true ->
  contains END_MARK (req ++ y) = false.
Proof.
  intros Hr Hy HT. induction req as [|c req IH].
  - cbn [String.append]. apply contains_short.
    rewrite Hy, string_length_app. destruct T; [discriminate HT | cbn [String.length]; lia].
  - cbn [one_line] in Hr. apply andb_prop in Hr as [Hc Hr]. apply negb_true_iff in Hc.
    cbn [String.append contains]. rewrite (prefix_END_MARK c _ Hc), (IH Hr). reflexivity.
Qed.

Lemma part_of_mark_ends (y T : string) : END_MARK = y ++ T -> ends_number y = true.
Proof.
  destruct y as [|c y]; [reflexivity|]. unfold END_MARK, nl. cbn [String.append].
  intros H. inversion H; subst. reflexivity.
Qed.

(** What the receiving loop has in hand when it has read part of the bytes
    of a request: either it goes on reading, or what it has decodes to the
    request. *)
Lemma data_in_hand (request : json) (data T : string) :
  document request = true ->
  opens_number (json_dumps false request) = false ->
  data ++ T = json_dumps false request ++ END_MARK -> nonempty T = true ->
  contains END_MARK data = false
  /\ forall v, loads_bytes data = Ok v -> v = request.
Proof.
  intros Hd Hn HT Hne.
  pose proof (one_line_dumps request Hd) as Hl.
  destruct (string_app_split _ _ _ _ HT) as [(x & Hx & HTx)|(y & Hy & Hm)].
  - split.
    + apply contains_one_line. rewrite Hx, one_line_app in Hl.
      apply andb_prop in Hl as [Hl _]. exact Hl.
    + intros v Hv. unfold loads_bytes, decode_utf8 in Hv.
      destruct (utf8_ok 0 128 191 data); [|discriminate Hv].
      destruct (nonempty x) eqn:Ex.
      * destruct (loads_prefix_fails request data x v Hd Hn Hx Ex Hv).
      * destruct x; [|discriminate Ex]. rewrite app_empty in Hx. subst data.
        rewrite (document_round_trip request Hd) in Hv. inversion Hv. reflexivity.
  - subst data. split.
    + exact (contains_part_of_mark _ y T Hl Hm Hne).
    + intros v Hv. unfold loads_bytes, decode_utf8 in Hv.
      destruct (utf8_ok 0 128 191 _); [|discriminate Hv].
      exact (loads_with_more request y v Hd (part_of_mark_ends y T Hm) Hv).
Qed.

Lemma nonempty_app (a b : string) : nonempty b = true -> nonempty (a ++ b) = true.
Proof. destruct a; [intros H; exact H | reflexivity]. Qed.

(** However the bytes of a request and the sentinel are cut into reads, the
    loop ends with bytes that decode to the request. *)
Lemma receive_pieces (request : json) (tail : list recv_event) :
  document request = true -> unicode request = true ->
  opens_number (json_dumps false request) = false ->
  forall (chunks : list string) (data : string),
    Forall (fun c => nonempty c = true) chunks -> chunks <> [] ->
    data ++ joined chunks = json_dumps false request ++ END_MARK ->
    exists data',
      receive data (map Recv chunks ++ tail)%list = Ok data'
      /\ nonempty data' = true /\ loads_bytes data' = Ok request.
Proof.
  intros Hd Hu Hn chunks. induction chunks as [|c cs IH]; intros data Hall Hne Hcat;
    [congruence|].
  inversion Hall as [|? ? Hc Hcs]; subst.
  cbn [map List.app receive]. rewrite Hc. cbn [negb].
  cbn [joined fold_right] in Hcat. fold (joined cs) in Hcat.
  rewrite <- app_string_assoc in Hcat.
  destruct cs as [|c2 cs].
  - cbn [joined fold_right] in Hcat. rewrite app_empty in Hcat. rewrite Hcat.
    rewrite contains_app_right, (replace_END_MARK _ (one_line_dumps request Hd)).
    exists (json_dumps false request).
    split; [reflexivity|]. split; [exact (dumps_nonempty request Hd) | exact (loads_dumps request Hd Hu)].
  - assert (Hrest : nonempty (joined (c2 :: cs)) = true).
    { inversion Hcs as [|? ? Hc2 _]; subst. cbn [joined fold_right].
      destruct c2; [discriminate Hc2 | reflexivity]. }
    destruct (data_in_hand request (data ++ c) _ Hd Hn Hcat Hrest) as [Hno Hload].
    rewrite Hno. destruct (loads_bytes (data ++ c)) as [v|e] eqn:El.
    + exists (data ++ c). split; [reflexivity|]. split; [exact (nonempty_app data c Hc)|].
      assert (Hv : v = request) by (apply Hload; first [exact El | reflexivity]).
      subst v. exact El.
    + apply IH; [exact Hcs | discriminate | exact Hcat].
Qed.

Lemma dict_opens_no_number (d : list (string * json)) :
  opens_number (json_dumps false (JDict d)) = false.
Proof. rewrite json_dumps_dict. reflexivity. Qed.

Lemma joined_nonempty (chunks : list string) :
  nonempty (joined chunks) = true -> chunks <> [].
Proof. destruct chunks; [discriminate | discriminate]. Qed.

Section Pieces.

Variable python : interpreter.
Variable sys_getsizeof : value -> option Z.
Variable exec : json -> kernel -> kernel * option exc.

(** X26. However the bytes of a request and of the sentinel are cut into
    reads, [handle_client] routes the request the caller wrote: no read that
    ends inside the request, or inside the sentinel, makes the loop stop on
    something else.  The request is a dictionary, as every caller sends. *)
Theorem X26_request_in_pieces
        (d : list (string * json)) (chunks : list string) (tail : list recv_event)
        (fails : bool) (env : probe) (k : kernel) :
  document (JDict d) = true -> unicode (JDict d) = true ->
  Forall (fun c => nonempty c = true) chunks ->
  joined chunks = json_dumps false (JDict d) ++ END_MARK ->
  let conn := mkConnection (map Recv chunks ++ tail)%list fails in
  handle_client python sys_getsizeof exec conn env k
  = match route python sys_getsizeof exec env (JDict d) k with
    | (Ok result, k') => mkHandled (sendall conn (json_dumps false result)) None k'
    | (Raise e, k') => on_exception conn e k'
    end.
Proof.
  intros Hd Hu Hall Hcat conn. unfold handle_client. subst conn. cbn [incoming].
  assert (Hne : chunks <> []).
  { apply joined_nonempty. rewrite Hcat. apply nonempty_app. reflexivity. }
  destruct (receive_pieces (JDict d) tail Hd Hu (dict_opens_no_number d) chunks ""
              Hall Hne Hcat) as (data & Hr & Hn & Hl).
  rewrite Hr, Hn, Hl. reflexivity.
Qed.

End Pieces.

(** *** An answer that comes in pieces *)

Lemma elapsed_nonneg (pieces : list (Z * string)) :
  in_pieces pieces -> (0 <= elapsed pieces)%Z.
Proof.
  induction 1 as [|p l [Hp _] _ IH]; cbn [elapsed fold_right]; [lia|].
  fold (elapsed l). lia.
Qed.

Lemma loads_bytes_prefix_fails (result : json) (p x : string) :
  document result = true ->
  opens_number (json_dumps false result) = false ->
  json_dumps false result = p ++ x -> nonempty x = true ->
  exists e, loads_bytes p = Raise e.
Proof.
  intros Hd Hn Hp Hx. destruct (loads_bytes p) as [v|e] eqn:E; [|exists e; reflexivity].
  unfold loads_bytes, decode_utf8 in E.
  destruct (utf8_ok 0 128 191 p); [|discriminate E].
  destruct (loads_prefix_fails result p x v Hd Hn Hp Hx E).
Qed.

(** The receiving loop of [_execute_in_kernel] puts the pieces of an answer
    together when they come in time. *)
Lemma recv_response_pieces (timeout start : Z) (result : json)
      (rest : list (Z * recv_event)) :
  document result = true -> unicode result = true ->
  opens_number (json_dumps false result) = false ->
  forall (pieces : list (Z * string)) (response : string) (w : world),
    in_pieces pieces -> pieces <> [] ->
    response ++ joined (map snd pieces) = json_dumps false result ->
    (clock w - start + elapsed pieces <= timeout * 1000)%Z ->
    exists w',
      recv_response timeout start response (reads pieces ++ rest)%list w
      = (Broke (json_dumps false result), w').
Proof.
  intros Hd Hu Hn pieces.
  induction pieces as [|[dt c] ps IH]; intros response w Hall Hne Hcat Ht; [congruence|].
  inversion Hall as [|? ? [Hdt Hc] Hps]; subst. cbn [fst snd] in Hdt, Hc.
  pose proof (elapsed_nonneg ps Hps) as Hel.
  cbn [elapsed fold_right fst] in Ht. fold (elapsed ps) in Ht.
  cbn [reads map List.app fst snd recv_response]. fold (reads ps).
  replace (timeout * 1000 <? clock w - start)%Z with false
    by (symmetry; apply Z.ltb_ge; lia).
  rewrite Hc. cbn [negb].
  cbn [map snd joined fold_right] in Hcat. fold (joined (map snd ps)) in Hcat.
  rewrite <- app_string_assoc in Hcat.
  destruct ps as [|q ps].
  - cbn [map joined fold_right] in Hcat. rewrite app_empty in Hcat. rewrite Hcat.
    rewrite (loads_dumps result Hd Hu). eexists. reflexivity.
  - assert (Hx : nonempty (joined (map snd (q :: ps))) = true).
    { inversion Hps as [|? ? [_ Hq] _]; subst. cbn [map joined fold_right].
      destruct (snd q); [discriminate Hq | reflexivity]. }
    destruct (loads_bytes_prefix_fails result _ _ Hd Hn (eq_sym Hcat) Hx) as [e He].
    rewrite He. apply IH; [exact Hps | discriminate | exact Hcat |].
    cbn [tick clock]. lia.
Qed.

(** X27. An answer of the kernel that reaches [_execute_in_kernel] cut into
    pieces, all within the time allowed, is put together: the caller
    returns the text [format_result] makes of the document, as when the
    answer comes in one piece.  The answer is a dictionary, as every answer
    of the kernel is. *)
Theorem X27_answer_in_pieces
        (code : string) (timeout : Z) (_retry : bool) (w w1 w2 : world) (p : peer)
        (d : list (string * json)) (pieces : list (Z * string))
        (rest : list (Z * recv_event)) :
  ensure_running w = (Ok tt, w1) -> connect w1 = (Connected p, w2) ->
  send_error p = None ->
  document (JDict d) = true -> unicode (JDict d) = true ->
  in_pieces pieces -> joined (map snd pieces) = json_dumps false (JDict d) ->
  (elapsed pieces <= timeout * 1000)%Z ->
  answers p = (reads pieces ++ rest)%list ->
  fst (_execute_in_kernel code timeout _retry w)
  = match format_result (JDict d) with
    | Ok text => Ok text
    | Raise e => on_failure timeout e
    end.
Proof.
  intros He Hc Hs Hd Hu Hall Hcat Ht Ha.
  unfold _execute_in_kernel, execute_in_kernel_body at 1.
  rewrite He, Hc, Hs, Ha. cbv zeta.
  assert (Hne : pieces <> []).
  { intros ->. pose proof (dumps_nonempty (JDict d) Hd) as H.
    rewrite <- Hcat in H. discriminate H. }
  destruct (recv_response_pieces timeout
              (clock (log (Send (json_dumps false (JDict [("code", JStr code)]) ++ END_MARK)) w2))
              (JDict d) rest Hd Hu (dict_opens_no_number d) pieces ""
              (log (Send (json_dumps false (JDict [("code", JStr code)]) ++ END_MARK)) w2)
              Hall Hne Hcat ltac:(lia)) as [w' Hr].
  rewrite Hr. rewrite (dumps_nonempty (JDict d) Hd). cbn [negb].
  rewrite (loads_dumps (JDict d) Hd Hu).
  destruct (format_result (JDict d)); reflexivity.
Qed.

(** The receiving loop of [_send_kernel_command] gathers the pieces until
    the peer closes. *)
Lemma recv_all_pieces (pieces : list (Z * string)) :
  forall (response : string) (w : world),
    in_pieces pieces ->
    exists w', recv_all response (reads pieces) w
               = (Ok (response ++ joined (map snd pieces)), w').
Proof.
  induction pieces as [|[dt c] ps IH]; intros response w Hall.
  - exists w. cbn. rewrite app_empty. reflexivity.
  - inversion Hall as [|? ? [_ Hc] Hps]; subst. cbn [snd] in Hc.
    cbn [reads map fst snd recv_all]. fold (reads ps). rewrite Hc. cbn [negb].
    destruct (IH (response ++ c) (tick dt w) Hps) as [w' H].
    exists w'. rewrite H. cbn [joined fold_right]. fold (joined (map snd ps)).
    rewrite app_string_assoc. reflexivity.
Qed.

Lemma command_attempts_pieces
      (n : nat) (request : string) (w w1 : world) (p : peer)
      (result : json) (pieces : list (Z * string)) :
  connect w = (Connected p, w1) -> send_error p = None ->
  document result = true -> unicode result = true ->
  in_pieces pieces -> joined (map snd pieces) = json_dumps false result ->
  answers p = reads pieces ->
  fst (command_attempts (S n) request w) = Ok result.
Proof.
  intros Hc Hs Hd Hu Hall Hcat Ha. cbn [command_attempts]. rewrite Hc, Hs, Ha. cbv zeta.
  destruct (recv_all_pieces pieces "" (log (Send (request ++ END_MARK)) w1) Hall) as [w' H].
  rewrite H. cbn [String.append]. rewrite Hcat.
  rewrite (dumps_nonempty result Hd). cbn [negb].
  rewrite (loads_dumps result Hd Hu). reflexivity.
Qed.

(** X28. An answer of the kernel that reaches [_send_kernel_command] cut
    into pieces, after which the kernel closes the connection, is put
    together whatever the time the pieces take: the caller returns the
    document, at the first attempt. *)
Theorem X28_command_answer_in_pieces
        (action : string) (kwargs : list (string * json)) (w w1 : world) (pid : nat)
        (p : peer) (result : json) (pieces : list (Z * string)) :
  KERNEL_PROCESS w = Some pid -> connect w = (Connected p, w1) -> send_error p = None ->
  document result = true -> unicode result = true ->
  in_pieces pieces -> joined (map snd pieces) = json_dumps false result ->
  answers p = reads pieces ->
  fst (_send_kernel_command action kwargs w) = Ok result.
Proof.
  intros Hp Hc Hs Hd Hu Hall Hcat Ha. unfold _send_kernel_command. rewrite Hp.
  exact (command_attempts_pieces 2 _ w w1 p result pieces Hc Hs Hd Hu Hall Hcat Ha).
Qed.

(** * The further properties at work *)


(** X2 at work: [None] as the pattern, on a kernel that holds a variable. *)
Lemma X2_falsy_pattern_is_no_pattern_witness :
  let k := set_namespace [("__name__", VStr "__main__"); ("x", VInt 1)] (initial_kernel 0) in
  truthy JNull = false
  /\ handle_inspect ascii_python (fun _ => Some 28%Z) JNull k
     = handle_inspect ascii_python (fun _ => Some 28%Z) (JStr "") k.
Proof.
  intros k. split; [reflexivity|].
  apply (X2_falsy_pattern_is_no_pattern ascii_python (fun _ => Some 28%Z) JNull k).
  reflexivity.
Defined.

(** X3 at work: the number 5 as the pattern; and a float too small to be
    told from zero, which is no pattern at all. *)
Lemma X3_pattern_that_is_no_string_witness :
  let k := set_namespace [("__name__", VStr "__main__"); ("x", VInt 1)] (initial_kernel 0) in
  truthy (JInt 5) = true
  /\ truthy (JFloat "1e-400") = false
  /\ handle_inspect ascii_python (fun _ => Some 28%Z) (JInt 5) k
     = (Raise (mkExc "AttributeError" "'int' object has no attribute 'lower'"), k).
Proof.
  intros k. split; [reflexivity|]. split; [vm_compute; reflexivity|].
  apply (X3_pattern_that_is_no_string ascii_python (fun _ => Some 28%Z) (JInt 5) k);
    [reflexivity | intros s; discriminate].
Defined.

(** X5 at work: a kernel that has just started. *)
Lemma X5_output_of_a_call_only_witness :
  let k := initial_kernel 0 in
  let r := execute_code py_exec (JStr "print(1)") k in
  fresh_buffers k
  /\ fresh_buffers (snd r)
  /\ next_id (snd r) = 2 + next_id k.
Proof.
  intros k r.
  assert (Hf : fresh_buffers k) by (intros i t []).
  split; [exact Hf|].
  destruct (X5_output_of_a_call_only (JStr "print(1)") k Hf) as (H1 & H2 & _).
  split; [exact H1 | exact H2].
Defined.

(** X6 at work: [x] stays while [y] is assigned. *)
Lemma X6_bindings_persist_witness :
  let k := set_namespace [("__name__", VStr "__main__"); ("x", VInt 1)] (initial_kernel 0) in
  runs_fragment py_exec
  /\ py_compile "y = 2" = Some [SAssign "y" (EInt 2)]
  /\ py_run "y = 2" (capturing k) <> None
  /\ dict_get (global_namespace k) "x" = Some (VInt 1)
  /\ rebinds [SAssign "y" (EInt 2)] "x" = false
  /\ dict_get (global_namespace (snd (execute_code py_exec (JStr "y = 2") k))) "x"
     = Some (VInt 1).
Proof.
  intros k.
  assert (H0 : py_compile "y = 2" = Some [SAssign "y" (EInt 2)]) by reflexivity.
  assert (Hd : py_run "y = 2" (capturing k) <> None) by discriminate.
  assert (H1 : dict_get (global_namespace k) "x" = Some (VInt 1)) by reflexivity.
  assert (H2 : rebinds [SAssign "y" (EInt 2)] "x" = false) by reflexivity.
  split; [exact py_exec_runs_fragment|]. split; [exact H0|]. split; [exact Hd|].
  split; [exact H1|]. split; [exact H2|].
  exact (X6_bindings_persist py_exec "y = 2" "x" _ (VInt 1) k
                             py_exec_runs_fragment H0 Hd H1 H2).
Defined.

(** X10 at work: [y] was bound, the kernel is reset, [y] is printed. *)
Lemma X10_reset_forgets_witness :
  let k := set_namespace [("__name__", VStr "__main__"); ("y", VInt 1)] (initial_kernel 0) in
  runs_fragment py_exec
  /\ py_compile "print(y)" = Some [SPrint (Some (EName "y"))]
  /\ dict_get (builtins k) "print" = Some (VBuiltinFn "print")
  /\ dict_get (builtins k) "y" = None
  /\ mem "y" constant_keywords = false
  /\ exists (e : exc) (out err : string),
       exc_class e = "NameError"
       /\ fst (execute_code py_exec (JStr "print(y)") (snd (handle_reset k)))
          = Ok (execute_result false out err (JStr (format_exc e))).
Proof.
  intros k.
  assert (H1 : py_compile "print(y)" = Some [SPrint (Some (EName "y"))]) by reflexivity.
  assert (H2 : dict_get (builtins k) "print" = Some (VBuiltinFn "print")) by reflexivity.
  assert (H3 : dict_get (builtins k) "y" = None) by reflexivity.
  assert (H4 : mem "y" constant_keywords = false) by reflexivity.
  split; [exact py_exec_runs_fragment|]. split; [exact H1|]. split; [exact H2|].
  split; [exact H3|]. split; [exact H4|].
  apply (X10_reset_forgets py_exec "print(y)" "y" k py_exec_runs_fragment H1 H2 H3 H4);
    discriminate.
Defined.

(** X11 at work: nesting, a negative number, a float, a string with a line
    feed and a quote in it. *)
Lemma X11_document_round_trip_witness :
  let j := JDict [("a", JList [JInt (-30); JFloat "1.5"; JNull; JBool true]);
                  ("b", JStr ("x" ++ nl ++ String dquote "y"));
                  ("c", JDict [])] in
  document j = true /\ json_loads (json_dumps false j) = Ok j.
Proof.
  intros j.
  assert (H : document j = true) by (vm_compute; reflexivity).
  split; [exact H | exact (X11_document_round_trip j H)].
Defined.

(** X12 at work: code of two lines goes as one line of text. *)
Lemma X12_sentinel_not_in_a_document_witness :
  let j := JDict [("code", JStr ("x = 1" ++ nl ++ "__END__" ++ nl ++ "print(x)"))] in
  document j = true
  /\ contains END_MARK (json_dumps false j) = false
  /\ replace END_MARK "" (json_dumps false j ++ END_MARK) = json_dumps false j.
Proof.
  intros j.
  assert (H : document j = true) by reflexivity.
  split; [exact H|].
  destruct (X12_sentinel_not_in_a_document j H) as (_ & H2 & _ & H4 & _).
  split; [exact H2 | exact H4].
Defined.

(** X13 at work. *)
Lemma X13_code_request_is_executed_witness :
  let code := "print(1)" in
  let conn := mkConnection
                [Recv (json_dumps false (JDict [("code", JStr code)]) ++ END_MARK)] false in
  is_text code = true
  /\ reply (handle_client ascii_python (fun _ => None) py_exec conn (mkProbe 1000 None) (initial_kernel 0))
     = [json_dumps false (execute_result true ("1" ++ nl) "" JNull)].
Proof.
  intros code conn.
  assert (H : is_text code = true) by reflexivity.
  split; [exact H|]. subst conn.
  rewrite (X13_code_request_is_executed ascii_python (fun _ => None) py_exec code [] false
             (mkProbe 1000 None) (initial_kernel 0) H).
  vm_compute. reflexivity.
Defined.

(** X14 at work: the kernel answers with the document of a print. *)
Lemma X14_caller_shows_the_answer_witness :
  let result := execute_result true ("1" ++ nl) "" JNull in
  let p := mkPeer None [(5%Z, Recv (json_dumps false result))] in
  let w := mkWorld true [Connected (mkPeer None []); Connected p] [] [] 0 None [] in
  ensure_running w = (Ok tt, snd (ensure_running w))
  /\ fst (_execute_in_kernel "print(1)" 60 true w)
     = Ok ("OK 成功" ++ nl ++ "--- Output ---" ++ nl ++ "1" ++ nl).
Proof.
  intros result p w.
  assert (H1 : ensure_running w = (Ok tt, snd (ensure_running w))) by reflexivity.
  assert (H2 : connect (snd (ensure_running w))
               = (Connected p, snd (connect (snd (ensure_running w))))) by reflexivity.
  split; [exact H1|].
  destruct (X14_caller_shows_the_answer "print(1)" 60 true w _ _ p result 5 []
              H1 H2 eq_refl ltac:(discriminate) eq_refl eq_refl eq_refl) as [H _].
  rewrite H. reflexivity.
Defined.

(** X15 at work: a print served by a kernel that has just started. *)
Lemma X15_call_served_by_the_kernel_witness :
  let code := "print(1)" in
  let k := initial_kernel 0 in
  let env := mkProbe 1000 None in
  let request := json_dumps false (JDict [("code", JStr code)]) ++ END_MARK in
  let h := handle_client ascii_python (fun _ => None) py_exec (mkConnection [Recv request] false) env k in
  let p := mkPeer None (map (fun payload => (5%Z, Recv payload)) (reply h)) in
  let w := mkWorld true [Connected (mkPeer None []); Connected p] [] [] 0 None [] in
  is_text code = true
  /\ reply h = [json_dumps false (execute_result true ("1" ++ nl) "" JNull)]
  /\ fst (_execute_in_kernel code 60 true w)
     = Ok ("OK 成功" ++ nl ++ "--- Output ---" ++ nl ++ "1" ++ nl).
Proof.
  intros code k env request h p w.
  assert (H0 : is_text code = true) by reflexivity.
  assert (H1 : ensure_running w = (Ok tt, snd (ensure_running w))) by reflexivity.
  assert (H2 : connect (snd (ensure_running w))
               = (Connected p, snd (connect (snd (ensure_running w))))) by reflexivity.
  assert (H3 : execute_code py_exec (JStr code) k
               = (Ok (execute_result true ("1" ++ nl) "" JNull),
                  snd (execute_code py_exec (JStr code) k)))
    by (vm_compute; reflexivity).
  split; [exact H0|].
  destruct (X15_call_served_by_the_kernel ascii_python (fun _ => None) py_exec code 60 true w _ _ p 5
              env k _ _ H0 ltac:(discriminate) H1 H2 eq_refl H3 eq_refl eq_refl)
    as (Hr & _ & _ & text & Hf & Hx).
  split; [exact Hr|].
  rewrite Hx. rewrite <- Hf. reflexivity.
Defined.

(** X20 at work. *)
Lemma X20_command_refused_witness :
  let w := mkWorld true [] [] [] 0 (Some 7) [] in
  KERNEL_PROCESS w = Some 7
  /\ fst (_send_kernel_command "status" [] w)
     = Ok (command_error "Kernel 未啟動或連線被拒絕")
  /\ clock (snd (_send_kernel_command "status" [] w)) = 2000%Z.
Proof.
  intros w.
  assert (H1 : KERNEL_PROCESS w = Some 7) by reflexivity.
  split; [exact H1|].
  destruct (X20_command_refused "status" [] w 7 H1 eq_refl) as (H2 & _ & H3).
  split; [exact H2 | exact H3].
Defined.

(** X21 at work: a reset command served by a kernel that holds a variable. *)
Lemma X21_command_served_by_the_kernel_witness :
  let k := set_namespace [("__name__", VStr "__main__"); ("x", VInt 1)] (initial_kernel 0) in
  let env := mkProbe 1000 None in
  let request := json_dumps false (command_request "reset" []) ++ END_MARK in
  let h := handle_client ascii_python (fun _ => None) py_exec (mkConnection [Recv request] false) env k in
  let p := mkPeer None (map (fun payload => (5%Z, Recv payload)) (reply h)) in
  let w := mkWorld true [Connected p] [] [] 0 (Some 7) [] in
  KERNEL_PROCESS w = Some 7
  /\ fst (_send_kernel_command "reset" [] w) = Ok (fst (handle_reset k))
  /\ after h = snd (handle_reset k).
Proof.
  intros k env request h p w.
  assert (H1 : KERNEL_PROCESS w = Some 7) by reflexivity.
  assert (H2 : connect w = (Connected p, snd (connect w))) by reflexivity.
  split; [exact H1|].
  destruct (X21_command_served_by_the_kernel ascii_python (fun _ => None) py_exec "reset" [] w _ 7 p 5
              env k (snd (handle_reset k)) (fst (handle_reset k))
              H1 H2 eq_refl eq_refl eq_refl eq_refl eq_refl
              ltac:(vm_compute; reflexivity) eq_refl) as (Ha & _ & Hb).
  split; [exact Ha | exact Hb].
Defined.

(** X22 at work: a kernel up for 75.5 seconds, with one variable, on a
    machine without [psutil]. *)
Lemma X22_status_served_by_the_kernel_witness :
  let k := set_namespace [("__name__", VStr "__main__"); ("x", VInt 1)] (initial_kernel 0) in
  let env := mkProbe 75500 None in
  let request := json_dumps false (command_request "status" []) ++ END_MARK in
  let h := handle_client ascii_python (fun _ => None) py_exec (mkConnection [Recv request] false) env k in
  let p := mkPeer None (map (fun payload => (5%Z, Recv payload)) (reply h)) in
  let w := mkWorld true [Connected (mkPeer None []); Connected p] [] [] 0 (Some 7) [] in
  _is_kernel_running w = (true, snd (_is_kernel_running w))
  /\ fst (kernel_status w)
     = Ok ("🟢 KERNEL 狀態" ++ nl
           ++ "├─ 運行時間: 1 分 15 秒" ++ nl
           ++ "├─ 變數數量: 1 個" ++ nl
           ++ "└─ 記憶體使用: 無法取得（需安裝 psutil）").
Proof.
  intros k env request h p w.
  assert (H1 : _is_kernel_running w = (true, snd (_is_kernel_running w))) by reflexivity.
  assert (H2 : connect (snd (_is_kernel_running w))
               = (Connected p, snd (connect (snd (_is_kernel_running w))))) by reflexivity.
  split; [exact H1|].
  destruct (X22_status_served_by_the_kernel ascii_python (fun _ => None) py_exec w _ _ 7 p 5 env k
              H1 eq_refl H2 eq_refl eq_refl) as [Ha _].
  rewrite Ha. vm_compute. reflexivity.
Defined.

(** X23 at work. *)
Lemma X23_reset_served_by_the_kernel_witness :
  let k := set_namespace [("__name__", VStr "__main__"); ("x", VInt 1)] (initial_kernel 0) in
  let env := mkProbe 1000 None in
  let request := json_dumps false (command_request "reset" []) ++ END_MARK in
  let h := handle_client ascii_python (fun _ => None) py_exec (mkConnection [Recv request] false) env k in
  let p := mkPeer None (map (fun payload => (5%Z, Recv payload)) (reply h)) in
  let w := mkWorld true [Connected (mkPeer None []); Connected p] [] [] 0 (Some 7) [] in
  _is_kernel_running w = (true, snd (_is_kernel_running w))
  /\ fst (reset_kernel w)
     = Ok ("🔄 RESET Kernel 已重置，所有變數和 import 已清空" ++ nl
           ++ "（下次執行需重新 import 套件）")
  /\ global_namespace (after h) = initial_namespace.
Proof.
  intros k env request h p w.
  assert (H1 : _is_kernel_running w = (true, snd (_is_kernel_running w))) by reflexivity.
  assert (H2 : connect (snd (_is_kernel_running w))
               = (Connected p, snd (connect (snd (_is_kernel_running w))))) by reflexivity.
  split; [exact H1|].
  destruct (X23_reset_served_by_the_kernel ascii_python (fun _ => None) py_exec w _ _ 7 p 5 env k
              H1 eq_refl H2 eq_refl eq_refl) as (Ha & Hb & _).
  split; [exact Ha | exact Hb].
Defined.


(** X26 at work: a request to print, cut in four, the cuts inside a key,
    inside the document and inside the sentinel. *)
Lemma X26_request_in_pieces_witness :
  let d := [("code", JStr "print(1)")] in
  let payload := json_dumps false (JDict d) ++ END_MARK in
  let chunks := [substring 0 5 payload; substring 5 13 payload;
                 substring 18 5 payload; substring 23 6 payload] in
  let conn := mkConnection (map Recv chunks) false in
  joined chunks = payload
  /\ reply (handle_client ascii_python (fun _ => None) py_exec conn (mkProbe 1000 None) (initial_kernel 0))
     = [json_dumps false (execute_result true ("1" ++ nl) "" JNull)].
Proof.
  intros d payload chunks conn.
  assert (H : joined chunks = payload) by reflexivity.
  split; [exact H|]. subst conn.
  pose proof (X26_request_in_pieces ascii_python (fun _ => None) py_exec d chunks [] false
                (mkProbe 1000 None) (initial_kernel 0) eq_refl eq_refl
                ltac:(repeat constructor) H) as E.
  cbv zeta in E. rewrite app_nil_r in E. rewrite E.
  vm_compute. reflexivity.
Defined.

(** X27 at work: the answer to a print comes in two pieces. *)
Lemma X27_answer_in_pieces_witness :
  let d := [("success", JBool true); ("stdout", JStr ("1" ++ nl));
            ("stderr", JStr ""); ("error", JNull)] in
  let text := json_dumps false (JDict d) in
  let pieces := [(5%Z, substring 0 20 text);
                 (7%Z, substring 20 (String.length text - 20) text)] in
  let p := mkPeer None (reads pieces) in
  let w := mkWorld true [Connected (mkPeer None []); Connected p] [] [] 0 None [] in
  joined (map snd pieces) = text
  /\ fst (_execute_in_kernel "print(1)" 60 true w)
     = Ok ("OK 成功" ++ nl ++ "--- Output ---" ++ nl ++ "1" ++ nl).
Proof.
  intros d text pieces p w.
  assert (H : joined (map snd pieces) = text) by reflexivity.
  assert (H1 : ensure_running w = (Ok tt, snd (ensure_running w))) by reflexivity.
  assert (H2 : connect (snd (ensure_running w))
               = (Connected p, snd (connect (snd (ensure_running w))))) by reflexivity.
  split; [exact H|].
  rewrite (X27_answer_in_pieces "print(1)" 60 true w _ _ p d pieces []
             H1 H2 eq_refl eq_refl eq_refl
             ltac:(repeat constructor; discriminate) H ltac:(discriminate)
             ltac:(symmetry; apply app_nil_r)).
  reflexivity.
Defined.

(** X28 at work: the answer to a command comes in three pieces. *)
Lemma X28_command_answer_in_pieces_witness :
  let result := JDict [("success", JBool true); ("message", JStr "ok")] in
  let text := json_dumps false result in
  let pieces := [(5%Z, substring 0 3 text); (900%Z, substring 3 9 text);
                 (1%Z, substring 12 (String.length text - 12) text)] in
  let p := mkPeer None (reads pieces) in
  let w := mkWorld true [Connected p] [] [] 0 (Some 7) [] in
  joined (map snd pieces) = text
  /\ fst (_send_kernel_command "reset" [] w) = Ok result.
Proof.
  intros result text pieces p w.
  assert (H : joined (map snd pieces) = text) by reflexivity.
  assert (H2 : connect w = (Connected p, snd (connect w))) by reflexivity.
  split; [exact H|].
  exact (X28_command_answer_in_pieces "reset" [] w _ 7 p result pieces
           eq_refl H2 eq_refl eq_refl eq_refl
           ltac:(repeat constructor; discriminate) H eq_refl).
Defined.
